(** * ETSI specification resolver: a shallow embedding of get_etsi_spec.py

    The development follows
    [src/skills/standards/etsi-spec/scripts/get_etsi_spec.py] function by
    function.  Python values are embedded as follows.

    - [str] is [string]; a character is an [ascii] read as an ASCII code
      point.  The character classes ([str.strip], [\d], [\s], [\w],
      [str.upper], [str.lower]) are Python's on the code points below 128;
      a character above 127 is in no class and has no case.
    - An exception is a value of [exn]; a call that may raise returns a
      [result].
    - [re] is a small backtracking engine: [Re.compile] parses the pattern
      text the source passes to [re.match] and [re.search], so the patterns
      below are the source's, character for character.
    - The network, the HTML parser and the PDF reader are not part of the
      script: they are variables of the section the resolver lives in. *)

From Stdlib Require Import ZArith NArith String Ascii List Bool Lia.
From Stdlib Require Import Decimal DecimalString DecimalPos.
From stdpp Require Import base gmap strings list.
Import ListNotations.

Local Open Scope string_scope.
Local Open Scope Z_scope.

(** ** Exceptions and results *)

Inductive exn : Type :=
| ValueError (msg : string)
| ReError (msg : string) (pos : nat)
| ConnectionError (msg : string)
| Timeout (msg : string)
| HTTPError (status : Z)
| IndexError (msg : string)
| TypeError (msg : string)
| LibraryError (msg : string)
| Unmodelled (what : string).

Inductive result (A : Type) : Type :=
| Ok (a : A)
| Raise (e : exn).
Arguments Ok {A} a.
Arguments Raise {A} e.

Definition rbind {A B} (x : result A) (f : A -> result B) : result B :=
  match x with
  | Ok a => f a
  | Raise e => Raise e
  end.

(** [requests.RequestException] and its subclasses. *)
Definition is_request_exception (e : exn) : bool :=
  match e with
  | ConnectionError _ | Timeout _ | HTTPError _ => true
  | _ => false
  end.

(** ** Characters *)

Module Char.

Definition code (c : ascii) : N := N_of_ascii c.

Definition between (lo hi : N) (c : ascii) : bool :=
  ((lo <=? code c) && (code c <=? hi))%N.

Definition isdigit (c : ascii) : bool := between 48 57 c.
Definition isupper (c : ascii) : bool := between 65 90 c.
Definition islower (c : ascii) : bool := between 97 122 c.

(** Python's whitespace below 128: TAB, LF, VT, FF, CR, FS, GS, RS, US
    and the space. *)
Definition isspace (c : ascii) : bool := between 9 13 c || between 28 32 c.

(** [\w]: alphanumeric or underscore. *)
Definition isword (c : ascii) : bool :=
  isdigit c || isupper c || islower c || (code c =? 95)%N.

Definition to_upper (c : ascii) : ascii :=
  if islower c then ascii_of_N (code c - 32) else c.

Definition to_lower (c : ascii) : ascii :=
  if isupper c then ascii_of_N (code c + 32) else c.

Definition eqb (a b : ascii) : bool := Ascii.eqb a b.

Definition newline : ascii := "010"%char.
Definition tab : ascii := "009"%char.
Definition carriage_return : ascii := "013"%char.
Definition backslash : ascii := "092"%char.
Definition double_quote : ascii := "034"%char.
Definition single_quote : ascii := "039"%char.

(** The hexadecimal digit of a number below 16, in lower case. *)
Definition hex_digit (n : N) : ascii :=
  if (n <? 10)%N then ascii_of_N (48 + n) else ascii_of_N (87 + n).

End Char.

(** ** Strings: the [str] methods the script calls *)

Module Str.

Fixpoint map (f : ascii -> ascii) (s : string) : string :=
  match s with
  | EmptyString => EmptyString
  | String c s' => String (f c) (map f s')
  end.

Definition upper : string -> string := map Char.to_upper.
Definition lower : string -> string := map Char.to_lower.

Definition is_empty (s : string) : bool :=
  match s with
  | EmptyString => true
  | String _ _ => false
  end.

Fixpoint all (p : ascii -> bool) (s : string) : bool :=
  match s with
  | EmptyString => true
  | String c s' => p c && all p s'
  end.

Fixpoint drop (n : nat) (s : string) : string :=
  match n, s with
  | O, _ => s
  | S n', String _ s' => drop n' s'
  | S _, EmptyString => EmptyString
  end.

Fixpoint take (n : nat) (s : string) : string :=
  match n, s with
  | S n', String c s' => String c (take n' s')
  | _, _ => EmptyString
  end.

(** [s.lstrip(chars)], [s.rstrip(chars)] and [s.strip(chars)] for the
    set of characters [p]. *)
Fixpoint lstrip_by (p : ascii -> bool) (s : string) : string :=
  match s with
  | EmptyString => EmptyString
  | String c s' => if p c then lstrip_by p s' else s
  end.

Fixpoint rstrip_by (p : ascii -> bool) (s : string) : string :=
  match s with
  | EmptyString => EmptyString
  | String c s' =>
      let r := rstrip_by p s' in
      if p c && is_empty r then EmptyString else String c r
  end.

Definition strip_by (p : ascii -> bool) (s : string) : string :=
  lstrip_by p (rstrip_by p s).

(** [s.strip()] *)
Definition strip : string -> string := strip_by Char.isspace.

(** [s.rstrip("/")] *)
Definition rstrip_chars (chars : string) : string -> string :=
  rstrip_by (fun c => existsb (Char.eqb c) (list_ascii_of_string chars)).

(** [s.startswith(p)] *)
Definition startswith (p s : string) : bool := String.prefix p s.

(** [sub in s] *)
Fixpoint contains (sub s : string) : bool :=
  startswith sub s ||
  match s with
  | EmptyString => false
  | String _ s' => contains sub s'
  end.

(** [s.replace(old, new)] for a non-empty [old]: every occurrence, left
    to right, no overlaps.  [skip] counts the characters of an occurrence
    still to be passed over. *)
Fixpoint replace_from (old new : string) (skip : nat) (s : string) : string :=
  match s with
  | EmptyString => EmptyString
  | String c s' =>
      match skip with
      | S n => replace_from old new n s'
      | O =>
          if startswith old s
          then new +:+ replace_from old new (String.length old - 1) s'
          else String c (replace_from old new O s')
      end
  end.

Definition replace (old new s : string) : string := replace_from old new O s.

(** [s.split(sep)] for a one-character separator. *)
Fixpoint split (sep : ascii) (s : string) : list string :=
  match s with
  | EmptyString => [EmptyString]
  | String c s' =>
      if Char.eqb c sep then EmptyString :: split sep s'
      else match split sep s' with
           | [] => [String c EmptyString]
           | w :: ws => String c w :: ws
           end
  end.

(** [s[n:]] and [s[:-n]] for [n > 0]. *)
Definition slice_from (n : nat) (s : string) : string := drop n s.
Definition slice_drop_last (n : nat) (s : string) : string :=
  take (String.length s - n) s.

(** [repr]: the quote is the single one, unless the text holds a single
    quote and no double one; the quote and the backslash are escaped, and
    so are the control characters.  In the [repr] of a byte string the
    bytes above 126 are escaped too. *)
Definition has_char (c : ascii) (s : string) : bool :=
  existsb (Char.eqb c) (list_ascii_of_string s).

Definition quote_of (s : string) : ascii :=
  if has_char Char.single_quote s && negb (has_char Char.double_quote s)
  then Char.double_quote
  else Char.single_quote.

Definition escape (bytes : bool) (quote c : ascii) : string :=
  if Char.eqb c quote || Char.eqb c Char.backslash
  then String Char.backslash (String c EmptyString)
  else if Char.eqb c Char.tab then String Char.backslash "t"
  else if Char.eqb c Char.newline then String Char.backslash "n"
  else if Char.eqb c Char.carriage_return then String Char.backslash "r"
  else if (Char.code c <? 32)%N || (Char.code c =? 127)%N
          || (bytes && (128 <=? Char.code c)%N)
  then String Char.backslash
         (String "x"
            (String (Char.hex_digit (Char.code c / 16))
               (String (Char.hex_digit (Char.code c mod 16)) EmptyString)))
  else String c EmptyString.

Fixpoint escape_all (bytes : bool) (quote : ascii) (s : string) : string :=
  match s with
  | EmptyString => EmptyString
  | String c s' => escape bytes quote c +:+ escape_all bytes quote s'
  end.

(** [repr(s)] for a text. *)
Definition repr (s : string) : string :=
  let quote := quote_of s in
  String quote (escape_all false quote s +:+ String quote EmptyString).

(** [repr(b)] for a byte string. *)
Definition repr_bytes (b : string) : string :=
  let quote := quote_of b in
  String "b" (String quote (escape_all true quote b +:+ String quote EmptyString)).

End Str.

(** ** Regular expressions: the part of [re] the script's patterns use *)

Module Re.

Inductive atom : Type :=
| ADigit
| ASpace
| AWord
| ALit (c : ascii).

Inductive cclass : Type :=
| COne (a : atom)
| CSet (negated : bool) (members : list atom).

Inductive regex : Type :=
| REps
| RChar (cl : cclass)
| RBol
| REol
| RSeq (r1 r2 : regex)
| RRep (lo : nat) (hi : option nat) (r : regex)
| RGroup (idx : nat) (r : regex).

(** *** Compiling a pattern *)

Definition is_char (c : ascii) (lit : string) : bool :=
  match lit with
  | String d EmptyString => Char.eqb c d
  | _ => false
  end.

Definition is_alnum (c : ascii) : bool :=
  Char.isdigit c || Char.isupper c || Char.islower c.

(** The character class after a backslash. *)
Definition escape (c : ascii) : result atom :=
  if is_char c "d" then Ok ADigit
  else if is_char c "s" then Ok ASpace
  else if is_char c "w" then Ok AWord
  else if is_alnum c then Raise (Unmodelled "escape")
  else Ok (ALit c).

(** The members of a set, up to the closing bracket; [start] is where
    the set opened. *)
Fixpoint parse_set (start : nat) (p : string) (pos : nat) (acc : list atom)
  : result (list atom * string * nat) :=
  match p with
  | EmptyString => Raise (ReError "unterminated character set" start)
  | String c p' =>
      if is_char c "]" then Ok (rev acc, p', S pos)
      else if is_char c "\" then
        match p' with
        | EmptyString => Raise (ReError "unterminated character set" start)
        | String e p'' =>
            rbind (escape e) (fun a => parse_set start p'' (S (S pos)) (a :: acc))
        end
      else if is_char c "-" then Raise (Unmodelled "range in a set")
      else parse_set start p' (S pos) (ALit c :: acc)
  end.

Fixpoint parse_nat (p : string) (pos : nat) (acc : option nat)
  : option nat * string * nat :=
  match p with
  | String c p' =>
      if Char.isdigit c
      then parse_nat p' (S pos)
             (Some (10 * default O acc + (N.to_nat (Char.code c) - 48))%nat)
      else (acc, p, pos)
  | EmptyString => (acc, p, pos)
  end.

(** The quantifier, if any, that follows an item. *)
Definition quantify (item : regex) (p : string) (pos : nat)
  : result (regex * string * nat) :=
  match p with
  | String c p' =>
      if is_char c "+" then Ok (RRep 1 None item, p', S pos)
      else if is_char c "*" then Ok (RRep 0 None item, p', S pos)
      else if is_char c "?" then Ok (RRep 0 (Some 1%nat) item, p', S pos)
      else if is_char c "{" then
        match parse_nat p' (S pos) None with
        | (Some n, String c' p'', pos') =>
            if is_char c' "}" then Ok (RRep n (Some n) item, p'', S pos')
            else Raise (Unmodelled "quantifier")
        | _ => Raise (Unmodelled "quantifier")
        end
      else Ok (item, p, pos)
  | EmptyString => Ok (item, p, pos)
  end.

Definition lazy_or_possessive (p : string) : bool :=
  match p with
  | String c _ => is_char c "?" || is_char c "+"
  | EmptyString => false
  end.

(** A sequence of items, up to the end of the pattern or to a closing
    parenthesis, which is left for the caller.  [ng] counts the groups
    opened so far; [fuel] bounds the nesting and the number of items. *)
Fixpoint parse_seq (fuel : nat) (p : string) (pos ng : nat)
  : result (regex * string * nat * nat) :=
  match fuel with
  | O => Raise (Unmodelled "pattern too long")
  | S fuel' =>
      match p with
      | EmptyString => Ok (REps, p, pos, ng)
      | String c p' =>
          if is_char c ")" then Ok (REps, p, pos, ng)
          else
            let item : result (regex * string * nat * nat) :=
              if is_char c "(" then
                let capturing := negb (Str.startswith "?" p') in
                if negb capturing && negb (Str.startswith "?:" p')
                then Raise (Unmodelled "group extension")
                else
                  let body := if capturing then p' else Str.drop 2 p' in
                  let bpos := if capturing then S pos else (pos + 3)%nat in
                  let ng' := if capturing then S ng else ng in
                  rbind (parse_seq fuel' body bpos ng') (fun '(r, rest, pos', ng'') =>
                    match rest with
                    | String _ rest' =>
                        Ok (if capturing then RGroup ng' r else r, rest', S pos', ng'')
                    | EmptyString =>
                        Raise (ReError "missing ), unterminated subpattern" pos)
                    end)
              else if is_char c "\" then
                match p' with
                | EmptyString => Raise (ReError "bad escape (end of pattern)" pos)
                | String e p'' =>
                    rbind (escape e) (fun a => Ok (RChar (COne a), p'', S (S pos), ng))
                end
              else if is_char c "[" then
                let negated := Str.startswith "^" p' in
                let body := if negated then Str.drop 1 p' else p' in
                let bpos := if negated then S (S pos) else S pos in
                if Str.startswith "]" body then Raise (Unmodelled "] first in a set")
                else
                  rbind (parse_set pos body bpos []) (fun '(members, rest, pos') =>
                    Ok (RChar (CSet negated members), rest, pos', ng))
              else if is_char c "^" then Ok (RBol, p', S pos, ng)
              else if is_char c "$" then Ok (REol, p', S pos, ng)
              else if is_char c "*" || is_char c "+" || is_char c "?" then
                Raise (ReError "nothing to repeat" pos)
              else if is_char c "." || is_char c "|" || is_char c "{" then
                Raise (Unmodelled "metacharacter")
              else Ok (RChar (COne (ALit c)), p', S pos, ng) in
            rbind item (fun '(r, rest, pos1, ng1) =>
            rbind (quantify r rest pos1) (fun '(r', rest', pos2) =>
            if lazy_or_possessive rest' then Raise (Unmodelled "quantifier")
            else
            rbind (parse_seq fuel' rest' pos2 ng1) (fun '(tl, rest'', pos3, ng3) =>
            Ok (RSeq r' tl, rest'', pos3, ng3))))
      end
  end.

(** [re.compile]: a closing parenthesis left over at top level is
    unbalanced. *)
Definition compile (pattern : string) : result regex :=
  rbind (parse_seq (S (String.length pattern)) pattern O O) (fun '(r, rest, pos, _) =>
    match rest with
    | EmptyString => Ok r
    | String _ _ => Raise (ReError "unbalanced parenthesis" pos)
    end).

(** *** Matching *)

Definition atom_matches (a : atom) (c : ascii) : bool :=
  match a with
  | ADigit => Char.isdigit c
  | ASpace => Char.isspace c
  | AWord => Char.isword c
  | ALit d => Char.eqb c d
  end.

Definition cclass_matches (cl : cclass) (c : ascii) : bool :=
  match cl with
  | COne a => atom_matches a c
  | CSet negated members =>
      xorb negated (existsb (fun a => atom_matches a c) members)
  end.

(** [$] without [re.MULTILINE]: the end of the text, or just before a
    newline that ends the text. *)
Definition at_eol (s : string) : bool :=
  match s with
  | EmptyString => true
  | String c EmptyString => Char.eqb c Char.newline
  | _ => false
  end.

(** Captured groups, the latest first. *)
Definition caps : Type := list (nat * string).

(** A continuation receives the position reached, the text left and the
    groups captured so far. *)
Definition cont (R : Type) : Type := nat -> string -> caps -> option R.

Section Repeat.
Context {R : Type}.
Variable step : nat -> string -> caps -> cont R -> option R.
Variable k : cont R.

(** Greedy repetition: one more iteration first, the rest of the
    pattern when that fails and [lo] iterations are done. *)
Fixpoint rep_loop (fuel lo : nat) (hi : option nat)
  (pos : nat) (s : string) (c : caps) : option R :=
  let stop := if Nat.eqb lo O then k pos s c else None in
  match fuel with
  | O => stop
  | S fuel' =>
      match hi with
      | Some O => stop
      | _ =>
          match step pos s c (rep_loop fuel' (Nat.pred lo) (option_map Nat.pred hi)) with
          | Some m => Some m
          | None => stop
          end
      end
  end.
End Repeat.

Fixpoint run {R : Type} (r : regex) (pos : nat) (s : string) (c : caps)
  (k : cont R) : option R :=
  match r with
  | REps => k pos s c
  | RChar cl =>
      match s with
      | String a s' => if cclass_matches cl a then k (S pos) s' c else None
      | EmptyString => None
      end
  | RBol => if Nat.eqb pos O then k pos s c else None
  | REol => if at_eol s then k pos s c else None
  | RSeq r1 r2 => run r1 pos s c (fun pos' s' c' => run r2 pos' s' c' k)
  | RRep lo hi r' => rep_loop (run r') k (S (String.length s)) lo hi pos s c
  | RGroup i r' =>
      run r' pos s c
        (fun pos' s' c' => k pos' s' ((i, Str.take (pos' - pos) s) :: c'))
  end.

(** A match object: its span, [group(0)] and the numbered groups. *)
Record Match : Type := mkMatch {
  m_start : nat;
  m_end : nat;
  group0 : string;
  m_groups : caps
}.

(** [m.group(i)] for [i > 0]; a group that took no part is [None]. *)
Fixpoint lookup_group (i : nat) (c : caps) : option string :=
  match c with
  | [] => None
  | (j, t) :: c' => if Nat.eqb i j then Some t else lookup_group i c'
  end.

Definition group (i : nat) (m : Match) : option string :=
  lookup_group i (m_groups m).

Definition accept (start : nat) (s : string) : cont Match :=
  fun pos' _ c' => Some (mkMatch start pos' (Str.take (pos' - start) s) c').

Definition match_at (r : regex) (pos : nat) (s : string) : option Match :=
  run r pos s [] (accept pos s).

(** The leftmost position of [s] where [r] matches; the position after
    the last character is tried too. *)
Fixpoint search_from (r : regex) (pos : nat) (s : string) : option Match :=
  match match_at r pos s with
  | Some m => Some m
  | None =>
      match s with
      | EmptyString => None
      | String _ s' => search_from r (S pos) s'
      end
  end.

(** [re.match(pattern, s)] and [re.search(pattern, s)]: the pattern is
    compiled first, and a pattern that does not compile raises. *)
Definition re_match (pattern s : string) : result (option Match) :=
  rbind (compile pattern) (fun r => Ok (match_at r O s)).

Definition re_search (pattern s : string) : result (option Match) :=
  rbind (compile pattern) (fun r => Ok (search_from r O s)).

End Re.

(** ** [str(n)] for a length *)

Definition str_of_nat (n : nat) : string := NilZero.string_of_uint (Nat.to_uint n).

(** ** [int(s)] in base ten *)

Module Int.

(** [sys.get_int_max_str_digits()]: the limit on the digits of a
    conversion between [int] and [str]. *)
Definition max_str_digits : nat := 4300.

(** The whitespace [int] skips around an ASCII literal. *)
Definition c_isspace (c : ascii) : bool :=
  Char.between 9 13 c || (Char.code c =? 32)%N.

Definition digit_value (c : ascii) : Z := Z.of_N (Char.code c) - 48.

(** Digits, with single underscores between them. *)
Fixpoint digits (acc : Z) (after_digit : bool) (s : string) : option Z :=
  match s with
  | EmptyString => if after_digit then Some acc else None
  | String c s' =>
      if Char.isdigit c then digits (10 * acc + digit_value c) true s'
      else if Re.is_char c "_" && after_digit then digits acc false s'
      else None
  end.

(** The run of digits and underscores a text begins with, and the number
    of its digits. *)
Fixpoint numeral_run (s : string) : string :=
  match s with
  | String c s' =>
      if Char.isdigit c || Re.is_char c "_" then String c (numeral_run s')
      else EmptyString
  | EmptyString => EmptyString
  end.

Fixpoint count_digits (s : string) : nat :=
  match s with
  | String c s' => if Char.isdigit c then S (count_digits s') else count_digits s'
  | EmptyString => O
  end.

Definition is_some {A} (x : option A) : bool :=
  match x with
  | Some _ => true
  | None => false
  end.

(** [int(s)]: whitespace around, a sign, then the digits.  A well-formed
    run of more digits than the limit is refused before what follows it
    is looked at. *)
Definition int (s : string) : result Z :=
  let body := Str.strip_by c_isspace s in
  let '(negative, literal) :=
    match body with
    | String c body' =>
        if Re.is_char c "-" then (true, body')
        else if Re.is_char c "+" then (false, body')
        else (false, body)
    | EmptyString => (false, EmptyString)
    end in
  let run := numeral_run literal in
  if is_some (digits 0 false run) && (max_str_digits <? count_digits run)%nat then
    Raise (ValueError
             ("Exceeds the limit (4300 digits) for integer string conversion: value has "
                +:+ str_of_nat (count_digits run)
                +:+ " digits; use sys.set_int_max_str_digits() to increase the limit"))
  else
    match digits 0 false literal with
    | Some n => Ok (if negative then - n else n)
    | None =>
        Raise (ValueError ("invalid literal for int() with base 10: " +:+ Str.repr s))
    end.

(** [str(n)]: refused when [n] has more digits than the limit. *)
Definition str (n : Z) : result string :=
  if (max_str_digits <? String.length (NilZero.string_of_uint (N.to_uint (Z.abs_N n))))%nat
  then
    Raise (ValueError
             ("Exceeds the limit (4300 digits) for integer string conversion; "
                +:+ "use sys.set_int_max_str_digits() to increase the limit"))
  else Ok (NilZero.string_of_int (Z.to_int n)).

End Int.

(** ** Identifier parser: [parse_spec_number] *)

Record SpecInfo : Type := mkSpecInfo {
  doc_type : string;
  prefix : string;
  number : string;
  part : option string
}.

Definition doc_types : list string :=
  ["EN"; "ES"; "EG"; "TS"; "TR"; "SR"; "GS"; "GR"; "PAS"].

(** The loop over [doc_types]: the first type the text starts with, bare
    or after "ETSI ", is taken and stripped; [doc_type] is the default. *)
Fixpoint detect_doc_type (dts : list string) (doc_type spec_input : string)
  : string * string :=
  match dts with
  | [] => (doc_type, spec_input)
  | dt :: dts' =>
      if Str.startswith ("ETSI " +:+ dt) spec_input then
        (dt, Str.strip (Str.replace ("ETSI " +:+ dt) "" spec_input))
      else if Str.startswith dt spec_input then
        (dt, Str.strip (Str.slice_from (String.length dt) spec_input))
      else detect_doc_type dts' doc_type spec_input
  end.

(** The part suffix: [re.search(r"-(\d+)$", spec_input)]. *)
Definition extract_part (spec_input : string) : result (option string * string) :=
  rbind (Re.re_search "-(\d+)$" spec_input) (fun part_match =>
    match part_match with
    | Some pm =>
        Ok (Re.group 1 pm,
            Str.strip (Str.slice_drop_last (String.length (Re.group0 pm)) spec_input))
    | None => Ok (None, spec_input)
    end).

(** The text the digit patterns are tried on, with the document type and
    the part found on the way. *)
Definition normalize (spec_input : string) : result (string * option string * string) :=
  let spec_input := Str.upper (Str.strip spec_input) in
  let '(doc_type, spec_input) := detect_doc_type doc_types "TS" spec_input in
  rbind (extract_part spec_input) (fun '(part, spec_input) =>
    Ok (doc_type, part, spec_input)).

(** [match.group(1)] and [match.group(2)]. *)
Definition groups12 (m : Re.Match) : result (string * string) :=
  match Re.group 1 m, Re.group 2 m with
  | Some g1, Some g2 => Ok (g1, g2)
  | _, _ => Raise (Unmodelled "a group that took no part")
  end.

Definition spec_info_of (doc_type : string) (part : option string) (m : Re.Match)
  : result SpecInfo :=
  rbind (groups12 m) (fun '(g1, g2) => Ok (mkSpecInfo doc_type g1 g2 part)).

Definition pattern_3_3 : string := "(\d{3})\s+(\d{3})".
Definition pattern_6 : string := "(\d{3})(\d{3})".
Definition pattern_2_3 : string := "(\d{2})\s+(\d{3})".

Definition match_digit_groups (doc_type : string) (part : option string)
  (spec_input : string) : result SpecInfo :=
  rbind (Re.re_match pattern_3_3 spec_input) (fun m1 =>
    match m1 with
    | Some m => spec_info_of doc_type part m
    | None =>
        rbind (Re.re_match pattern_6 spec_input) (fun m2 =>
          match m2 with
          | Some m => spec_info_of doc_type part m
          | None =>
              rbind (Re.re_match pattern_2_3 spec_input) (fun m3 =>
                match m3 with
                | Some m => spec_info_of doc_type part m
                | None =>
                    Raise (ValueError
                             ("Invalid ETSI specification number: " +:+ spec_input))
                end)
          end)
    end).

Definition parse_spec_number (spec_input : string) : result SpecInfo :=
  rbind (normalize spec_input) (fun '(doc_type, part, spec_input) =>
    match_digit_groups doc_type part spec_input).

(** ** The outside world *)

Inductive method : Type := GET | HEAD.

Record Request : Type := mkRequest {
  rq_method : method;
  rq_url : string;
  rq_timeout : Z
}.

Record Response : Type := mkResponse {
  status_code : Z;
  text : string;
  content : string
}.

(** A page of a PDF document: what [extract_text()] gives. *)
Record Page : Type := mkPage {
  extract_text : result string
}.

(** A value of the document information dictionary, and of the metadata
    dictionary the extractor builds from it: a text ([str] or a subclass
    of it, as the reader's text strings and names), a byte string, or any
    other object, of which the script sees the name of the type, the truth
    value and [str()]. *)
Inductive PdfObject : Type :=
| TextString (s : string)
| ByteString (b : string)
| OtherObject (type_name : string) (is_true : bool) (shown : string).

(** [if x:] for such a value. *)
Definition object_is_true (x : PdfObject) : bool :=
  match x with
  | TextString s => negb (Str.is_empty s)
  | ByteString b => negb (Str.is_empty b)
  | OtherObject _ is_true _ => is_true
  end.

(** [str(x)], as an f-string formats the value. *)
Definition str_of_object (x : PdfObject) : string :=
  match x with
  | TextString s => s
  | ByteString b => Str.repr_bytes b
  | OtherObject _ _ shown => shown
  end.

(** What a [PdfReader] shows: [reader.metadata] (the document information
    dictionary, or [None]) and [reader.pages]. *)
Record PdfDocument : Type := mkPdf {
  pdf_metadata : option (gmap string PdfObject);
  pdf_pages : list Page
}.

(** A computation that talks to the network: it extends the log of the
    requests made so far, also when it raises. *)
Definition IO (A : Type) : Type := list Request -> result A * list Request.

Definition ret {A} (a : A) : IO A := fun log => (Ok a, log).

Definition raise {A} (e : exn) : IO A := fun log => (Raise e, log).

Definition bind {A B} (x : IO A) (f : A -> IO B) : IO B :=
  fun log =>
    match x log with
    | (Ok a, log') => f a log'
    | (Raise e, log') => (Raise e, log')
    end.

Definition lift {A} (x : result A) : IO A := fun log => (x, log).

(** [try: body / except Exception: handler] *)
Definition try_except {A} (body : IO A) (handler : exn -> IO A) : IO A :=
  fun log =>
    match body log with
    | (Ok a, log') => (Ok a, log')
    | (Raise e, log') => handler e log'
    end.

Declare Scope io_scope.
Delimit Scope io_scope with io.
Notation "x <- c1 ;; c2" := (bind c1 (fun x => c2))
  (at level 100, c1 at next level, right associativity) : io_scope.
Notation "c1 ;; c2" := (bind c1 (fun _ => c2))
  (at level 100, right associativity) : io_scope.

(** [response.raise_for_status()] *)
Definition raise_for_status (response : Response) : result unit :=
  let code := status_code response in
  if (400 <=? code) && (code <? 600) then Raise (HTTPError code) else Ok tt.

(** [if x:] for an optional string: [None] and the empty string are false. *)
Definition truthy (x : option string) : bool :=
  match x with
  | Some s => negb (Str.is_empty s)
  | None => false
  end.

(** The spec number with its part, as both the resolver and the locator
    format it. *)
Definition full_spec_of (spec_info : SpecInfo) : string :=
  if truthy (part spec_info)
  then prefix spec_info +:+ number spec_info +:+ "-" +:+ default "" (part spec_info)
  else prefix spec_info +:+ number spec_info.

(** [list.sort(key=lambda x: x[1], reverse=True)]: stable, descending by
    the string order of the keys. *)
Definition VersionEntry : Type := (string * string * string)%type.

Definition version_key (e : VersionEntry) : string := snd (fst e).

Fixpoint insert_desc (x : VersionEntry) (l : list VersionEntry) : list VersionEntry :=
  match l with
  | [] => [x]
  | y :: l' =>
      if String.ltb (version_key x) (version_key y)
      then y :: insert_desc x l'
      else x :: l
  end.

Fixpoint sort_desc (l : list VersionEntry) : list VersionEntry :=
  match l with
  | [] => []
  | x :: l' => insert_desc x (sort_desc l')
  end.

(** ** Directory resolver: the fallback table of [get_spec_directory_url] *)

Definition range_suffix_of (dir_spec_num : Z) : string :=
  if dir_spec_num <? 100 then "00_099"
  else if dir_spec_num <? 200 then "100_199"
  else if dir_spec_num <? 300 then "200_299"
  else if dir_spec_num <? 400 then "300_399"
  else if dir_spec_num <? 500 then "400_499"
  else if dir_spec_num <? 600 then "500_599"
  else if dir_spec_num <? 700 then "600_699"
  else if dir_spec_num <? 800 then "700_799"
  else if dir_spec_num <? 900 then "800_899"
  else "900_999".

Definition range_labels : list string :=
  ["00_099"; "100_199"; "200_299"; "300_399"; "400_499";
   "500_599"; "600_699"; "700_799"; "800_899"; "900_999"].

(** The number the fallback buckets: [int(f"{prefix}{number}")], with or
    without a part. *)
Definition dir_spec_num_of (spec_info : SpecInfo) : result Z :=
  Int.int (prefix spec_info +:+ number spec_info).

Definition base_url_of (spec_info : SpecInfo) : string :=
  "https://www.etsi.org/deliver/etsi_" +:+ Str.lower (doc_type spec_info) +:+ "/".

Definition fallback_url (spec_info : SpecInfo) (range_suffix : string) : string :=
  "https://www.etsi.org/deliver/etsi_" +:+ Str.lower (doc_type spec_info) +:+ "/"
    +:+ prefix spec_info +:+ range_suffix +:+ "/" +:+ full_spec_of spec_info +:+ "/".

(** The loop over the anchors of the listing page: the first [href] that
    contains the spec number and "dir". *)
Fixpoint scan_links (base_url full_spec : string) (links : list (option string))
  : option string :=
  match links with
  | [] => None
  | link :: links' =>
      let href := default "" link in
      if Str.contains full_spec href && Str.contains "dir" href
      then Some (base_url +:+ Str.rstrip_chars "/" href)
      else scan_links base_url full_spec links'
  end.

(** ** Version enumerator: the loop of [get_version_directories] *)

Definition version_pattern : string := "(\d{2}\.\d{2}\.\d{2}(?:_\d{2})?".

Fixpoint collect_versions (links : list (option string))
  (version_dirs : list VersionEntry) : result (list VersionEntry) :=
  match links with
  | [] => Ok version_dirs
  | link :: links' =>
      let href := default "" link in
      rbind (Re.re_search version_pattern href) (fun m =>
        match m with
        | Some m =>
            match Re.group 1 m with
            | Some version_dir =>
                match Str.split "_" version_dir with
                | version_num :: more =>
                    let release_code :=
                      match more with
                      | code :: _ => code
                      | [] => "00"
                      end in
                    collect_versions links'
                      (version_dirs ++ [(version_dir, version_num, release_code)])%list
                | [] => Raise (IndexError "list index out of range")
                end
            | None => Raise (Unmodelled "a group that took no part")
            end
        | None => collect_versions links' version_dirs
        end)
  end.

(** ** Artifact locator: the candidates of [get_pdf_url] *)

Definition version_no_dots_of (version_dir : string) : string :=
  Str.replace "." "" (hd "" (Str.split "_" version_dir)).

Definition possible_filenames (spec_info : SpecInfo) (version_dir : string)
  : list string :=
  let doc_type := Str.lower (doc_type spec_info) in
  let full_spec := full_spec_of spec_info in
  let version_no_dots := version_no_dots_of version_dir in
  [ doc_type +:+ "_" +:+ full_spec +:+ "v" +:+ version_no_dots +:+ "p.pdf";
    doc_type +:+ "_" +:+ full_spec +:+ "v" +:+ version_no_dots +:+ ".pdf";
    full_spec +:+ "v" +:+ version_no_dots +:+ ".pdf";
    full_spec +:+ "v" +:+ version_no_dots +:+ "p.pdf" ].

Definition version_url_of (directory_url version_dir : string) : string :=
  Str.rstrip_chars "/" directory_url +:+ "/" +:+ version_dir +:+ "/".

(** ** Metadata extractor: the pure steps of [extract_pdf_metadata] *)

Definition title_noise_pattern : string := "^[^\w\s]+$".
Definition creation_date_pattern : string := "D:(\d{4})(\d{2})(\d{2})".

(** [metadata.get(key)] read as a condition. *)
Definition has (metadata : gmap string PdfObject) (key : string) : bool :=
  match metadata !! key with
  | Some x => object_is_true x
  | None => false
  end.

(** The metadata dictionary after [if reader.metadata: ...]; an empty
    document information dictionary is false. *)
Definition read_document_info (reader : PdfDocument) : gmap string PdfObject :=
  match pdf_metadata reader with
  | Some info =>
      if bool_decide (info = ∅) then ∅
      else <["creation_date" := default (TextString "") (info !! "/CreationDate")]>
             (<["title" := default (TextString "") (info !! "/Title")]> ∅)
  | None => ∅
  end.

(** The loop over [lines[:20]]; it stops at the first line it keeps. *)
Fixpoint scan_title (lines : list string) (metadata : gmap string PdfObject) : result (gmap string PdfObject) :=
  match lines with
  | [] => Ok metadata
  | line :: lines' =>
      let line := Str.strip line in
      if negb (Str.is_empty line) && (20 <? String.length line)%nat then
        rbind (Re.re_match title_noise_pattern line) (fun m =>
          match m with
          | None => Ok (<["title" := TextString line]> metadata)
          | Some _ => scan_title lines' metadata
          end)
      else scan_title lines' metadata
  end.

(** [re.search(pattern, x)] with a text pattern: only a text is
    searched. *)
Definition search_object (pattern : string) (x : PdfObject)
  : result (option Re.Match) :=
  rbind (Re.compile pattern) (fun _ =>
    match x with
    | TextString s => Re.re_search pattern s
    | ByteString _ =>
        Raise (TypeError "cannot use a string pattern on a bytes-like object")
    | OtherObject type_name _ _ =>
        Raise (TypeError ("expected string or bytes-like object, got '"
                            +:+ type_name +:+ "'"))
    end).

Definition parse_publication_date (metadata : gmap string PdfObject) : result (gmap string PdfObject) :=
  match metadata !! "creation_date" with
  | Some creation_date =>
      if object_is_true creation_date then
        rbind (search_object creation_date_pattern creation_date) (fun m =>
          match m with
          | Some m =>
              match Re.group 1 m, Re.group 2 m, Re.group 3 m with
              | Some year, Some month, Some day =>
                  Ok (<["publication_date" :=
                          TextString (year +:+ "-" +:+ month +:+ "-" +:+ day)]> metadata)
              | _, _, _ => Raise (Unmodelled "a group that took no part")
              end
          | None => Ok metadata
          end)
      else Ok metadata
  | None => Ok metadata
  end.

(** ** The four stages that talk to the outside *)

Section Resolver.

(** The network: the answer to a request, given the requests made
    before it. *)
Variable respond : list Request -> Request -> result Response.

(** [BeautifulSoup(text, "html.parser").find_all("a")]: for each anchor,
    in document order, its [href] attribute if it has one. *)
Variable find_all_a : string -> result (list (option string)).

(** [PdfReader(io.BytesIO(content))] *)
Variable PdfReader : string -> result PdfDocument.

Definition request (m : method) (url : string) (timeout : Z) : IO Response :=
  fun log =>
    let rq := mkRequest m url timeout in
    (respond log rq, (log ++ [rq])%list).

Definition requests_get : string -> Z -> IO Response := request GET.
Definition requests_head : string -> Z -> IO Response := request HEAD.

(** The body of the [try] of [get_spec_directory_url]. *)
Definition primary_lookup (spec_info : SpecInfo) : IO (option string) :=
  (response <- requests_get (base_url_of spec_info) 30 ;;
   if status_code response =? 200 then
     links <- lift (find_all_a (text response)) ;;
     ret (scan_links (base_url_of spec_info) (full_spec_of spec_info) links)
   else ret None)%io.

Definition get_spec_directory_url (spec_info : SpecInfo) : IO string :=
  (found <- try_except (primary_lookup spec_info) (fun _ => ret None) ;;
   match found with
   | Some url => ret url
   | None =>
       dir_spec_num <- lift (dir_spec_num_of spec_info) ;;
       ret (fallback_url spec_info (range_suffix_of dir_spec_num))
   end)%io.

Definition get_version_directories (directory_url : string) (spec_info : SpecInfo)
  : IO (list VersionEntry) :=
  (response <- requests_get directory_url 30 ;;
   if status_code response =? 404 then ret []
   else
     lift (raise_for_status response) ;;
     links <- lift (find_all_a (text response)) ;;
     version_dirs <- lift (collect_versions links []) ;;
     ret (sort_desc version_dirs))%io.

(** The loop over [possible_filenames]: one [HEAD] per candidate. *)
Fixpoint probe_filenames (version_url : string) (filenames : list string)
  : IO string :=
  match filenames with
  | [] => raise (ValueError ("Could not find PDF file in " +:+ version_url))
  | filename :: filenames' =>
      let pdf_url := version_url +:+ filename in
      (test_response <- requests_head pdf_url 10 ;;
       if status_code test_response =? 200 then ret pdf_url
       else probe_filenames version_url filenames')%io
  end.

Definition get_pdf_url (directory_url version_dir : string) (spec_info : SpecInfo)
  : IO string :=
  probe_filenames (version_url_of directory_url version_dir)
    (possible_filenames spec_info version_dir).

(** [reader.pages[0]] *)
Definition first_page_of (reader : PdfDocument) : result Page :=
  match pdf_pages reader with
  | page :: _ => Ok page
  | [] => Raise (IndexError "sequence index out of range")
  end.

(** What follows the construction of the reader. *)
Definition metadata_of_reader (reader : PdfDocument) : result (gmap string PdfObject) :=
  let metadata := read_document_info reader in
  rbind
    (if negb (has metadata "title") then
       rbind (first_page_of reader) (fun first_page =>
       rbind (extract_text first_page) (fun text =>
         scan_title (firstn 20 (Str.split Char.newline text)) metadata))
     else Ok metadata)
    parse_publication_date.

Definition extract_pdf_metadata (pdf_url : string) : IO (gmap string PdfObject) :=
  (response <- requests_get pdf_url 30 ;;
   lift (raise_for_status response) ;;
   reader <- lift (PdfReader (content response)) ;;
   lift (metadata_of_reader reader))%io.

End Resolver.

(** ** [format_version] *)

Definition format_version (version_num : string) : result string :=
  match Str.split "." version_num with
  | p0 :: p1 :: p2 :: _ =>
      rbind (Int.int p0) (fun major =>
      rbind (Int.int p1) (fun minor =>
      rbind (Int.int p2) (fun patch =>
      rbind (Int.str major) (fun major =>
      rbind (Int.str minor) (fun minor =>
      rbind (Int.str patch) (fun patch =>
        Ok ("V" +:+ major +:+ "." +:+ minor +:+ "." +:+ patch)))))))
  | _ => Ok version_num
  end.

(** ** The command line: [main] *)

(** How a run of the script ends: it returns, an exception is on its way
    up, or [sys.exit(code)] was called, whose [SystemExit] no
    [except Exception] catches. *)
Inductive outcome (A : Type) : Type :=
| Returned (a : A)
| Raised (e : exn)
| Exited (code : Z).
Arguments Returned {A} a.
Arguments Raised {A} e.
Arguments Exited {A} code.

(** What the script writes: a line on the standard output, or the
    traceback of an exception on the standard error. *)
Inductive output : Type :=
| Line (text : string)
| Traceback (e : exn).

(** A computation of [main]: it extends the log of requests and the
    output. *)
Definition Script (A : Type) : Type :=
  list Request -> list output -> outcome A * list Request * list output.

Definition sret {A} (a : A) : Script A := fun log out => (Returned a, log, out).

Definition sbind {A B} (x : Script A) (f : A -> Script B) : Script B :=
  fun log out =>
    match x log out with
    | (Returned a, log', out') => f a log' out'
    | (Raised e, log', out') => (Raised e, log', out')
    | (Exited code, log', out') => (Exited code, log', out')
    end.

Definition print (text : string) : Script unit :=
  fun log out => (Returned tt, log, (out ++ [Line text])%list).

Definition print_exc (e : exn) : Script unit :=
  fun log out => (Returned tt, log, (out ++ [Traceback e])%list).

Definition sys_exit {A} (code : Z) : Script A :=
  fun log out => (Exited code, log, out).

Definition run_io {A} (x : IO A) : Script A :=
  fun log out =>
    match x log with
    | (Ok a, log') => (Returned a, log', out)
    | (Raise e, log') => (Raised e, log', out)
    end.

Definition pure {A} (x : result A) : Script A := run_io (lift x).

(** [try: body / except ... as e: handler]: an exit passes through. *)
Definition handle {A} (body : Script A) (handler : exn -> Script A) : Script A :=
  fun log out =>
    match body log out with
    | (Raised e, log', out') => handler e log' out'
    | done => done
    end.

Declare Scope script_scope.
Delimit Scope script_scope with script.
Notation "x <- c1 ;; c2" := (sbind c1 (fun x => c2))
  (at level 100, c1 at next level, right associativity) : script_scope.
Notation "c1 ;; c2" := (sbind c1 (fun _ => c2))
  (at level 100, right associativity) : script_scope.

(** ["=" * n] *)
Fixpoint repeat_char (c : ascii) (n : nat) : string :=
  match n with
  | O => EmptyString
  | S n' => String c (repeat_char c n')
  end.

Definition usage : Script unit :=
  (print "Usage: uv run get_etsi_spec.py <spec-number>" ;;
   print "" ;;
   print "Examples:" ;;
   print "  uv run get_etsi_spec.py 103224" ;;
   print "  uv run get_etsi_spec.py 103 224" ;;
   print "  uv run get_etsi_spec.py ETSI TS 103 224" ;;
   print "  uv run get_etsi_spec.py EG 202 396-3" ;;
   print "  uv run get_etsi_spec.py TR 103 907" ;;
   print "  uv run get_etsi_spec.py ES 200 381-1")%script.

Definition no_versions_found (spec_info : SpecInfo) : Script unit :=
  (print ("Error: No versions found for ETSI " +:+ doc_type spec_info +:+ " "
            +:+ full_spec_of spec_info) ;;
   print "" ;;
   print "Possible reasons:" ;;
   print "  - Specification number does not exist" ;;
   print "  - Different URL structure for this document type" ;;
   print "  - Try checking: https://www.etsi.org/deliver/etsi_<type>/")%script.

(** The loop that prints the version history. *)
Fixpoint print_history (version_dirs : list VersionEntry) : Script unit :=
  match version_dirs with
  | [] => sret tt
  | (version_dir, version_num, release_code) :: version_dirs' =>
      let pub_year := Str.take 2 (hd "" (Str.split "." version_num)) in
      (formatted <- pure (format_version version_num) ;;
       print ("  - " +:+ formatted +:+ " (release " +:+ release_code +:+ ") ~ 20"
                +:+ pub_year) ;;
       print_history version_dirs')%script
  end.

Section Main.

Variable respond : list Request -> Request -> result Response.
Variable find_all_a : string -> result (list (option string)).
Variable PdfReader : string -> result PdfDocument.

(** [datetime.strptime(pub_date, "%Y-%m-%d").strftime("%b %Y").lower()],
    or [None] when it raises. *)
Variable month_and_year : string -> option string.

(** [str(e)] for the HTTP error of a status: the text [requests] builds
    from the status, the reason phrase and the URL. *)
Variable http_error_text : Z -> string.

(** [str(e)] *)
Definition str_of_exn (e : exn) : string :=
  match e with
  | ValueError msg => msg
  | ReError msg pos => msg +:+ " at position " +:+ str_of_nat pos
  | ConnectionError msg => msg
  | Timeout msg => msg
  | HTTPError status => http_error_text status
  | IndexError msg => msg
  | TypeError msg => msg
  | LibraryError msg => msg
  | Unmodelled what => what
  end.

(** The [try] around [strptime]: on any exception the date is shown as
    it is. *)
Definition pub_date_formatted (pub_date : PdfObject) : string :=
  match pub_date with
  | TextString s => default s (month_and_year s)
  | _ => str_of_object pub_date
  end.

(** The display of the results, from "=" * 70 on. *)
Definition display (spec_info : SpecInfo) (version_dirs : list VersionEntry)
  (latest_dir latest_num release_code pdf_url : string)
  (metadata : gmap string PdfObject) : Script unit :=
  (print (repeat_char "=" 70) ;;
   print ("SPECIFICATION: ETSI " +:+ doc_type spec_info +:+ " "
            +:+ full_spec_of spec_info) ;;
   print (repeat_char "=" 70) ;;
   formatted <- pure (format_version latest_num) ;;
   print ("Latest Version:  " +:+ formatted) ;;
   print ("Release Code:    " +:+ release_code) ;;
   print ("Directory:       " +:+ latest_dir) ;;
   match metadata !! "title" with
   | Some title =>
       if object_is_true title
       then print ("Title:           " +:+ str_of_object title)
       else sret tt
   | None => sret tt
   end ;;
   match metadata !! "publication_date" with
   | Some pub_date =>
       if object_is_true pub_date
       then print ("Publication Date: " +:+ pub_date_formatted pub_date)
       else sret tt
   | None => sret tt
   end ;;
   print ("Download URL:    " +:+ pdf_url) ;;
   print (repeat_char "=" 70) ;;
   print "" ;;
   print ("Full versions available: " +:+ str_of_nat (List.length version_dirs)) ;;
   (if (1 <? List.length version_dirs)%nat
    then print "Version history:" ;; print_history version_dirs
    else sret tt))%script.

(** The body of the [try] of [main]. *)
Definition main_body (spec_input : string) : Script unit :=
  (spec_info <- pure (parse_spec_number spec_input) ;;
   print ("Searching for ETSI " +:+ doc_type spec_info +:+ " "
            +:+ full_spec_of spec_info +:+ "...") ;;
   print "" ;;
   directory_url <- run_io (get_spec_directory_url respond find_all_a spec_info) ;;
   print ("Directory: " +:+ directory_url) ;;
   version_dirs <-
     run_io (get_version_directories respond find_all_a directory_url spec_info) ;;
   match version_dirs with
   | [] => no_versions_found spec_info ;; sys_exit 1
   | (latest_dir, latest_num, release_code) :: _ =>
       formatted <- pure (format_version latest_num) ;;
       print ("Latest version: " +:+ formatted +:+ " (release " +:+ release_code
                +:+ ")") ;;
       print "" ;;
       pdf_url <- run_io (get_pdf_url respond directory_url latest_dir spec_info) ;;
       print "Extracting metadata from PDF..." ;;
       metadata <- run_io (extract_pdf_metadata respond PdfReader pdf_url) ;;
       display spec_info version_dirs latest_dir latest_num release_code pdf_url
         metadata
   end)%script.

(** The three [except] clauses, in their order. *)
Definition on_exception (e : exn) : Script unit :=
  match e with
  | ValueError _ => (print ("Error: " +:+ str_of_exn e) ;; sys_exit 1)%script
  | _ =>
      if is_request_exception e
      then (print ("Network error: " +:+ str_of_exn e) ;; sys_exit 1)%script
      else (print ("Unexpected error: " +:+ str_of_exn e) ;;
            print_exc e ;;
            sys_exit 1)%script
  end.

(** [main()] with [sys.argv = argv]. *)
Definition main (argv : list string) : Script unit :=
  match argv with
  | _ :: spec_input :: _ => handle (main_body spec_input) on_exception
  | _ => (usage ;; sys_exit 1)%script
  end.

End Main.

(** * The vocabulary of the properties *)

(** ** Texts *)

Module Text.

(** The last character of [s] satisfies [p]. *)
Fixpoint last_is (p : ascii -> bool) (s : string) : bool :=
  match s with
  | EmptyString => false
  | String c EmptyString => p c
  | String _ s' => last_is p s'
  end.

(** The length of the longest prefix of [s] whose characters satisfy [p]. *)
Fixpoint span_len (p : ascii -> bool) (s : string) : nat :=
  match s with
  | String a s' => if p a then S (span_len p s') else O
  | EmptyString => O
  end.

(** [s] starts with [n] characters, all satisfying [p]. *)
Definition starts_with_n (p : ascii -> bool) (n : nat) (s : string) : bool :=
  Nat.eqb (String.length (Str.take n s)) n && Str.all p (Str.take n s).

(** The first character of [s]; the null character when [s] is empty. *)
Definition hd_default (s : string) : ascii :=
  match s with
  | String c _ => c
  | EmptyString => Ascii.zero
  end.

(** An ASCII character, and an ASCII text: the texts on which the
    character classes of this development are Python's. *)
Definition ascii_char (c : ascii) : bool := (Char.code c <? 128)%N.
Definition is_ascii (s : string) : bool := Str.all ascii_char s.

End Text.

(** ** The patterns of the script, compiled *)

Module Patterns.
Import Re.

(** The regular expression of a pattern that compiles. *)
Definition compiled (pattern : string) : regex :=
  match compile pattern with
  | Ok r => r
  | Raise _ => REps
  end.

Definition r_part : regex := Eval vm_compute in compiled "-(\d+)$".
Definition r_3_3 : regex := Eval vm_compute in compiled pattern_3_3.
Definition r_6 : regex := Eval vm_compute in compiled pattern_6.
Definition r_2_3 : regex := Eval vm_compute in compiled pattern_2_3.
Definition r_noise : regex := Eval vm_compute in compiled title_noise_pattern.
Definition r_date : regex := Eval vm_compute in compiled creation_date_pattern.

Definition digit : cclass := COne ADigit.
Definition space : cclass := COne ASpace.

(** [(\d{a})\s+(\d{b})] and [(\d{a})(\d{b})] *)
Definition r_spaced (a b : nat) : regex :=
  RSeq (RGroup 1 (RSeq (RRep a (Some a) (RChar digit)) REps))
    (RSeq (RRep 1 None (RChar space))
       (RSeq (RGroup 2 (RSeq (RRep b (Some b) (RChar digit)) REps)) REps)).

Definition r_joined (a b : nat) : regex :=
  RSeq (RGroup 1 (RSeq (RRep a (Some a) (RChar digit)) REps))
    (RSeq (RGroup 2 (RSeq (RRep b (Some b) (RChar digit)) REps)) REps).

Definition noise_class : cclass := CSet true [AWord; ASpace].

End Patterns.

(** ** The digit groupings of the identifier parser *)

Module Grouping.
Import Re Text.

(** What the two shapes take from the start of a text: the first group,
    the width of the whitespace, the second group. *)
Definition split_spaced (a b : nat) (s : string) : option (string * nat * string) :=
  if starts_with_n Char.isdigit a s then
    let rest := Str.drop a s in
    let w := span_len Char.isspace rest in
    if (1 <=? w)%nat && starts_with_n Char.isdigit b (Str.drop w rest)
    then Some (Str.take a s, w, Str.take b (Str.drop w rest))
    else None
  else None.

Definition split_joined (a b : nat) (s : string) : option (string * string) :=
  if starts_with_n Char.isdigit a s && starts_with_n Char.isdigit b (Str.drop a s)
  then Some (Str.take a s, Str.take b (Str.drop a s))
  else None.

Definition found (s : string) (stop : nat) (g1 g2 : string) : Match :=
  mkMatch 0 stop (Str.take stop s) [(2%nat, g2); (1%nat, g1)].

(** The groups the three patterns find, in the order they are tried. *)
Definition digit_groups (s : string) : option (string * string) :=
  match split_spaced 3 3 s with
  | Some (p, _, n) => Some (p, n)
  | None =>
      match split_joined 3 3 s with
      | Some (p, n) => Some (p, n)
      | None =>
          match split_spaced 2 3 s with
          | Some (p, _, n) => Some (p, n)
          | None => None
          end
      end
  end.

(** The same shapes, said of the text. *)

Definition is_digits (n : nat) (s : string) : Prop :=
  String.length s = n /\ Str.all Char.isdigit s = true.

Definition is_spaces (s : string) : Prop :=
  s <> "" /\ Str.all Char.isspace s = true.

(** [grouping s p n]: the text [s] begins with one of the three digit
    groupings, whose groups are [p] and [n]; what follows is free. *)
Inductive grouping : string -> string -> string -> Prop :=
| spaced_3_3 p ws n rest :
    is_digits 3 p -> is_spaces ws -> is_digits 3 n ->
    grouping (p +:+ ws +:+ n +:+ rest) p n
| joined_6 p n rest :
    is_digits 3 p -> is_digits 3 n ->
    grouping (p +:+ n +:+ rest) p n
| spaced_2_3 p ws n rest :
    is_digits 2 p -> is_spaces ws -> is_digits 3 n ->
    grouping (p +:+ ws +:+ n +:+ rest) p n.

Definition not_dash (c : ascii) : bool := negb (Char.eqb c "-").

End Grouping.

(** ** The number a text of digits denotes *)

Module Digits.

(** [acc] is the number of the digits read so far. *)
Fixpoint value (acc : Z) (s : string) : Z :=
  match s with
  | EmptyString => acc
  | String c s' => value (10 * acc + Int.digit_value c) s'
  end.

(** A group of digits that [int] reads: not empty, digits only, within
    the limit on the number of digits. *)
Definition is_group (s : string) : Prop :=
  s <> "" /\ Str.all Char.isdigit s = true /\
  (String.length s <= Int.max_str_digits)%nat.

Definition is_zero (c : ascii) : bool := Char.eqb c "0".

(** The numeral of a group of digits: the group without its leading
    zeros, "0" when nothing else is left. *)
Definition numeral (s : string) : string :=
  let t := Str.lstrip_by is_zero s in
  if Str.is_empty t then "0" else t.

End Digits.

(** ** The probes of the artifact locator *)

Module Probes.

(** The probe of a candidate: a [HEAD] request with a ten-second
    timeout. *)
Definition probe_of (version_url filename : string) : Request :=
  mkRequest HEAD (version_url +:+ filename) 10.

Section Refused.
Variable respond : list Request -> Request -> result Response.

(** Every request of [rqs], made in turn after [log], is answered,
    and with a status other than 200. *)
Fixpoint refused (log : list Request) (rqs : list Request) : Prop :=
  match rqs with
  | [] => True
  | rq :: rqs' =>
      (exists response,
         respond log rq = Ok response /\ status_code response <> 200) /\
      refused (log ++ [rq])%list rqs'
  end.

End Refused.

End Probes.

(** ** The title of the metadata extractor *)

Module Title.

(** A character that is neither a word character nor whitespace. *)
Definition special (c : ascii) : bool := negb (Char.isword c || Char.isspace c).

(** A stripped line that the title scan keeps: longer than twenty
    characters and not made of special characters only. *)
Definition qualifies (line : string) : bool :=
  (20 <? String.length line)%nat && negb (Str.all special line).

(** The title the scan takes from the lines of the first page. *)
Definition first_title (lines : list string) : option string :=
  List.find qualifies (List.map Str.strip (firstn 20 lines)).

(** The line break of a page's text. *)
Definition nl : string := String Char.newline "".

End Title.

(** ** The document information of a PDF *)

Module Documents.

(** The entry of the document information under [key], if any. *)
Definition info_value (reader : PdfDocument) (key : string) : option PdfObject :=
  match pdf_metadata reader with
  | Some info => info !! key
  | None => None
  end.

Definition is_text (x : PdfObject) : bool :=
  match x with
  | TextString _ => true
  | _ => false
  end.

(** The creation date can be searched for a date: there is none, or it
    is false (empty), or it is a text. *)
Definition date_is_readable (reader : PdfDocument) : bool :=
  match info_value reader "/CreationDate" with
  | Some x => negb (object_is_true x) || is_text x
  | None => true
  end.

(** What [re.search] says of a creation date that is true and not a
    text. *)
Definition date_type_error (reader : PdfDocument) : exn :=
  match info_value reader "/CreationDate" with
  | Some (OtherObject type_name _ _) =>
      TypeError ("expected string or bytes-like object, got '" +:+ type_name +:+ "'")
  | _ => TypeError "cannot use a string pattern on a bytes-like object"
  end.

End Documents.

(** ** The written forms of an identifier *)

Module Forms.
Import Text.

(** A part as the parser gives it: none, or a non-empty text of digits. *)
Definition part_ok (part : option string) : Prop :=
  match part with
  | None => True
  | Some q => q <> "" /\ Str.all Char.isdigit q = true
  end.

(** The way a part is written after the number. *)
Definition part_suffix (part : option string) : string :=
  match part with
  | Some q => "-" +:+ q
  | None => ""
  end.

Definition digit_or_space (c : ascii) : bool := Char.isdigit c || Char.isspace c.

(** The digits of an identifier as they may be typed: digits and
    whitespace, a digit first and a digit last. *)
Definition body_ok (body : string) : Prop :=
  Str.all digit_or_space body = true /\
  Char.isdigit (hd_default body) = true /\
  last_is Char.isdigit body = true.

(** A character of what follows the type in a written form: a body and
    its part. *)
Definition tail_ok (c : ascii) : bool :=
  Char.isdigit c || Char.isspace c || Char.eqb c "-".

(** What [main] shows for an identifier: "ETSI", the type, the number
    with its part. *)
Definition shown (spec_info : SpecInfo) : string :=
  "ETSI " +:+ doc_type spec_info +:+ " " +:+ full_spec_of spec_info.

End Forms.

(** ** The links of a listing page *)

Module Links.

(** The test of the primary lookup on an anchor: its [href] contains the
    spec number and "dir". *)
Definition link_matches (full_spec : string) (link : option string) : bool :=
  Str.contains full_spec (default "" link) && Str.contains "dir" (default "" link).

Definition is_slash (c : ascii) : bool := Char.eqb c "/".

End Links.

(** * Properties *)

(** ** Characters and strings *)

Module CharFacts.

Ltac by_cases c :=
  destruct c as [[] [] [] [] [] [] [] []]; try reflexivity; try discriminate.

Lemma digit_not_space c : Char.isdigit c = true -> Char.isspace c = false.
Proof. by_cases c. Qed.

Lemma digit_not_c_space c : Char.isdigit c = true -> Int.c_isspace c = false.
Proof. by_cases c. Qed.

Lemma space_not_digit c : Char.isspace c = true -> Char.isdigit c = false.
Proof. by_cases c. Qed.

Lemma digit_upper c : Char.isdigit c = true -> Char.to_upper c = c.
Proof. by_cases c. Qed.

Lemma digit_not_upper c : Char.isdigit c = true -> Char.isupper c = false.
Proof. by_cases c. Qed.

Lemma digit_is_word c : Char.isdigit c = true -> Char.isword c = true.
Proof. by_cases c. Qed.

Lemma newline_is_space : Char.isspace Char.newline = true.
Proof. reflexivity. Qed.

Lemma eqb_eq a b : Char.eqb a b = true <-> a = b.
Proof. apply Ascii.eqb_eq. Qed.

Lemma eqb_neq a b : Char.eqb a b = false <-> a <> b.
Proof. apply Ascii.eqb_neq. Qed.

Lemma digit_value_range c : Char.isdigit c = true -> 0 <= Int.digit_value c <= 9.
Proof. by_cases c; intros _; vm_compute; split; discriminate. Qed.

End CharFacts.

Module StrFacts.
Import Text.

Lemma app_cons c s t : String c s +:+ t = String c (s +:+ t).
Proof. reflexivity. Qed.

Lemma app_nil_l s : "" +:+ s = s.
Proof. reflexivity. Qed.

Lemma app_nil_r s : s +:+ "" = s.
Proof. induction s as [|c s IH]; [reflexivity | now rewrite app_cons, IH]. Qed.

Lemma app_assoc s t u : (s +:+ t) +:+ u = s +:+ (t +:+ u).
Proof. induction s as [|c s IH]; [reflexivity | now rewrite !app_cons, IH]. Qed.

Lemma length_app s t :
  String.length (s +:+ t) = (String.length s + String.length t)%nat.
Proof.
  induction s as [|c s IH]; [reflexivity|].
  rewrite app_cons; simpl; now rewrite IH.
Qed.

Lemma take_drop n s : Str.take n s +:+ Str.drop n s = s.
Proof.
  revert s; induction n as [|n IH]; intros [|c s]; simpl; try reflexivity.
  now rewrite app_cons, IH.
Qed.

Lemma take_app s t : Str.take (String.length s) (s +:+ t) = s.
Proof.
  induction s as [|c s IH]; [now destruct t|].
  rewrite app_cons; simpl; now rewrite IH.
Qed.

Lemma take_all s : Str.take (String.length s) s = s.
Proof. induction s as [|c s IH]; [reflexivity | simpl; now rewrite IH]. Qed.

Lemma drop_app s t : Str.drop (String.length s) (s +:+ t) = t.
Proof. induction s as [|c s IH]; [reflexivity | rewrite app_cons; exact IH]. Qed.

Lemma length_take_le n s : (String.length (Str.take n s) <= n)%nat.
Proof.
  revert s; induction n as [|n IH]; intros [|c s]; simpl; try lia.
  specialize (IH s); lia.
Qed.

Lemma all_app p s t : Str.all p (s +:+ t) = Str.all p s && Str.all p t.
Proof.
  induction s as [|c s IH]; [reflexivity|].
  rewrite app_cons; simpl. now rewrite IH, andb_assoc.
Qed.

Lemma all_impl (p q : ascii -> bool) s :
  (forall c, p c = true -> q c = true) -> Str.all p s = true -> Str.all q s = true.
Proof.
  intros Hpq; induction s as [|c s IH]; simpl; [reflexivity|].
  rewrite !andb_true_iff; intros [Hc Hs]; auto.
Qed.

Lemma map_id_on (f : ascii -> ascii) (p : ascii -> bool) s :
  (forall c, p c = true -> f c = c) -> Str.all p s = true -> Str.map f s = s.
Proof.
  intros Hf; induction s as [|c s IH]; simpl; [reflexivity|].
  rewrite andb_true_iff; intros [Hc Hs]. now rewrite Hf, IH.
Qed.

Lemma rstrip_by_last p s : last_is p (Str.rstrip_by p s) = false.
Proof.
  induction s as [|c s IH]; simpl; [reflexivity|].
  destruct (Str.rstrip_by p s) as [|d r] eqn:E; simpl in *.
  - rewrite andb_true_r. destruct (p c) eqn:Hc; simpl; [reflexivity | exact Hc].
  - rewrite andb_false_r. exact IH.
Qed.

Lemma lstrip_by_last p s :
  last_is p s = false -> last_is p (Str.lstrip_by p s) = false.
Proof.
  induction s as [|c s IH]; [reflexivity|].
  intros H. cbn [Str.lstrip_by]. destruct (p c) eqn:Hc; [|exact H].
  apply IH. destruct s as [|d s]; [simpl in H; congruence | exact H].
Qed.

Lemma strip_by_last p s : last_is p (Str.strip_by p s) = false.
Proof. apply lstrip_by_last, rstrip_by_last. Qed.

Lemma last_is_drop p n s c :
  Str.drop n s = String c "" -> last_is p s = p c.
Proof.
  revert s; induction n as [|n IH]; intros s H.
  - simpl in H. now subst s.
  - destruct s as [|d s]; simpl in H; [discriminate|].
    specialize (IH s H). destruct s as [|e s]; [destruct n; discriminate|].
    exact IH.
Qed.

Lemma lstrip_by_id p c s : p c = false -> Str.lstrip_by p (String c s) = String c s.
Proof. intros H; simpl; now rewrite H. Qed.

Lemma rstrip_by_id p s : last_is p s = false -> Str.rstrip_by p s = s.
Proof.
  induction s as [|c s IH]; simpl; [reflexivity|]. intros H.
  destruct s as [|d s].
  - simpl. now rewrite H.
  - rewrite IH by exact H. simpl. now rewrite andb_false_r.
Qed.

Lemma last_is_all (p q : ascii -> bool) s :
  (forall c, q c = true -> p c = false) -> Str.all q s = true -> last_is p s = false.
Proof.
  intros Hqp; induction s as [|c s IH]; [reflexivity|].
  simpl Str.all. rewrite andb_true_iff; intros [Hc Hs].
  destruct s as [|d s]; simpl; [auto | apply IH, Hs].
Qed.

(** A string of characters outside [p] is left alone by [strip_by p]. *)
Lemma strip_by_id (p q : ascii -> bool) s :
  (forall c, q c = true -> p c = false) -> Str.all q s = true -> Str.strip_by p s = s.
Proof.
  intros Hqp Hs. unfold Str.strip_by.
  rewrite rstrip_by_id by eauto using last_is_all.
  destruct s as [|c s]; [reflexivity|].
  simpl in Hs; apply andb_true_iff in Hs as [Hc _].
  apply lstrip_by_id; auto.
Qed.

Lemma startswith_head a p c s :
  a <> c -> Str.startswith (String a p) (String c s) = false.
Proof.
  intros Hne. unfold Str.startswith; simpl.
  destruct (ascii_dec a c); [contradiction | reflexivity].
Qed.

End StrFacts.

(** ** The matcher on repetitions of one character class *)

Module ReFacts.
Import Re Text Patterns.

Section Equations.
Context {R : Type}.
Variables (pos : nat) (s : string) (c : caps) (k : cont R).

Lemma run_eps : run REps pos s c k = k pos s c.
Proof. reflexivity. Qed.

Lemma run_seq r1 r2 :
  run (RSeq r1 r2) pos s c k =
    run r1 pos s c (fun pos' s' c' => run r2 pos' s' c' k).
Proof. reflexivity. Qed.

Lemma run_rep lo hi r :
  run (RRep lo hi r) pos s c k =
    rep_loop (run r) k (S (String.length s)) lo hi pos s c.
Proof. reflexivity. Qed.

Lemma run_group i r :
  run (RGroup i r) pos s c k =
    run r pos s c
      (fun pos' s' c' => k pos' s' ((i, Str.take (pos' - pos) s) :: c')).
Proof. reflexivity. Qed.

Lemma run_char cl a s' :
  run (RChar cl) pos (String a s') c k =
    if cclass_matches cl a then k (S pos) s' c else None.
Proof. reflexivity. Qed.

Lemma run_char_nil cl : run (RChar cl) pos "" c k = None.
Proof. reflexivity. Qed.

Lemma run_bol :
  run RBol pos s c k = if Nat.eqb pos O then k pos s c else None.
Proof. reflexivity. Qed.

Lemma run_eol :
  run REol pos s c k = if at_eol s then k pos s c else None.
Proof. reflexivity. Qed.
End Equations.

(** One step of the matcher on a sequence, a group or a repetition. *)
Ltac run_step :=
  repeat (first [rewrite run_seq | rewrite run_group | rewrite run_rep
                | rewrite run_eps | rewrite run_bol | rewrite run_eol];
          cbv beta).

Section Loop.
Context {R : Type}.
Variable cl : cclass.
Variable k : cont R.

Lemma rep_loop_done step fuel pos s c :
  rep_loop step k fuel O (Some O) pos s c = k pos s c.
Proof. destruct fuel; reflexivity. Qed.

(** [x{n}]: exactly [n] characters of the class, no choice. *)
Lemma rep_exact n : forall fuel pos s c,
  (String.length s < fuel)%nat ->
  rep_loop (run (RChar cl)) k fuel n (Some n) pos s c =
    if starts_with_n (cclass_matches cl) n s
    then k (n + pos)%nat (Str.drop n s) c
    else None.
Proof.
  induction n as [|n IH]; intros fuel pos s c Hfuel.
  - rewrite rep_loop_done. reflexivity.
  - destruct fuel as [|fuel]; [lia|].
    cbn [rep_loop Nat.eqb option_map Nat.pred].
    destruct s as [|a s]; [reflexivity|]. rewrite run_char.
    unfold starts_with_n. cbn [Str.take Str.all String.length Str.drop Nat.eqb].
    destruct (cclass_matches cl a) eqn:Ha; [|now rewrite andb_false_r].
    simpl in Hfuel. rewrite IH by lia.
    unfold starts_with_n. rewrite Nat.add_succ_r. cbn [andb Nat.add].
    destruct (_ && _); [destruct (k _ _ _)|]; reflexivity.
Qed.

(** [x+] and [x*] before a continuation that rejects every text
    starting with a character of the class: the longest run is taken. *)
Hypothesis k_rejects : forall pos a s c,
  cclass_matches cl a = true -> k pos (String a s) c = None.

Lemma rep_greedy : forall s fuel lo pos c,
  (String.length s < fuel)%nat ->
  rep_loop (run (RChar cl)) k fuel lo None pos s c =
    let n := span_len (cclass_matches cl) s in
    if (lo <=? n)%nat then k (n + pos)%nat (Str.drop n s) c else None.
Proof.
  induction s as [|a s IH]; intros fuel lo pos c Hfuel;
    (destruct fuel as [|fuel]; [simpl in Hfuel; lia|]).
  - cbn [rep_loop span_len Str.drop Nat.add]. rewrite run_char_nil.
    destruct lo; reflexivity.
  - cbn [rep_loop span_len option_map]. rewrite run_char.
    destruct (cclass_matches cl a) eqn:Ha.
    + simpl in Hfuel. rewrite IH by lia. cbn zeta.
      cbn [Str.drop]. rewrite Nat.add_succ_r. cbn [Nat.add].
      destruct lo as [|lo]; cbn [Nat.pred Nat.leb Nat.eqb].
      * rewrite k_rejects by exact Ha.
        now destruct (k _ _ _).
      * destruct (lo <=? _)%nat; [destruct (k _ _ _)|]; reflexivity.
    + cbn [Str.drop Nat.add]. destruct lo; reflexivity.
Qed.
End Loop.

Lemma compile_part : compile "-(\d+)$" = Ok r_part.
Proof. reflexivity. Qed.
Lemma compile_3_3 : compile pattern_3_3 = Ok r_3_3.
Proof. reflexivity. Qed.
Lemma compile_6 : compile pattern_6 = Ok r_6.
Proof. reflexivity. Qed.
Lemma compile_2_3 : compile pattern_2_3 = Ok r_2_3.
Proof. reflexivity. Qed.
Lemma compile_noise : compile title_noise_pattern = Ok r_noise.
Proof. reflexivity. Qed.
Lemma compile_date : compile creation_date_pattern = Ok r_date.
Proof. reflexivity. Qed.

(** The version pattern of [get_version_directories] has an opening
    parenthesis that is never closed. *)
Lemma compile_version_pattern :
  compile version_pattern = Raise (ReError "missing ), unterminated subpattern" 0).
Proof. reflexivity. Qed.

End ReFacts.

(** ** The digit-grouping patterns of the identifier parser *)

Module GroupingFacts.
Import Re Text Patterns Grouping ReFacts.

Lemma r_3_3_eq : r_3_3 = r_spaced 3 3.
Proof. reflexivity. Qed.
Lemma r_2_3_eq : r_2_3 = r_spaced 2 3.
Proof. reflexivity. Qed.
Lemma r_6_eq : r_6 = r_joined 3 3.
Proof. reflexivity. Qed.

Lemma match_at_spaced a b s :
  (0 < b)%nat ->
  match_at (r_spaced a b) 0 s =
    match split_spaced a b s with
    | Some (g1, w, g2) => Some (found s (b + (w + a)) g1 g2)
    | None => None
    end.
Proof.
  intros Hb. unfold match_at, r_spaced, split_spaced.
  run_step. rewrite rep_exact by lia.
  change (cclass_matches digit) with Char.isdigit.
  destruct (starts_with_n Char.isdigit a s); [|reflexivity].
  run_step. rewrite rep_greedy.
  - change (cclass_matches space) with Char.isspace.
    cbn zeta. set (w := span_len Char.isspace (Str.drop a s)).
    destruct (1 <=? w)%nat; [|reflexivity].
    run_step. rewrite rep_exact by lia.
    change (cclass_matches digit) with Char.isdigit.
    cbn [andb].
    destruct (starts_with_n Char.isdigit b (Str.drop w (Str.drop a s))); [|reflexivity].
    run_step. unfold accept, found.
    replace (a + 0 - 0)%nat with a by lia.
    replace (b + (w + (a + 0)) - (w + (a + 0)))%nat with b by lia.
    replace (b + (w + (a + 0)) - 0)%nat with (b + (w + a))%nat by lia.
    replace (b + (w + (a + 0)))%nat with (b + (w + a))%nat by lia.
    reflexivity.
  - intros pos x t c Hx. run_step.
    destruct b as [|b]; [lia|].
    cbn [String.length rep_loop Nat.eqb]. rewrite run_char.
    change (cclass_matches digit x) with (Char.isdigit x).
    change (cclass_matches space x) with (Char.isspace x) in Hx.
    now rewrite (CharFacts.space_not_digit x Hx).
  - lia.
Qed.

Lemma match_at_joined a b s :
  match_at (r_joined a b) 0 s =
    match split_joined a b s with
    | Some (g1, g2) => Some (found s (b + a) g1 g2)
    | None => None
    end.
Proof.
  unfold match_at, r_joined, split_joined.
  run_step. rewrite rep_exact by lia.
  change (cclass_matches digit) with Char.isdigit.
  destruct (starts_with_n Char.isdigit a s); [|reflexivity].
  run_step. cbn [andb]. rewrite rep_exact by lia.
  change (cclass_matches digit) with Char.isdigit.
  destruct (starts_with_n Char.isdigit b (Str.drop a s)); [|reflexivity].
  run_step. unfold accept, found.
  replace (a + 0 - 0)%nat with a by lia.
  replace (b + (a + 0) - (a + 0))%nat with b by lia.
  replace (b + (a + 0) - 0)%nat with (b + a)%nat by lia.
  replace (b + (a + 0))%nat with (b + a)%nat by lia.
  reflexivity.
Qed.

Lemma starts_with_n_app p n pre rest :
  String.length pre = n -> Str.all p pre = true ->
  starts_with_n p n (pre +:+ rest) = true.
Proof.
  intros Hlen Hall. unfold starts_with_n. subst n.
  rewrite StrFacts.take_app, Nat.eqb_refl, Hall. reflexivity.
Qed.

Lemma starts_with_n_inv p n s :
  starts_with_n p n s = true ->
  String.length (Str.take n s) = n /\ Str.all p (Str.take n s) = true.
Proof.
  unfold starts_with_n. rewrite andb_true_iff, Nat.eqb_eq. tauto.
Qed.

Lemma span_len_app p ws d t :
  Str.all p ws = true -> p d = false ->
  span_len p (ws +:+ String d t) = String.length ws.
Proof.
  intros Hws Hd. induction ws as [|w ws IH].
  - simpl. now rewrite Hd.
  - rewrite StrFacts.app_cons. simpl in *.
    apply andb_true_iff in Hws as [Hw Hws]. rewrite Hw. f_equal. auto.
Qed.

Lemma span_len_take p s :
  String.length (Str.take (span_len p s) s) = span_len p s /\
  Str.all p (Str.take (span_len p s) s) = true.
Proof.
  induction s as [|a s [IH1 IH2]]; [split; reflexivity|].
  simpl. destruct (p a) eqn:Ha; simpl; [|split; reflexivity].
  rewrite Ha, IH1, IH2. split; reflexivity.
Qed.

Lemma is_digits_head n d t : is_digits (S n) (String d t) -> Char.isdigit d = true.
Proof. intros [_ H]. simpl in H. now apply andb_true_iff in H. Qed.

Lemma is_digits_nonempty n s : is_digits (S n) s -> exists d t, s = String d t.
Proof. intros [H _]. destruct s as [|d t]; [discriminate | eauto]. Qed.

Lemma split_spaced_intro a b p ws n rest :
  (0 < b)%nat -> is_digits a p -> is_spaces ws -> is_digits b n ->
  split_spaced a b (p +:+ ws +:+ n +:+ rest) = Some (p, String.length ws, n).
Proof.
  intros Hb [<- Hpd] [Hne Hws] [<- Hnd]. unfold split_spaced.
  rewrite starts_with_n_app by auto.
  rewrite StrFacts.drop_app, StrFacts.take_app. cbn zeta.
  assert (Hspan : span_len Char.isspace (ws +:+ n +:+ rest) = String.length ws).
  { destruct n as [|d t]; [simpl in Hb; lia|].
    rewrite StrFacts.app_cons. apply span_len_app; [exact Hws|].
    simpl in Hnd. apply andb_true_iff in Hnd as [Hd _].
    now apply CharFacts.digit_not_space. }
  rewrite Hspan, StrFacts.drop_app, StrFacts.take_app.
  rewrite starts_with_n_app by auto.
  destruct ws as [|w ws]; [congruence | reflexivity].
Qed.

Lemma split_spaced_inv a b s p w n :
  split_spaced a b s = Some (p, w, n) ->
  exists ws rest,
    s = p +:+ ws +:+ n +:+ rest /\ is_digits a p /\ is_spaces ws /\ is_digits b n.
Proof.
  unfold split_spaced.
  destruct (starts_with_n Char.isdigit a s) eqn:Ha; [|discriminate].
  set (rest := Str.drop a s). set (k := span_len Char.isspace rest).
  destruct (1 <=? k)%nat eqn:Hk; [|discriminate]. cbn [andb].
  destruct (starts_with_n Char.isdigit b (Str.drop k rest)) eqn:Hb; [|discriminate].
  intros [= <- <- <-].
  apply starts_with_n_inv in Ha, Hb.
  destruct (span_len_take Char.isspace rest) as [Hl Hs]. fold k in Hl, Hs.
  exists (Str.take k rest), (Str.drop b (Str.drop k rest)).
  repeat split; try tauto.
  - now rewrite !StrFacts.take_drop.
  - intros E. rewrite E in Hl. apply Nat.leb_le in Hk. simpl in Hl. lia.
Qed.

Lemma split_joined_intro a b p n rest :
  is_digits a p -> is_digits b n ->
  split_joined a b (p +:+ n +:+ rest) = Some (p, n).
Proof.
  intros [<- Hpd] [<- Hnd]. unfold split_joined.
  rewrite starts_with_n_app by auto.
  rewrite StrFacts.drop_app, StrFacts.take_app.
  rewrite starts_with_n_app by auto.
  now rewrite StrFacts.take_app.
Qed.

Lemma split_joined_inv a b s p n :
  split_joined a b s = Some (p, n) ->
  exists rest, s = p +:+ n +:+ rest /\ is_digits a p /\ is_digits b n.
Proof.
  unfold split_joined.
  destruct (starts_with_n Char.isdigit a s) eqn:Ha; [|discriminate]. cbn [andb].
  destruct (starts_with_n Char.isdigit b (Str.drop a s)) eqn:Hb; [|discriminate].
  intros [= <- <-]. apply starts_with_n_inv in Ha, Hb.
  exists (Str.drop b (Str.drop a s)). repeat split; try tauto.
  now rewrite !StrFacts.take_drop.
Qed.

End GroupingFacts.

(** ** The identifier parser *)

Module ParserFacts.
Import Re Text Patterns Grouping ReFacts GroupingFacts.

Lemma re_match_3_3 s :
  re_match pattern_3_3 s =
    Ok (match split_spaced 3 3 s with
        | Some (g1, w, g2) => Some (found s (3 + (w + 3)) g1 g2)
        | None => None
        end).
Proof.
  unfold re_match. rewrite compile_3_3. cbn [rbind].
  now rewrite r_3_3_eq, match_at_spaced by lia.
Qed.

Lemma re_match_2_3 s :
  re_match pattern_2_3 s =
    Ok (match split_spaced 2 3 s with
        | Some (g1, w, g2) => Some (found s (3 + (w + 2)) g1 g2)
        | None => None
        end).
Proof.
  unfold re_match. rewrite compile_2_3. cbn [rbind].
  now rewrite r_2_3_eq, match_at_spaced by lia.
Qed.

Lemma re_match_6 s :
  re_match pattern_6 s =
    Ok (match split_joined 3 3 s with
        | Some (g1, g2) => Some (found s (3 + 3) g1 g2)
        | None => None
        end).
Proof.
  unfold re_match. rewrite compile_6. cbn [rbind].
  now rewrite r_6_eq, match_at_joined.
Qed.

Lemma spec_info_of_found dt part s stop g1 g2 :
  spec_info_of dt part (found s stop g1 g2) = Ok (mkSpecInfo dt g1 g2 part).
Proof. reflexivity. Qed.

(** The three [re.match] calls, as one function of the text. *)
Lemma match_digit_groups_eq dt part s :
  match_digit_groups dt part s =
    match digit_groups s with
    | Some (p, n) => Ok (mkSpecInfo dt p n part)
    | None => Raise (ValueError ("Invalid ETSI specification number: " +:+ s))
    end.
Proof.
  unfold match_digit_groups, digit_groups.
  rewrite re_match_3_3, re_match_6, re_match_2_3. cbn [rbind].
  destruct (split_spaced 3 3 s) as [[[p w] n]|]; [apply spec_info_of_found|].
  destruct (split_joined 3 3 s) as [[p n]|]; [apply spec_info_of_found|].
  destruct (split_spaced 2 3 s) as [[[p w] n]|]; [apply spec_info_of_found|].
  reflexivity.
Qed.

Lemma is_digits_3 p :
  is_digits 3 p ->
  exists c1 c2 c3,
    p = String c1 (String c2 (String c3 "")) /\
    Char.isdigit c1 = true /\ Char.isdigit c2 = true /\ Char.isdigit c3 = true.
Proof.
  intros [Hl Hd].
  destruct p as [|c1 [|c2 [|c3 [|]]]]; try discriminate.
  simpl in Hd. rewrite !andb_true_iff in Hd. exists c1, c2, c3. tauto.
Qed.

Lemma is_digits_2 p :
  is_digits 2 p ->
  exists c1 c2,
    p = String c1 (String c2 "") /\
    Char.isdigit c1 = true /\ Char.isdigit c2 = true.
Proof.
  intros [Hl Hd].
  destruct p as [|c1 [|c2 [|]]]; try discriminate.
  simpl in Hd. rewrite !andb_true_iff in Hd. exists c1, c2. tauto.
Qed.

(** Six digits in a row are not three digits, whitespace, three digits. *)
Lemma joined_not_spaced p n rest :
  is_digits 3 p -> is_digits 3 n -> split_spaced 3 3 (p +:+ n +:+ rest) = None.
Proof.
  intros Hp Hn. unfold split_spaced.
  rewrite starts_with_n_app by apply Hp.
  destruct (is_digits_3 p Hp) as (c1 & c2 & c3 & -> & _).
  destruct (is_digits_3 n Hn) as (d1 & d2 & d3 & -> & Hd1 & _).
  rewrite !StrFacts.app_cons, !StrFacts.app_nil_l.
  cbn [Str.drop span_len]. rewrite (CharFacts.digit_not_space d1 Hd1).
  reflexivity.
Qed.

(** Two digits and whitespace do not start with three digits. *)
Lemma two_digits_not_three p ws t :
  is_digits 2 p -> is_spaces ws ->
  starts_with_n Char.isdigit 3 (p +:+ ws +:+ t) = false.
Proof.
  intros Hp [Hne Hws].
  destruct (is_digits_2 p Hp) as (c1 & c2 & -> & _).
  destruct ws as [|w ws]; [congruence|].
  simpl in Hws. apply andb_true_iff in Hws as [Hw _].
  rewrite !StrFacts.app_cons, !StrFacts.app_nil_l.
  unfold starts_with_n. cbn [Str.take Str.all].
  rewrite (CharFacts.space_not_digit w Hw). now rewrite !andb_false_r.
Qed.

Lemma digit_groups_grouping s p n :
  digit_groups s = Some (p, n) <-> grouping s p n.
Proof.
  unfold digit_groups. split.
  - destruct (split_spaced 3 3 s) as [[[p1 w1] n1]|] eqn:E1.
    { intros [= <- <-].
      apply split_spaced_inv in E1 as (ws & rest & -> & ? & ? & ?).
      now apply spaced_3_3. }
    destruct (split_joined 3 3 s) as [[p2 n2]|] eqn:E2.
    { intros [= <- <-].
      apply split_joined_inv in E2 as (rest & -> & ? & ?).
      now apply joined_6. }
    destruct (split_spaced 2 3 s) as [[[p3 w3] n3]|] eqn:E3; [|discriminate].
    intros [= <- <-].
    apply split_spaced_inv in E3 as (ws & rest & -> & ? & ? & ?).
    now apply spaced_2_3.
  - intros [p' ws n' rest Hp Hws Hn | p' n' rest Hp Hn | p' ws n' rest Hp Hws Hn].
    + now rewrite split_spaced_intro by (auto; lia).
    + rewrite joined_not_spaced by assumption.
      now rewrite split_joined_intro.
    + unfold split_spaced at 1, split_joined.
      rewrite two_digits_not_three by assumption. cbn [andb].
      now rewrite split_spaced_intro by (auto; lia).
Qed.

(** The parser succeeds exactly on the groupings. *)
Lemma match_digit_groups_ok dt part s p n :
  grouping s p n -> match_digit_groups dt part s = Ok (mkSpecInfo dt p n part).
Proof.
  intros H. apply digit_groups_grouping in H.
  now rewrite match_digit_groups_eq, H.
Qed.

Lemma match_digit_groups_inv dt part s info :
  match_digit_groups dt part s = Ok info ->
  info = mkSpecInfo dt (prefix info) (number info) part /\
  grouping s (prefix info) (number info).
Proof.
  rewrite match_digit_groups_eq.
  destruct (digit_groups s) as [[p n]|] eqn:E; [|discriminate].
  intros [= <-]. apply digit_groups_grouping in E. split; [reflexivity | exact E].
Qed.

Lemma match_digit_groups_none dt part s :
  (forall p n, ~ grouping s p n) ->
  match_digit_groups dt part s =
    Raise (ValueError ("Invalid ETSI specification number: " +:+ s)).
Proof.
  intros H. rewrite match_digit_groups_eq.
  destruct (digit_groups s) as [[p n]|] eqn:E; [|reflexivity].
  apply digit_groups_grouping in E. now apply H in E.
Qed.

(** The three [re.match] calls find nothing exactly when the text begins
    with none of the groupings. *)
Lemma no_pattern_no_grouping s :
  (re_match pattern_3_3 s = Ok None /\
   re_match pattern_6 s = Ok None /\
   re_match pattern_2_3 s = Ok None) <->
  (forall p n, ~ grouping s p n).
Proof.
  rewrite re_match_3_3, re_match_6, re_match_2_3. split.
  - intros (H1 & H2 & H3) p n Hg. apply digit_groups_grouping in Hg.
    unfold digit_groups in Hg.
    destruct (split_spaced 3 3 s) as [[[? ?] ?]|]; [discriminate H1|].
    destruct (split_joined 3 3 s) as [[? ?]|]; [discriminate H2|].
    destruct (split_spaced 2 3 s) as [[[? ?] ?]|]; [discriminate H3|].
    discriminate Hg.
  - intros Hnone.
    assert (Hd : digit_groups s = None).
    { destruct (digit_groups s) as [[p n]|] eqn:E; [|reflexivity].
      apply digit_groups_grouping in E. now apply Hnone in E. }
    unfold digit_groups in Hd.
    destruct (split_spaced 3 3 s) as [[[? ?] ?]|]; [discriminate Hd|].
    destruct (split_joined 3 3 s) as [[? ?]|]; [discriminate Hd|].
    destruct (split_spaced 2 3 s) as [[[? ?] ?]|]; [discriminate Hd|].
    auto.
Qed.

(** *** Normalisation *)

Lemma extract_part_total s : exists part rem, extract_part s = Ok (part, rem).
Proof.
  unfold extract_part, re_search. rewrite compile_part. cbn [rbind].
  destruct (search_from r_part 0 s); eauto.
Qed.

(** The part suffix is the only step of normalisation that could raise,
    and its pattern compiles. *)
Lemma normalize_total s : exists dt part rem, normalize s = Ok (dt, part, rem).
Proof.
  unfold normalize.
  destruct (detect_doc_type doc_types "TS" (Str.upper (Str.strip s))) as [dt t].
  destruct (extract_part_total t) as (part & rem & ->). cbn [rbind]. eauto.
Qed.

Lemma search_part_no_dash s : forall pos,
  Str.all not_dash s = true -> search_from r_part pos s = None.
Proof.
  induction s as [|a s IH]; intros pos Hs; [reflexivity|].
  simpl in Hs. apply andb_true_iff in Hs as [Ha Hs].
  cbn [search_from]. rewrite IH by exact Hs.
  unfold match_at, r_part. run_step. rewrite run_char.
  cbn [cclass_matches atom_matches].
  unfold not_dash in Ha. apply negb_true_iff in Ha. now rewrite Ha.
Qed.

Lemma extract_part_no_dash s :
  Str.all not_dash s = true -> extract_part s = Ok (None, s).
Proof.
  intros Hs. unfold extract_part, re_search. rewrite compile_part. cbn [rbind].
  now rewrite search_part_no_dash.
Qed.

(** No document type is detected in a text whose first character is not
    the first character of "ETSI" or of a type. *)
Lemma detect_doc_type_skip dts d c s :
  "E"%char <> c ->
  Forall (fun dt => exists a t, dt = String a t /\ a <> c) dts ->
  detect_doc_type dts d (String c s) = (d, String c s).
Proof.
  intros HE Hdts. induction Hdts as [|dt dts (a & t & -> & Ha) _ IH]; [reflexivity|].
  cbn [detect_doc_type].
  change ("ETSI " +:+ String a t) with (String "E" ("TSI " +:+ String a t)).
  now rewrite !StrFacts.startswith_head.
Qed.

Lemma detect_doc_type_digit c s :
  Char.isdigit c = true ->
  detect_doc_type doc_types "TS" (String c s) = ("TS", String c s).
Proof.
  intros Hc. apply detect_doc_type_skip.
  - intros <-. discriminate Hc.
  - unfold doc_types.
    repeat (constructor; [do 2 eexists; split; [reflexivity|];
                          intros <-; discriminate Hc|]).
    constructor.
Qed.

Lemma digit_not_dash c : Char.isdigit c = true -> not_dash c = true.
Proof. CharFacts.by_cases c. Qed.

(** A text of digits is already normal: no type, no part. *)
Lemma normalize_digits c s :
  Str.all Char.isdigit (String c s) = true ->
  normalize (String c s) = Ok ("TS", None, String c s).
Proof.
  intros Hs. unfold normalize, Str.strip, Str.upper.
  rewrite (StrFacts.strip_by_id Char.isspace Char.isdigit)
    by auto using CharFacts.digit_not_space.
  rewrite (StrFacts.map_id_on Char.to_upper Char.isdigit)
    by auto using CharFacts.digit_upper.
  pose proof Hs as Hc. simpl in Hc. apply andb_true_iff in Hc as [Hc _].
  rewrite detect_doc_type_digit by exact Hc.
  rewrite extract_part_no_dash; [reflexivity|].
  eapply StrFacts.all_impl; [|exact Hs]. apply digit_not_dash.
Qed.

End ParserFacts.

(** ** Claims on the identifier parser *)

Import Grouping GroupingFacts ParserFacts.

(** C7: Identifier parser on a bare six-digit input: every text of
    exactly six digits parses; the prefix is its first three digits, the
    number its last three, the document type is "TS" and there is no
    part. *)
Theorem parse_six_digits (s : string) :
  String.length s = 6%nat ->
  Str.all Char.isdigit s = true ->
  parse_spec_number s = Ok (mkSpecInfo "TS" (Str.take 3 s) (Str.drop 3 s) None).
Proof.
  intros Hl Hd. unfold parse_spec_number.
  destruct s as [|c1 [|c2 [|c3 [|c4 [|c5 [|c6 [|]]]]]]]; try discriminate.
  rewrite normalize_digits by exact Hd. cbn [rbind Str.take Str.drop].
  apply match_digit_groups_ok.
  simpl in Hd. rewrite !andb_true_iff in Hd.
  destruct Hd as (H1 & H2 & H3 & H4 & H5 & H6 & _).
  apply (joined_6 (String c1 (String c2 (String c3 "")))
                  (String c4 (String c5 (String c6 ""))) "");
    (split; [reflexivity | simpl; now rewrite ?H1, ?H2, ?H3, ?H4, ?H5, ?H6]).
Qed.

Lemma parse_six_digits_witness :
  parse_spec_number "103224" = Ok (mkSpecInfo "TS" "103" "224" None).
Proof. exact (parse_six_digits "103224" eq_refl eq_refl). Defined.


Lemma no_grouping_not_a_spec p n : ~ grouping "NOT A SPEC" p n.
Proof. intros H. apply digit_groups_grouping in H. discriminate H. Qed.


(** C10: The identifier parser accepts trailing text: the digit patterns
    are matched at the start of the remaining text only, so whatever
    follows a recognised grouping is ignored.  For the three groupings in
    turn: three digits, whitespace, three digits; six digits; two digits,
    whitespace, three digits. *)
Theorem parse_ignores_trailing_text (s dt rem : string) (part : option string) :
  normalize s = Ok (dt, part, rem) ->
  (forall p ws n trailing,
     is_digits 3 p -> is_spaces ws -> is_digits 3 n ->
     rem = p +:+ ws +:+ n +:+ trailing ->
     parse_spec_number s = Ok (mkSpecInfo dt p n part)) /\
  (forall p n trailing,
     is_digits 3 p -> is_digits 3 n ->
     rem = p +:+ n +:+ trailing ->
     parse_spec_number s = Ok (mkSpecInfo dt p n part)) /\
  (forall p ws n trailing,
     is_digits 2 p -> is_spaces ws -> is_digits 3 n ->
     rem = p +:+ ws +:+ n +:+ trailing ->
     parse_spec_number s = Ok (mkSpecInfo dt p n part)).
Proof.
  intros Hn. unfold parse_spec_number. rewrite Hn. cbn [rbind].
  repeat split; intros; subst rem; apply match_digit_groups_ok.
  - now apply spaced_3_3.
  - now apply joined_6.
  - now apply spaced_2_3.
Qed.

Lemma parse_ignores_trailing_text_witness :
  parse_spec_number "103 224 with extra words" = Ok (mkSpecInfo "TS" "103" "224" None) /\
  parse_spec_number "1032249" = Ok (mkSpecInfo "TS" "103" "224" None).
Proof.
  split.
  - refine (proj1 (parse_ignores_trailing_text "103 224 with extra words"
                     "TS" "103 224 WITH EXTRA WORDS" None eq_refl)
              "103" " " "224" " WITH EXTRA WORDS" _ _ _ eq_refl);
      split; solve [reflexivity | discriminate].
  - refine (proj1 (proj2 (parse_ignores_trailing_text "1032249"
                            "TS" "1032249" None eq_refl))
              "103" "224" "9" _ _ eq_refl);
      split; reflexivity.
Defined.

(** ** [int] on texts of digits *)

Module IntFacts.
Import Digits.

Lemma digits_all s : forall acc after,
  Str.all Char.isdigit s = true ->
  (s <> "" \/ after = true) ->
  exists n, Int.digits acc after s = Some n.
Proof.
  induction s as [|c s IH]; intros acc after Hs Hne.
  - destruct Hne as [Hne | ->]; [congruence | simpl; eauto].
  - simpl in Hs. apply andb_true_iff in Hs as [Hc Hs].
    simpl. rewrite Hc. apply IH; auto.
Qed.

Lemma digits_value s : forall acc after,
  Str.all Char.isdigit s = true ->
  (s <> "" \/ after = true) ->
  Int.digits acc after s = Some (value acc s).
Proof.
  induction s as [|c s IH]; intros acc after Hs Hne.
  - destruct Hne as [Hne | ->]; [congruence | reflexivity].
  - simpl in Hs. apply andb_true_iff in Hs as [Hc Hs].
    simpl. rewrite Hc. apply IH; auto.
Qed.

Lemma digit_value_zero c :
  Char.isdigit c = true -> Int.digit_value c = 0 -> c = "0"%char.
Proof.
  destruct c as [[] [] [] [] [] [] [] []]; intros H1 H2;
    try discriminate H1; try (vm_compute in H2; discriminate H2); reflexivity.
Qed.

Lemma digit_not_sign c :
  Char.isdigit c = true -> Re.is_char c "-" = false /\ Re.is_char c "+" = false.
Proof. CharFacts.by_cases c; intros _; split; reflexivity. Qed.

Lemma numeral_run_digits s : Str.all Char.isdigit s = true -> Int.numeral_run s = s.
Proof.
  induction s as [|c s IH]; [reflexivity|]. simpl.
  intros H. apply andb_true_iff in H as [-> Hs]. cbn [orb]. now rewrite IH.
Qed.

Lemma count_digits_all s :
  Str.all Char.isdigit s = true -> Int.count_digits s = String.length s.
Proof.
  induction s as [|c s IH]; [reflexivity|]. simpl.
  intros H. apply andb_true_iff in H as [-> Hs]. now rewrite IH.
Qed.

(** A text of digits within the limit is read as the number it
    denotes. *)
Lemma int_value s :
  s <> "" -> Str.all Char.isdigit s = true ->
  (String.length s <= Int.max_str_digits)%nat ->
  Int.int s = Ok (value 0 s).
Proof.
  intros Hne Hs Hlen. unfold Int.int.
  rewrite (StrFacts.strip_by_id Int.c_isspace Char.isdigit)
    by auto using CharFacts.digit_not_c_space.
  destruct s as [|c t]; [congruence|].
  pose proof Hs as Hc. simpl in Hc. apply andb_true_iff in Hc as [Hc _].
  destruct (digit_not_sign c Hc) as [-> ->].
  rewrite (numeral_run_digits _ Hs), (count_digits_all _ Hs).
  apply Nat.ltb_ge in Hlen. rewrite Hlen, andb_false_r.
  now rewrite (digits_value (String c t) 0 false Hs) by (left; discriminate).
Qed.

Lemma int_digits s :
  s <> "" -> Str.all Char.isdigit s = true ->
  (String.length s <= Int.max_str_digits)%nat ->
  exists n, Int.int s = Ok n.
Proof. intros Hne Hs Hlen. rewrite int_value by assumption. eauto. Qed.

(** The texts the script reads as numbers are far within the limit. *)
Lemma short_within_limit n : (n <= 8)%nat -> (n <= Int.max_str_digits)%nat.
Proof. unfold Int.max_str_digits. lia. Qed.

End IntFacts.

(** ** The directory resolver *)

Module ResolverFacts.
Import Digits Grouping GroupingFacts ParserFacts.

Lemma range_suffix_in_labels n : In (range_suffix_of n) range_labels.
Proof.
  unfold range_suffix_of, range_labels.
  repeat (match goal with |- context [if ?b then _ else _] => destruct b end);
    simpl; tauto.
Qed.

Lemma range_suffix_top n : 900 <= n -> range_suffix_of n = "900_999".
Proof.
  intros Hn. unfold range_suffix_of.
  repeat (match goal with
          | |- context [?a <? ?b] => destruct (Z.ltb_spec a b); [lia|]
          end).
  reflexivity.
Qed.

Lemma grouping_digits s p n :
  grouping s p n ->
  p +:+ n <> "" /\ Str.all Char.isdigit (p +:+ n) = true /\
  (String.length (p +:+ n) <= 6)%nat.
Proof.
  intros H.
  assert (Hn : is_digits 3 n /\ Str.all Char.isdigit p = true /\
               (String.length p <= 3)%nat).
  { destruct H as [? ? ? ? [Hl ?] ? ? | ? ? ? [Hl ?] ? | ? ? ? ? [Hl ?] ? ?];
      (split; [assumption | split; [assumption | rewrite Hl; lia]]). }
  destruct Hn as ([Hl Hn] & Hp & Hlp). repeat split.
  - intros E. apply (f_equal String.length) in E.
    rewrite StrFacts.length_app, Hl in E. simpl in E. lia.
  - now rewrite StrFacts.all_app, Hp, Hn.
  - rewrite StrFacts.length_app, Hl. lia.
Qed.

(** The prefix and the number of a parsed identifier are digits, so the
    fallback can always compute its number. *)
Lemma parsed_dir_spec_num s spec_info :
  parse_spec_number s = Ok spec_info ->
  exists n, dir_spec_num_of spec_info = Ok n.
Proof.
  unfold parse_spec_number. intros H.
  destruct (normalize s) as [[[dt part] rem]|e]; [|discriminate].
  cbn [rbind] in H. apply match_digit_groups_inv in H as [_ Hg].
  apply grouping_digits in Hg as (Hne & Hd & Hlen).
  apply IntFacts.int_digits; auto.
  apply IntFacts.short_within_limit. lia.
Qed.

(** With a three-digit prefix other than "000" the bucketed number is
    at least 1000: the label is the last of the table, whatever the
    number. *)
Lemma fallback_label_top spec_info :
  is_digits 3 (prefix spec_info) ->
  is_digits 3 (number spec_info) ->
  prefix spec_info <> "000" ->
  exists n, dir_spec_num_of spec_info = Ok n /\ range_suffix_of n = "900_999".
Proof.
  intros Hp Hn Hne. unfold dir_spec_num_of.
  destruct (is_digits_3 _ Hp) as (c1 & c2 & c3 & Ep & H1 & H2 & H3).
  destruct (is_digits_3 _ Hn) as (d1 & d2 & d3 & En & H4 & H5 & H6).
  rewrite Ep, En in *. rewrite !StrFacts.app_cons, StrFacts.app_nil_l.
  rewrite IntFacts.int_value;
    [|discriminate | simpl; now rewrite H1, H2, H3, H4, H5, H6
     |apply IntFacts.short_within_limit; simpl; lia].
  eexists; split; [reflexivity|]. apply range_suffix_top.
  cbn [value].
  pose proof (CharFacts.digit_value_range c1 H1).
  pose proof (CharFacts.digit_value_range c2 H2).
  pose proof (CharFacts.digit_value_range c3 H3).
  pose proof (CharFacts.digit_value_range d1 H4).
  pose proof (CharFacts.digit_value_range d2 H5).
  pose proof (CharFacts.digit_value_range d3 H6).
  assert (Int.digit_value c1 <> 0 \/ Int.digit_value c2 <> 0 \/ Int.digit_value c3 <> 0).
  { destruct (Z.eq_dec (Int.digit_value c1) 0) as [E1|]; [|tauto].
    destruct (Z.eq_dec (Int.digit_value c2) 0) as [E2|]; [|tauto].
    destruct (Z.eq_dec (Int.digit_value c3) 0) as [E3|]; [|tauto].
    exfalso. apply Hne.
    now rewrite (IntFacts.digit_value_zero c1), (IntFacts.digit_value_zero c2),
      (IntFacts.digit_value_zero c3). }
  lia.
Qed.

Section Resolve.
Variable respond : list Request -> Request -> result Response.
Variable find_all_a : string -> result (list (option string)).

Lemma resolve_cases spec_info log :
  get_spec_directory_url respond find_all_a spec_info log =
    match primary_lookup respond find_all_a spec_info log with
    | (Ok (Some url), log') => (Ok url, log')
    | (Ok None, log') | (Raise _, log') =>
        (rbind (dir_spec_num_of spec_info) (fun n =>
           Ok (fallback_url spec_info (range_suffix_of n))), log')
    end.
Proof.
  unfold get_spec_directory_url, bind, try_except, ret, lift.
  destruct (primary_lookup respond find_all_a spec_info log) as [[[url|]|e] log'];
    try reflexivity;
    destruct (dir_spec_num_of spec_info); reflexivity.
Qed.

(** The primary lookup makes one request, whatever comes of it. *)
Lemma primary_lookup_log spec_info log :
  snd (primary_lookup respond find_all_a spec_info log) =
    (log ++ [mkRequest GET (base_url_of spec_info) 30])%list.
Proof.
  unfold primary_lookup, bind, requests_get, request, lift, ret.
  destruct (respond log _) as [response|e]; [|reflexivity].
  destruct (status_code response =? 200); [|reflexivity].
  destruct (find_all_a (text response)); reflexivity.
Qed.
End Resolve.

End ResolverFacts.

Import ResolverFacts.

(** C6: Directory resolver totality: for a parsed identifier the
    resolver returns a URL and does not raise, after the one request of
    the primary lookup; when the primary lookup raises, whatever the
    exception, or finds no link, the URL is the fallback one. *)
Theorem resolve_total
  (respond : list Request -> Request -> result Response)
  (find_all_a : string -> result (list (option string)))
  (s : string) (spec_info : SpecInfo) (log : list Request) :
  parse_spec_number s = Ok spec_info ->
  exists n,
    dir_spec_num_of spec_info = Ok n /\
    (exists url,
       get_spec_directory_url respond find_all_a spec_info log =
         (Ok url, (log ++ [mkRequest GET (base_url_of spec_info) 30])%list)) /\
    (forall log',
       (exists e, primary_lookup respond find_all_a spec_info log = (Raise e, log')) \/
       primary_lookup respond find_all_a spec_info log = (Ok None, log') ->
       get_spec_directory_url respond find_all_a spec_info log =
         (Ok (fallback_url spec_info (range_suffix_of n)), log')).
Proof.
  intros Hparse. destruct (parsed_dir_spec_num s spec_info Hparse) as [n Hn].
  exists n. split; [exact Hn|].
  pose proof (primary_lookup_log respond find_all_a spec_info log) as Hlog.
  rewrite resolve_cases, Hn. cbn [rbind]. split.
  - destruct (primary_lookup respond find_all_a spec_info log) as [[[url|]|e] log'];
      simpl in Hlog; subst log'; eauto.
  - intros log' [[e ->] | ->]; reflexivity.
Qed.

Lemma resolve_total_witness :
  get_spec_directory_url (fun _ _ => Raise (Timeout "timed out")) (fun _ => Ok [])
      (mkSpecInfo "EG" "202" "396" (Some "3")) [] =
    (Ok "https://www.etsi.org/deliver/etsi_eg/202900_999/202396-3/",
     [mkRequest GET "https://www.etsi.org/deliver/etsi_eg/" 30]).
Proof.
  destruct (resolve_total (fun _ _ => Raise (Timeout "timed out")) (fun _ => Ok [])
              "EG 202 396-3" (mkSpecInfo "EG" "202" "396" (Some "3")) [] eq_refl)
    as (n & Hn & _ & Hfallback).
  injection Hn as <-.
  apply Hfallback. left. exists (Timeout "timed out"). reflexivity.
Defined.

(** C1: Directory resolver fallback for prefix "103" and number "224":
    the number that is bucketed is the whole of 103224, not 224, so the
    label is "900_999" and the URL is built with it. *)
Theorem fallback_label_103_224 :
  let spec_info := mkSpecInfo "TS" "103" "224" None in
  dir_spec_num_of spec_info = Ok 103224 /\
  range_suffix_of 103224 = "900_999" /\
  forall find_all_a log,
    get_spec_directory_url (fun _ _ => Raise (ConnectionError "unreachable"))
        find_all_a spec_info log =
      (Ok "https://www.etsi.org/deliver/etsi_ts/103900_999/103224/",
       (log ++ [mkRequest GET "https://www.etsi.org/deliver/etsi_ts/" 30])%list).
Proof.
  cbv zeta. split; [reflexivity|]. split; [reflexivity|].
  intros find_all_a log. reflexivity.
Qed.

(** ** The version enumerator *)

Module EnumeratorFacts.

(** The search for a version raises on the first anchor: the pattern
    does not compile. *)
Lemma collect_versions_raises link links acc :
  collect_versions (link :: links) acc =
    Raise (ReError "missing ), unterminated subpattern" 0).
Proof. reflexivity. Qed.

(** The sort itself orders the three entries of the example. *)
Lemma sort_desc_example :
  sort_desc [("01.07.01_60", "01.07.01", "60");
             ("01.06.02_30", "01.06.02", "30");
             ("02.01.01_10", "02.01.01", "10")] =
    [("02.01.01_10", "02.01.01", "10");
     ("01.07.01_60", "01.07.01", "60");
     ("01.06.02_30", "01.06.02", "30")].
Proof. reflexivity. Qed.

Section Enumerate.
Variable respond : list Request -> Request -> result Response.
Variable find_all_a : string -> result (list (option string)).

(** A listing with at least one anchor, served with a status that
    [raise_for_status] lets through, makes the enumerator raise. *)
Lemma enumerate_raises_on_links url spec_info log response link links :
  respond log (mkRequest GET url 30) = Ok response ->
  status_code response <> 404 ->
  raise_for_status response = Ok tt ->
  find_all_a (text response) = Ok (link :: links) ->
  get_version_directories respond find_all_a url spec_info log =
    (Raise (ReError "missing ), unterminated subpattern" 0),
     (log ++ [mkRequest GET url 30])%list).
Proof.
  intros Hr H404 Hst Hlinks.
  unfold get_version_directories, bind, requests_get, request, lift.
  rewrite Hr. apply Z.eqb_neq in H404. rewrite H404, Hst, Hlinks.
  reflexivity.
Qed.
End Enumerate.

End EnumeratorFacts.

(** C2: Version enumerator on a listing whose anchors are
    "01.07.01_60/", "01.06.02_30/" and "02.01.01_10/": the call raises
    [re.error] at the first anchor, and no list is returned. *)
Theorem enumerate_three_versions_raises :
  forall (page url : string) (spec_info : SpecInfo) (log : list Request),
    get_version_directories
        (fun _ _ => Ok (mkResponse 200 page page))
        (fun _ => Ok [Some "01.07.01_60/"; Some "01.06.02_30/"; Some "02.01.01_10/"])
        url spec_info log =
      (Raise (ReError "missing ), unterminated subpattern" 0),
       (log ++ [mkRequest GET url 30])%list).
Proof. intros page url spec_info log. reflexivity. Qed.

(** C5: Version enumerator error handling, as the code has it: a 404
    answer gives the empty list; an exception of the request itself
    (network failure, timeout) is propagated; a 4xx or 5xx status other
    than 404 is raised as an HTTP error. *)
Theorem enumerate_error_handling
  (respond : list Request -> Request -> result Response)
  (find_all_a : string -> result (list (option string)))
  (url : string) (spec_info : SpecInfo) (log : list Request) :
  let rq := mkRequest GET url 30 in
  (forall response,
     respond log rq = Ok response -> status_code response = 404 ->
     get_version_directories respond find_all_a url spec_info log =
       (Ok [], (log ++ [rq])%list)) /\
  (forall e,
     respond log rq = Raise e ->
     get_version_directories respond find_all_a url spec_info log =
       (Raise e, (log ++ [rq])%list)) /\
  (forall response,
     respond log rq = Ok response ->
     status_code response <> 404 ->
     400 <= status_code response < 600 ->
     get_version_directories respond find_all_a url spec_info log =
       (Raise (HTTPError (status_code response)), (log ++ [rq])%list)).
Proof.
  cbv zeta. unfold get_version_directories, bind, requests_get, request, lift, ret.
  repeat split.
  - intros response -> ->. reflexivity.
  - intros e ->. reflexivity.
  - intros response -> H404 Hrange.
    apply Z.eqb_neq in H404. rewrite H404. unfold raise_for_status.
    replace (400 <=? status_code response) with true by (symmetry; apply Z.leb_le; lia).
    replace (status_code response <? 600) with true by (symmetry; apply Z.ltb_lt; lia).
    reflexivity.
Qed.

Lemma enumerate_error_handling_witness :
  get_version_directories (fun _ _ => Ok (mkResponse 404 "" "")) (fun _ => Ok [])
      "u" (mkSpecInfo "TS" "103" "224" None) [] =
    (Ok [], [mkRequest GET "u" 30]) /\
  get_version_directories (fun _ _ => Raise (Timeout "timed out")) (fun _ => Ok [])
      "u" (mkSpecInfo "TS" "103" "224" None) [] =
    (Raise (Timeout "timed out"), [mkRequest GET "u" 30]) /\
  get_version_directories (fun _ _ => Ok (mkResponse 503 "" "")) (fun _ => Ok [])
      "u" (mkSpecInfo "TS" "103" "224" None) [] =
    (Raise (HTTPError 503), [mkRequest GET "u" 30]).
Proof.
  split; [|split].
  - apply (proj1 (enumerate_error_handling (fun _ _ => Ok (mkResponse 404 "" ""))
                    (fun _ => Ok []) "u" (mkSpecInfo "TS" "103" "224" None) [])
             (mkResponse 404 "" "")); reflexivity.
  - apply (proj1 (proj2 (enumerate_error_handling (fun _ _ => Raise (Timeout "timed out"))
                    (fun _ => Ok []) "u" (mkSpecInfo "TS" "103" "224" None) []))
             (Timeout "timed out")); reflexivity.
  - apply (proj2 (proj2 (enumerate_error_handling (fun _ _ => Ok (mkResponse 503 "" ""))
                    (fun _ => Ok []) "u" (mkSpecInfo "TS" "103" "224" None) []))
             (mkResponse 503 "" "")); [reflexivity | discriminate | simpl; lia].
Defined.

(** A status outside 2xx that is neither 404 nor 4xx/5xx is not raised:
    the page is read as a listing. *)
Lemma enumerate_non_2xx_not_raised :
  let response := mkResponse 300 "" "" in
  ~ (200 <= status_code response < 300) /\
  get_version_directories (fun _ _ => Ok response) (fun _ => Ok [])
      "https://www.etsi.org/deliver/etsi_ts/103900_999/103224/"
      (mkSpecInfo "TS" "103" "224" None) [] =
    (Ok [],
     [mkRequest GET "https://www.etsi.org/deliver/etsi_ts/103900_999/103224/" 30]).
Proof.
  cbv zeta. split; [simpl; lia | reflexivity].
Qed.

(** ** The artifact locator *)

Module LocatorFacts.
Import Probes.

Section Locate.
Variable respond : list Request -> Request -> result Response.

Lemma probe_refused version_url before : forall after log,
  refused respond log (List.map (probe_of version_url) before) ->
  probe_filenames respond version_url (before ++ after)%list log =
    probe_filenames respond version_url after
      (log ++ List.map (probe_of version_url) before)%list.
Proof.
  induction before as [|name before IH]; intros after log Href.
  - simpl. now rewrite app_nil_r.
  - destruct Href as [(response & Hr & Hst) Href].
    cbn [List.map app probe_filenames].
    unfold bind at 1, requests_head, request.
    fold (probe_of version_url name). rewrite Hr.
    apply Z.eqb_neq in Hst. rewrite Hst.
    rewrite IH by exact Href. now rewrite <- app_assoc.
Qed.

Lemma probe_accepts version_url name after log response :
  respond log (probe_of version_url name) = Ok response ->
  status_code response = 200 ->
  probe_filenames respond version_url (name :: after) log =
    (Ok (version_url +:+ name), (log ++ [probe_of version_url name])%list).
Proof.
  intros Hr Hst. cbn [probe_filenames].
  unfold bind, requests_head, request. fold (probe_of version_url name).
  rewrite Hr, Hst. reflexivity.
Qed.

(** An exception of a probe ends the search at once. *)
Lemma probe_raises version_url name after log e :
  respond log (probe_of version_url name) = Raise e ->
  probe_filenames respond version_url (name :: after) log =
    (Raise e, (log ++ [probe_of version_url name])%list).
Proof.
  intros Hr. cbn [probe_filenames].
  unfold bind, requests_head, request. fold (probe_of version_url name).
  now rewrite Hr.
Qed.
End Locate.

End LocatorFacts.

Import Probes LocatorFacts.

(** C4: Artifact locator: there are four candidate file names, the two
    with the lower-case document type in front and the two without, each
    holding the spec number, "v" and the version without dots, with and
    without a trailing "p"; they are probed one at a time, in this order,
    with a [HEAD] request; the first one answered with status 200 is
    returned and nothing is probed after it; when the four are answered
    with another status the locator raises [ValueError], having made the
    four probes and nothing else. *)
Theorem locate_first_success
  (respond : list Request -> Request -> result Response)
  (directory_url version_dir : string) (spec_info : SpecInfo)
  (log : list Request) :
  let version_url := version_url_of directory_url version_dir in
  let doc_type := Str.lower (doc_type spec_info) in
  let stem := full_spec_of spec_info +:+ "v" +:+ version_no_dots_of version_dir in
  let candidates := possible_filenames spec_info version_dir in
  let probes := List.map (probe_of version_url) in
  candidates =
    [doc_type +:+ "_" +:+ stem +:+ "p.pdf"; doc_type +:+ "_" +:+ stem +:+ ".pdf";
     stem +:+ ".pdf"; stem +:+ "p.pdf"] /\
  (forall before name after response,
     candidates = (before ++ name :: after)%list ->
     refused respond log (probes before) ->
     respond (log ++ probes before)%list (probe_of version_url name) = Ok response ->
     status_code response = 200 ->
     get_pdf_url respond directory_url version_dir spec_info log =
       (Ok (version_url +:+ name),
        (log ++ probes before ++ [probe_of version_url name])%list)) /\
  (refused respond log (probes candidates) ->
   get_pdf_url respond directory_url version_dir spec_info log =
     (Raise (ValueError ("Could not find PDF file in " +:+ version_url)),
      (log ++ probes candidates)%list)).
Proof.
  cbv zeta. split; [|split].
  - unfold possible_filenames. now rewrite !StrFacts.app_assoc.
  - intros before name after response Hc Href Hr Hst.
    unfold get_pdf_url. rewrite Hc, probe_refused by exact Href.
    rewrite (probe_accepts respond _ name after _ response Hr Hst).
    now rewrite <- app_assoc.
  - intros Href. unfold get_pdf_url.
    rewrite <- (app_nil_r (possible_filenames spec_info version_dir)) at 1.
    rewrite probe_refused by exact Href. reflexivity.
Qed.

Lemma locate_first_success_witness :
  let respond := fun (_ : list Request) (rq : Request) =>
    if String.eqb (rq_url rq) "https://host/103224/01.07.01_60/103224v010701.pdf"
    then Ok (mkResponse 200 "" "") else Ok (mkResponse 404 "" "") in
  get_pdf_url respond "https://host/103224/" "01.07.01_60"
      (mkSpecInfo "TS" "103" "224" None) [] =
    (Ok "https://host/103224/01.07.01_60/103224v010701.pdf",
     [mkRequest HEAD "https://host/103224/01.07.01_60/ts_103224v010701p.pdf" 10;
      mkRequest HEAD "https://host/103224/01.07.01_60/ts_103224v010701.pdf" 10;
      mkRequest HEAD "https://host/103224/01.07.01_60/103224v010701.pdf" 10]) /\
  get_pdf_url (fun _ _ => Ok (mkResponse 404 "" "")) "https://host/103224/" "01.07.01_60"
      (mkSpecInfo "TS" "103" "224" None) [] =
    (Raise (ValueError "Could not find PDF file in https://host/103224/01.07.01_60/"),
     [mkRequest HEAD "https://host/103224/01.07.01_60/ts_103224v010701p.pdf" 10;
      mkRequest HEAD "https://host/103224/01.07.01_60/ts_103224v010701.pdf" 10;
      mkRequest HEAD "https://host/103224/01.07.01_60/103224v010701.pdf" 10;
      mkRequest HEAD "https://host/103224/01.07.01_60/103224v010701p.pdf" 10]).
Proof.
  cbv zeta. split.
  - refine (proj1 (proj2 (locate_first_success _ "https://host/103224/" "01.07.01_60"
                            (mkSpecInfo "TS" "103" "224" None) []))
              ["ts_103224v010701p.pdf"; "ts_103224v010701.pdf"] "103224v010701.pdf"
              ["103224v010701p.pdf"] (mkResponse 200 "" "") eq_refl _ eq_refl eq_refl).
    simpl. repeat split; eexists; (split; [reflexivity | discriminate]).
  - refine (proj2 (proj2 (locate_first_success _ "https://host/103224/" "01.07.01_60"
                            (mkSpecInfo "TS" "103" "224" None) [])) _).
    simpl. repeat split; eexists; (split; [reflexivity | discriminate]).
Defined.

(** ** The metadata extractor *)

Module ExtractorFacts.
Import Re Text Patterns Title ReFacts.

Lemma noise_class_special a : cclass_matches noise_class a = special a.
Proof.
  unfold noise_class, special. cbn [cclass_matches existsb atom_matches].
  now rewrite orb_false_r.
Qed.

Lemma span_len_ext (p q : ascii -> bool) s :
  (forall a, p a = q a) -> span_len p s = span_len q s.
Proof.
  intros Hpq. induction s as [|a s IH]; [reflexivity|].
  simpl. now rewrite Hpq, IH.
Qed.

Lemma span_len_all p s :
  Str.all p s = true -> Str.drop (span_len p s) s = "".
Proof.
  induction s as [|a s IH]; [reflexivity|]. simpl.
  intros H. apply andb_true_iff in H as [Ha Hs]. rewrite Ha. simpl. auto.
Qed.

Lemma span_len_stop p s :
  Str.all p s = false ->
  exists a r, Str.drop (span_len p s) s = String a r /\ p a = false.
Proof.
  induction s as [|a s IH]; [discriminate|]. simpl.
  destruct (p a) eqn:Ha; simpl; [auto | eauto].
Qed.

Lemma span_len_pos p a s : p a = true -> (1 <=? span_len p (String a s))%nat = true.
Proof. intros Ha. simpl. now rewrite Ha. Qed.

Lemma newline_not_special : special Char.newline = false.
Proof. reflexivity. Qed.

(** [re.match(r"^[^\w\s]+$", t)] on a stripped, non-empty line: a match
    exactly when every character is special. *)
Lemma re_match_noise t :
  t <> "" -> last_is Char.isspace t = false ->
  re_match title_noise_pattern t =
    Ok (if Str.all special t
        then Some (mkMatch 0 (String.length t) t [])
        else None).
Proof.
  intros Hne Hlast. unfold re_match. rewrite compile_noise. cbn [rbind].
  unfold match_at, r_noise. run_step. cbn [Nat.eqb]. run_step.
  fold noise_class. rewrite rep_greedy; [|idtac|lia].
  - cbn zeta.
    rewrite (span_len_ext _ special) by apply noise_class_special.
    destruct (Str.all special t) eqn:Hall.
    + rewrite (span_len_all _ _ Hall).
      destruct t as [|a t]; [congruence|].
      pose proof Hall as Ha. simpl in Ha. apply andb_true_iff in Ha as [Ha _].
      set (n := span_len special (String a t)).
      assert (Hn : n = String.length (String a t)).
      { clear -Hall. subst n. revert Hall. generalize (String a t) as u.
        induction u as [|b u IH]; [reflexivity|]. simpl.
        intros H. apply andb_true_iff in H as [-> Hu]. now rewrite IH. }
      replace (1 <=? n)%nat with true by (rewrite Hn; reflexivity).
      run_step. cbn [at_eol]. run_step. unfold accept.
      rewrite Nat.add_0_r, Nat.sub_0_r, Hn.
      now rewrite StrFacts.take_all.
    + destruct (span_len_stop _ _ Hall) as (a & r & Hdrop & Ha).
      destruct (1 <=? span_len special t)%nat; [|reflexivity].
      rewrite Hdrop. run_step.
      destruct r as [|b r]; [|reflexivity].
      cbn [at_eol].
      destruct (Char.eqb a Char.newline) eqn:E; [|reflexivity].
      apply CharFacts.eqb_eq in E. subst a.
      rewrite (StrFacts.last_is_drop _ _ _ _ Hdrop) in Hlast. discriminate Hlast.
  - intros pos a s c Ha. run_step.
    rewrite noise_class_special in Ha.
    destruct s as [|b s]; [|reflexivity]. cbn [at_eol].
    destruct (Char.eqb a Char.newline) eqn:E; [|reflexivity].
    apply CharFacts.eqb_eq in E. subst a. discriminate Ha.
Qed.

(** The loop over the lines is a search for the first line that
    qualifies. *)
Lemma scan_title_find lines : forall metadata,
  scan_title lines metadata =
    Ok (match List.find qualifies (List.map Str.strip lines) with
        | Some line => <["title" := TextString line]> metadata
        | None => metadata
        end).
Proof.
  induction lines as [|line lines IH]; intros metadata; [reflexivity|].
  cbn [scan_title List.map List.find]. cbv zeta.
  set (t := Str.strip line). unfold qualifies at 1.
  destruct (20 <? String.length t)%nat eqn:Hlen;
    [|rewrite andb_false_r; cbn [andb]; apply IH].
  destruct t as [|a t'] eqn:Et; [discriminate Hlen|].
  cbn [Str.is_empty negb andb].
  rewrite re_match_noise;
    [|discriminate | rewrite <- Et; apply StrFacts.strip_by_last].
  cbn [rbind]. destruct (Str.all special (String a t')); cbn [negb]; [apply IH | reflexivity].
Qed.

(** *** The publication date *)

Lemma match_at_date_groups pos s m :
  match_at r_date pos s = Some m ->
  exists y mo d, m_groups m = [(3%nat, d); (2%nat, mo); (1%nat, y)].
Proof.
  unfold match_at, r_date. run_step.
  destruct s as [|a s]; [rewrite run_char_nil; discriminate|].
  rewrite run_char. destruct (cclass_matches _ a); [|discriminate].
  run_step.
  destruct s as [|b s]; [rewrite run_char_nil; discriminate|].
  rewrite run_char. destruct (cclass_matches _ b); [|discriminate].
  run_step. rewrite rep_exact by lia.
  destruct (starts_with_n _ 4 s); [|discriminate].
  run_step. rewrite rep_exact by lia.
  destruct (starts_with_n _ 2 _); [|discriminate].
  run_step. rewrite rep_exact by lia.
  destruct (starts_with_n _ 2 _); [|discriminate].
  run_step. unfold accept. intros [= <-]. cbn [m_groups]. eauto.
Qed.

Lemma search_date_groups s : forall pos m,
  search_from r_date pos s = Some m ->
  exists y mo d, m_groups m = [(3%nat, d); (2%nat, mo); (1%nat, y)].
Proof.
  induction s as [|a s IH]; intros pos m; cbn [search_from];
    destruct (match_at r_date pos _) as [m'|] eqn:E.
  - intros [= <-]. eapply match_at_date_groups, E.
  - discriminate.
  - intros [= <-]. eapply match_at_date_groups, E.
  - apply IH.
Qed.

(** The search of a text for the date. *)
Lemma search_object_text s :
  search_object creation_date_pattern (TextString s) =
    Ok (search_from r_date 0 s).
Proof.
  unfold search_object, re_search. rewrite compile_date. reflexivity.
Qed.

(** Reading the date of a text, or of a value that is false, does not
    raise and leaves the title as it is. *)
Lemma parse_publication_date_ok (metadata : gmap string PdfObject) :
  match metadata !! "creation_date" with
  | Some x => negb (object_is_true x) || Documents.is_text x = true
  | None => True
  end ->
  exists metadata',
    parse_publication_date metadata = Ok metadata' /\
    metadata' !! "title" = metadata !! "title".
Proof.
  unfold parse_publication_date.
  destruct (metadata !! "creation_date") as [x|]; [|eauto].
  destruct (object_is_true x) eqn:Hx; [|eauto].
  cbn [negb orb]. destruct x as [s|b|t i sh]; try discriminate. intros _.
  rewrite search_object_text. cbn [rbind].
  destruct (search_from r_date 0 _) as [m|] eqn:E; [|eauto].
  destruct (search_date_groups _ _ _ E) as (y & mo & d & Hg).
  unfold group. rewrite Hg. cbn [lookup_group Nat.eqb].
  eexists; split; [reflexivity|].
  now rewrite lookup_insert_ne.
Qed.

(** Reading the date of a value that is true and is not a text raises
    the type error of [re.search]. *)
Lemma parse_publication_date_type_error (metadata : gmap string PdfObject) x :
  metadata !! "creation_date" = Some x ->
  object_is_true x = true -> Documents.is_text x = false ->
  parse_publication_date metadata =
    Raise (match x with
           | OtherObject type_name _ _ =>
               TypeError ("expected string or bytes-like object, got '"
                            +:+ type_name +:+ "'")
           | _ => TypeError "cannot use a string pattern on a bytes-like object"
           end).
Proof.
  intros Hm Hx Ht. unfold parse_publication_date. rewrite Hm, Hx.
  unfold search_object. rewrite compile_date. cbn [rbind].
  destruct x; [discriminate Ht | reflexivity | reflexivity].
Qed.

(** *** The document information *)

Lemma document_info_gives_title reader :
  has (read_document_info reader) "title" =
    match Documents.info_value reader "/Title" with
    | Some x => object_is_true x
    | None => false
    end.
Proof.
  unfold has, read_document_info, Documents.info_value.
  destruct (pdf_metadata reader) as [info|]; [|reflexivity].
  destruct (bool_decide_reflect (info = ∅)) as [->|_].
  - now rewrite !lookup_empty.
  - rewrite lookup_insert_ne by discriminate. rewrite lookup_insert_eq.
    now destruct (info !! "/Title").
Qed.

Lemma document_info_date_readable reader :
  match read_document_info reader !! "creation_date" with
  | Some x => negb (object_is_true x) || Documents.is_text x
  | None => true
  end = Documents.date_is_readable reader.
Proof.
  unfold read_document_info, Documents.date_is_readable, Documents.info_value.
  destruct (pdf_metadata reader) as [info|]; [|now rewrite lookup_empty].
  destruct (bool_decide_reflect (info = ∅)) as [->|_].
  - now rewrite !lookup_empty.
  - rewrite lookup_insert_eq. now destruct (info !! "/CreationDate").
Qed.

Lemma read_document_info_unreadable reader :
  Documents.date_is_readable reader = false ->
  exists x,
    read_document_info reader !! "creation_date" = Some x /\
    object_is_true x = true /\ Documents.is_text x = false /\
    Documents.date_type_error reader =
      match x with
      | OtherObject type_name _ _ =>
          TypeError ("expected string or bytes-like object, got '"
                       +:+ type_name +:+ "'")
      | _ => TypeError "cannot use a string pattern on a bytes-like object"
      end.
Proof.
  unfold read_document_info, Documents.date_is_readable, Documents.date_type_error,
    Documents.info_value.
  destruct (pdf_metadata reader) as [info|]; [|discriminate].
  destruct (info !! "/CreationDate") as [x|] eqn:Hx; [|discriminate].
  intros H. apply orb_false_iff in H as [H1 H2]. apply negb_false_iff in H1.
  destruct (bool_decide_reflect (info = ∅)) as [->|_];
    [rewrite lookup_empty in Hx; discriminate|].
  exists x. rewrite lookup_insert_eq. cbn [default].
  repeat split; assumption.
Qed.

(** Setting the title leaves the creation date as it is. *)
Lemma titled_creation_date (metadata : gmap string PdfObject) (found : option string) :
  match found with
  | Some line => <["title" := TextString line]> metadata
  | None => metadata
  end !! "creation_date" = metadata !! "creation_date".
Proof. destruct found; [now rewrite lookup_insert_ne | reflexivity]. Qed.

(** *** The whole of the extraction, after the reader is built *)

Lemma metadata_of_reader_with_title reader :
  has (read_document_info reader) "title" = true ->
  Documents.date_is_readable reader = true ->
  exists metadata,
    metadata_of_reader reader = Ok metadata /\
    metadata !! "title" = read_document_info reader !! "title".
Proof.
  intros Ht Hd. unfold metadata_of_reader. rewrite Ht. cbn [negb rbind].
  apply parse_publication_date_ok.
  pose proof (document_info_date_readable reader) as H. rewrite Hd in H.
  destruct (read_document_info reader !! "creation_date"); [exact H | exact I].
Qed.

Lemma metadata_of_reader_scan reader page pages text :
  has (read_document_info reader) "title" = false ->
  Documents.date_is_readable reader = true ->
  pdf_pages reader = page :: pages ->
  extract_text page = Ok text ->
  exists metadata,
    metadata_of_reader reader = Ok metadata /\
    metadata !! "title" =
      match first_title (Str.split Char.newline text) with
      | Some line => Some (TextString line)
      | None => read_document_info reader !! "title"
      end.
Proof.
  intros Ht Hd Hp Hx. unfold metadata_of_reader, first_page_of.
  rewrite Ht, Hp. cbn [negb rbind]. rewrite Hx. cbn [rbind].
  rewrite scan_title_find. cbn [rbind]. unfold first_title.
  set (found := List.find qualifies _).
  destruct (parse_publication_date_ok
              match found with
              | Some line => <["title" := TextString line]> (read_document_info reader)
              | None => read_document_info reader
              end) as (metadata & -> & Htitle).
  { rewrite titled_creation_date.
    pose proof (document_info_date_readable reader) as H. rewrite Hd in H.
    destruct (read_document_info reader !! "creation_date"); [exact H | exact I]. }
  exists metadata. split; [reflexivity|]. rewrite Htitle.
  destruct found; [apply lookup_insert_eq | reflexivity].
Qed.

(** With a creation date that is true and not a text the steps after the
    title end in the type error. *)
Lemma metadata_of_reader_type_error reader :
  Documents.date_is_readable reader = false ->
  (has (read_document_info reader) "title" = true \/
   exists page pages text,
     pdf_pages reader = page :: pages /\ extract_text page = Ok text) ->
  metadata_of_reader reader = Raise (Documents.date_type_error reader).
Proof.
  intros Hd Hcase.
  destruct (read_document_info_unreadable reader Hd) as (x & Hx & Htrue & Htext & ->).
  unfold metadata_of_reader, first_page_of.
  destruct Hcase as [Ht | (page & pages & text & Hp & Hxt)].
  - rewrite Ht. cbn [negb rbind].
    now apply parse_publication_date_type_error.
  - destruct (has (read_document_info reader) "title"); cbn [negb rbind].
    + now apply parse_publication_date_type_error.
    + rewrite Hp. cbn [rbind]. rewrite Hxt. cbn [rbind].
      rewrite scan_title_find. cbn [rbind].
      apply parse_publication_date_type_error; try assumption.
      now rewrite titled_creation_date.
Qed.

Lemma raise_for_status_ok response :
  ~ (400 <= status_code response < 600) -> raise_for_status response = Ok tt.
Proof.
  intros H. unfold raise_for_status.
  destruct (Z.leb_spec 400 (status_code response)); [|reflexivity].
  destruct (Z.ltb_spec (status_code response) 600); [lia | reflexivity].
Qed.

Lemma raise_for_status_error response :
  400 <= status_code response < 600 ->
  raise_for_status response = Raise (HTTPError (status_code response)).
Proof.
  intros H. unfold raise_for_status.
  destruct (Z.leb_spec 400 (status_code response)); [|lia].
  destruct (Z.ltb_spec (status_code response) 600); [reflexivity | lia].
Qed.

Section Extract.
Variable respond : list Request -> Request -> result Response.
Variable PdfReader : string -> result PdfDocument.

(** Once the artifact is fetched, the outcome is that of the reader
    and of the steps after it. *)
Lemma extract_after_fetch pdf_url log response :
  respond log (mkRequest GET pdf_url 30) = Ok response ->
  ~ (400 <= status_code response < 600) ->
  extract_pdf_metadata respond PdfReader pdf_url log =
    (rbind (PdfReader (content response)) metadata_of_reader,
     (log ++ [mkRequest GET pdf_url 30])%list).
Proof.
  intros Hr Hst.
  unfold extract_pdf_metadata, bind, requests_get, request, lift.
  rewrite Hr, (raise_for_status_ok _ Hst).
  destruct (PdfReader (content response)) as [reader|e]; reflexivity.
Qed.
End Extract.

End ExtractorFacts.

Import Title ExtractorFacts.






(** So does a document without pages and without a title. *)
Lemma extract_raises_without_pages :
  extract_pdf_metadata (fun _ _ => Ok (mkResponse 200 "" "%PDF"))
      (fun _ => Ok (mkPdf None [])) "https://host/a.pdf" [] =
    (Raise (IndexError "sequence index out of range"),
     [mkRequest GET "https://host/a.pdf" 30]).
Proof. reflexivity. Qed.

(** And a document whose title is a text and whose creation date is a
    byte string. *)
Lemma extract_raises_on_bytes_date :
  extract_pdf_metadata (fun _ _ => Ok (mkResponse 200 "" "%PDF"))
      (fun _ => Ok (mkPdf (Some {["/Title" := TextString "T";
                                  "/CreationDate" := ByteString "D:20200101"]}) []))
      "https://host/a.pdf" [] =
    (Raise (TypeError "cannot use a string pattern on a bytes-like object"),
     [mkRequest GET "https://host/a.pdf" 30]).
Proof. vm_compute. reflexivity. Qed.

(** * Further properties *)

(** ** More on texts *)

Module StrMore.
Import Text.

Lemma last_is_app p a b : b <> "" -> last_is p (a +:+ b) = last_is p b.
Proof.
  intros Hb. induction a as [|c a IH]; [reflexivity|].
  rewrite StrFacts.app_cons. destruct (a +:+ b) as [|d t] eqn:E.
  - destruct a; [rewrite StrFacts.app_nil_l in E; congruence
                | rewrite StrFacts.app_cons in E; discriminate E].
  - exact IH.
Qed.

Lemma lstrip_by_app p l s :
  Str.all p l = true -> Str.lstrip_by p (l +:+ s) = Str.lstrip_by p s.
Proof.
  induction l as [|c l IH]; [reflexivity|].
  intros H. simpl in H. apply andb_true_iff in H as [Hc Hl].
  rewrite StrFacts.app_cons. simpl. rewrite Hc. auto.
Qed.

Lemma rstrip_by_all p r : Str.all p r = true -> Str.rstrip_by p r = "".
Proof.
  induction r as [|c r IH]; [reflexivity|].
  simpl. intros H. apply andb_true_iff in H as [Hc Hr].
  now rewrite IH, Hc.
Qed.

Lemma rstrip_by_app_r p s r :
  Str.all p r = true -> Str.rstrip_by p (s +:+ r) = Str.rstrip_by p s.
Proof.
  intros Hr. induction s as [|c s IH]; [now apply rstrip_by_all|].
  rewrite StrFacts.app_cons. simpl. now rewrite IH.
Qed.

Lemma rstrip_by_app_l p l s :
  Str.rstrip_by p (l +:+ s) =
    if Str.is_empty (Str.rstrip_by p s) then Str.rstrip_by p l
    else l +:+ Str.rstrip_by p s.
Proof.
  induction l as [|c l IH].
  - rewrite !StrFacts.app_nil_l. now destruct (Str.rstrip_by p s).
  - rewrite StrFacts.app_cons. cbn [Str.rstrip_by]. rewrite IH.
    destruct (Str.rstrip_by p s) as [|e u]; cbn [Str.is_empty]; [reflexivity|].
    assert (H : Str.is_empty (l +:+ String e u) = false) by (destruct l; reflexivity).
    now rewrite H, andb_false_r, StrFacts.app_cons.
Qed.

(** Whitespace around a text does not survive [strip]. *)
Lemma strip_by_padded p l s r :
  Str.all p l = true -> Str.all p r = true ->
  Str.strip_by p (l +:+ s +:+ r) = Str.strip_by p s.
Proof.
  intros Hl Hr. unfold Str.strip_by.
  rewrite <- StrFacts.app_assoc, rstrip_by_app_r by exact Hr.
  rewrite rstrip_by_app_l.
  destruct (Str.rstrip_by p s) as [|c t] eqn:E; simpl.
  - now rewrite rstrip_by_all.
  - now rewrite lstrip_by_app.
Qed.

Lemma lstrip_by_map (f : ascii -> ascii) p s :
  (forall c, p (f c) = p c) ->
  Str.lstrip_by p (Str.map f s) = Str.map f (Str.lstrip_by p s).
Proof.
  intros Hf. induction s as [|c s IH]; [reflexivity|].
  simpl. rewrite Hf. now destruct (p c).
Qed.

Lemma rstrip_by_map (f : ascii -> ascii) p s :
  (forall c, p (f c) = p c) ->
  Str.rstrip_by p (Str.map f s) = Str.map f (Str.rstrip_by p s).
Proof.
  intros Hf. induction s as [|c s IH]; [reflexivity|].
  simpl. rewrite IH, Hf.
  destruct (Str.rstrip_by p s); simpl; now destruct (p c).
Qed.

Lemma strip_by_map (f : ascii -> ascii) p s :
  (forall c, p (f c) = p c) ->
  Str.strip_by p (Str.map f s) = Str.map f (Str.strip_by p s).
Proof.
  intros Hf. unfold Str.strip_by. now rewrite rstrip_by_map, lstrip_by_map.
Qed.

Lemma map_map (f g : ascii -> ascii) s :
  Str.map f (Str.map g s) = Str.map (fun c => f (g c)) s.
Proof. induction s as [|c s IH]; [reflexivity | simpl; now rewrite IH]. Qed.

Lemma map_ext (f g : ascii -> ascii) s :
  (forall c, f c = g c) -> Str.map f s = Str.map g s.
Proof.
  intros H. induction s as [|c s IH]; [reflexivity | simpl; now rewrite H, IH].
Qed.

Lemma space_to_upper c : Char.isspace (Char.to_upper c) = Char.isspace c.
Proof. CharFacts.by_cases c. Qed.

Lemma to_upper_idem c : Char.to_upper (Char.to_upper c) = Char.to_upper c.
Proof. CharFacts.by_cases c. Qed.

Lemma to_upper_lower c : Char.to_upper (Char.to_lower c) = Char.to_upper c.
Proof. CharFacts.by_cases c. Qed.

Lemma space_to_lower c : Char.isspace (Char.to_lower c) = Char.isspace c.
Proof. CharFacts.by_cases c. Qed.

(** A text without the first character of [old] has no occurrence of
    [old] to replace. *)
Lemma replace_from_absent a old new s :
  Str.all (fun c => negb (Char.eqb a c)) s = true ->
  Str.replace_from (String a old) new O s = s.
Proof.
  induction s as [|c s IH]; [reflexivity|].
  simpl. intros H. apply andb_true_iff in H as [Hc Hs].
  apply negb_true_iff, CharFacts.eqb_neq in Hc.
  destruct (ascii_dec a c); [contradiction|]. now rewrite IH.
Qed.

End StrMore.

(** ** More on the identifier parser *)

Module ParserMore.
Import Re Text Patterns Grouping Forms ReFacts GroupingFacts ParserFacts.

(** [-(\d+)$] at one position: a dash, the longest run of digits, the
    end of the text. *)
Lemma match_at_part pos s :
  match_at r_part pos s =
    match s with
    | EmptyString => None
    | String a s' =>
        if Char.eqb a "-" then
          let n := span_len Char.isdigit s' in
          if (1 <=? n)%nat then
            if at_eol (Str.drop n s')
            then Some (mkMatch pos (n + S pos) (Str.take (n + S pos - pos) s)
                         [(1%nat, Str.take n s')])
            else None
          else None
        else None
    end.
Proof.
  unfold match_at, r_part. run_step.
  destruct s as [|a s']; [reflexivity|].
  rewrite run_char. cbn [cclass_matches atom_matches].
  destruct (Char.eqb a "-"); [|reflexivity].
  run_step. fold digit. rewrite rep_greedy; [|idtac|lia].
  - change (cclass_matches digit) with Char.isdigit. cbn zeta.
    destruct (1 <=? span_len Char.isdigit s')%nat; [|reflexivity].
    run_step. destruct (at_eol _); [|reflexivity].
    unfold accept.
    now replace (span_len Char.isdigit s' + S pos - S pos)%nat
      with (span_len Char.isdigit s') by lia.
  - intros pos' x t c Hx. run_step.
    change (cclass_matches digit x) with (Char.isdigit x) in Hx.
    destruct t as [|y t]; [|reflexivity]. cbn [at_eol].
    destruct (Char.eqb x Char.newline) eqn:E; [|reflexivity].
    apply CharFacts.eqb_eq in E. subst x. discriminate Hx.
Qed.

(** Whatever the search for a part finds, its group is a non-empty text
    of digits. *)
Lemma search_part_group s : forall pos m,
  search_from r_part pos s = Some m ->
  exists q, group 1 m = Some q /\ q <> "" /\ Str.all Char.isdigit q = true.
Proof.
  assert (Hat : forall pos t m, match_at r_part pos t = Some m ->
            exists q, group 1 m = Some q /\ q <> "" /\ Str.all Char.isdigit q = true).
  { intros pos t m. rewrite match_at_part.
    destruct t as [|a t']; [discriminate|].
    destruct (Char.eqb a "-"); [|discriminate]. cbn zeta.
    destruct (1 <=? span_len Char.isdigit t')%nat eqn:Hn; [|discriminate].
    destruct (at_eol _); [|discriminate].
    intros [= <-]. eexists. split; [reflexivity|].
    destruct (span_len_take Char.isdigit t') as [Hl Hd]. split; [|exact Hd].
    intros E. rewrite E in Hl. apply Nat.leb_le in Hn. simpl in Hl. lia. }
  induction s as [|a s IH]; intros pos m; cbn [search_from];
    destruct (match_at r_part pos _) as [m'|] eqn:E.
  - intros [= <-]. eapply Hat, E.
  - discriminate.
  - intros [= <-]. eapply Hat, E.
  - apply IH.
Qed.

Lemma extract_part_ok s part rem :
  extract_part s = Ok (part, rem) -> part_ok part.
Proof.
  unfold extract_part, re_search. rewrite compile_part. cbn [rbind].
  destruct (search_from r_part 0 s) as [m|] eqn:E.
  - intros [= <- _]. destruct (search_part_group _ _ _ E) as (q & -> & Hq). exact Hq.
  - intros [= <- _]. exact I.
Qed.

(** The type that is detected is the default or one of the list. *)
Lemma detect_doc_type_in dts d s :
  fst (detect_doc_type dts d s) = d \/ In (fst (detect_doc_type dts d s)) dts.
Proof.
  induction dts as [|dt dts IH]; [now left|].
  cbn [detect_doc_type].
  destruct (Str.startswith ("ETSI " +:+ dt) s); [right; now left|].
  destruct (Str.startswith dt s); [right; now left|].
  destruct IH as [IH | IH]; [now left | right; now right].
Qed.

Lemma normalize_invariant s dt part rem :
  normalize s = Ok (dt, part, rem) -> In dt doc_types /\ part_ok part.
Proof.
  unfold normalize.
  pose proof (detect_doc_type_in doc_types "TS" (Str.upper (Str.strip s))) as Hdt.
  destruct (detect_doc_type doc_types "TS" (Str.upper (Str.strip s))) as [dt' t].
  destruct (extract_part t) as [[part' rem']|e] eqn:E; [|discriminate].
  cbn [rbind]. intros [= <- <- <-]. split.
  - simpl in Hdt. destruct Hdt as [-> | Hdt]; [|exact Hdt].
    unfold doc_types. simpl. tauto.
  - eapply extract_part_ok, E.
Qed.

Lemma grouping_shape s p n :
  grouping s p n -> (is_digits 3 p \/ is_digits 2 p) /\ is_digits 3 n.
Proof. intros [ ]; tauto. Qed.

End ParserMore.

Import Forms ParserMore.



(** X2: the parser does not look at the case of letters or at
    whitespace around the text: an input in upper case, in lower case or
    padded with whitespace parses as the input itself, to the same
    identifier or to the same error. *)
Theorem parse_case_and_padding (s l r : string) :
  Str.all Char.isspace l = true ->
  Str.all Char.isspace r = true ->
  parse_spec_number (l +:+ s +:+ r) = parse_spec_number s /\
  parse_spec_number (Str.upper s) = parse_spec_number s /\
  parse_spec_number (Str.lower s) = parse_spec_number s.
Proof.
  intros Hl Hr.
  assert (Hpad : Str.upper (Str.strip (l +:+ s +:+ r)) = Str.upper (Str.strip s))
    by (unfold Str.strip; now rewrite StrMore.strip_by_padded).
  assert (Hup : Str.upper (Str.strip (Str.upper s)) = Str.upper (Str.strip s)).
  { unfold Str.strip, Str.upper.
    rewrite StrMore.strip_by_map by apply StrMore.space_to_upper.
    rewrite StrMore.map_map. apply StrMore.map_ext, StrMore.to_upper_idem. }
  assert (Hlow : Str.upper (Str.strip (Str.lower s)) = Str.upper (Str.strip s)).
  { unfold Str.strip, Str.upper, Str.lower.
    rewrite StrMore.strip_by_map by apply StrMore.space_to_lower.
    rewrite StrMore.map_map. apply StrMore.map_ext, StrMore.to_upper_lower. }
  unfold parse_spec_number, normalize. now rewrite Hpad, Hup, Hlow.
Qed.

Lemma parse_case_and_padding_witness :
  parse_spec_number "  tr 103 907 " = parse_spec_number "tr 103 907" /\
  parse_spec_number "TR 103 907" = parse_spec_number "tr 103 907" /\
  parse_spec_number "tr 103 907" = parse_spec_number "tr 103 907".
Proof. exact (parse_case_and_padding "tr 103 907" "  " " " eq_refl eq_refl). Defined.

(** ** The written forms of an identifier *)

Module FormFacts.
Import Re Text Patterns Grouping Forms ReFacts GroupingFacts ParserFacts ParserMore.

Lemma span_len_full p s : Str.all p s = true -> span_len p s = String.length s.
Proof.
  induction s as [|a s IH]; [reflexivity|]. simpl.
  intros H. apply andb_true_iff in H as [-> Hs]. now rewrite IH.
Qed.

Lemma drop_all s : Str.drop (String.length s) s = "".
Proof. induction s as [|a s IH]; [reflexivity | exact IH]. Qed.

Lemma last_is_excl (p q : ascii -> bool) s :
  (forall c, p c = true -> q c = false) -> last_is p s = true -> last_is q s = false.
Proof.
  intros Hpq. induction s as [|c s IH]; [discriminate|].
  destruct s as [|d s]; [apply Hpq | exact IH].
Qed.

Lemma body_head body :
  body_ok body -> exists c t, body = String c t /\ Char.isdigit c = true.
Proof.
  intros (_ & Hh & _). destruct body as [|c t]; [discriminate Hh | eauto].
Qed.

Lemma body_not_dash body : body_ok body -> Str.all not_dash body = true.
Proof.
  intros (Hall & _). eapply StrFacts.all_impl; [|exact Hall].
  intros c. CharFacts.by_cases c.
Qed.

(** A body is left alone by [strip]. *)
Lemma strip_body body : body_ok body -> Str.strip body = body.
Proof.
  intros Hb. destruct (body_head body Hb) as (c & t & -> & Hc).
  destruct Hb as (_ & _ & Hlast).
  unfold Str.strip, Str.strip_by.
  rewrite StrFacts.rstrip_by_id
    by (eapply last_is_excl; [apply CharFacts.digit_not_space | exact Hlast]).
  apply StrFacts.lstrip_by_id. now apply CharFacts.digit_not_space.
Qed.

(** The search for a part in a body followed by a dash and digits. *)
Lemma search_part_after body q : forall pos,
  Str.all not_dash body = true -> q <> "" -> Str.all Char.isdigit q = true ->
  exists m,
    search_from r_part pos (body +:+ "-" +:+ q) = Some m /\
    group 1 m = Some q /\ group0 m = "-" +:+ q.
Proof.
  intros pos Hbody Hne Hq. revert pos.
  induction body as [|a body IH]; intros pos.
  - change ("" +:+ "-" +:+ q) with (String "-" q).
    cbn [search_from]. rewrite match_at_part.
    change (Char.eqb "-" "-") with true. cbn zeta iota.
    rewrite (span_len_full _ _ Hq), drop_all.
    assert (Hlen : (1 <=? String.length q)%nat = true)
      by (destruct q; [congruence | reflexivity]).
    rewrite Hlen. cbn [at_eol].
    eexists. split; [reflexivity|]. unfold group. cbn [m_groups lookup_group Nat.eqb group0].
    split.
    + now rewrite StrFacts.take_all.
    + replace (String.length q + S pos - pos)%nat
        with (String.length (String "-" q)) by (simpl; lia).
      now rewrite StrFacts.take_all.
  - simpl in Hbody. apply andb_true_iff in Hbody as [Ha Hbody].
    rewrite StrFacts.app_cons. cbn [search_from]. rewrite match_at_part.
    unfold not_dash in Ha. apply negb_true_iff in Ha. rewrite Ha.
    apply IH, Hbody.
Qed.

(** The part is taken off a body and its suffix. *)
Lemma extract_part_form body part :
  body_ok body -> part_ok part ->
  extract_part (body +:+ part_suffix part) = Ok (part, body).
Proof.
  intros Hb Hp. destruct part as [q|]; cbn [part_suffix].
  - destruct Hp as [Hne Hq].
    destruct (search_part_after body q 0 (body_not_dash _ Hb) Hne Hq)
      as (m & Hm & Hg & Hg0).
    unfold extract_part, re_search. rewrite compile_part. cbn [rbind].
    rewrite Hm, Hg, Hg0. unfold Str.slice_drop_last.
    rewrite !StrFacts.length_app.
    replace (String.length body + (String.length "-" + String.length q)
               - (String.length "-" + String.length q))%nat
      with (String.length body) by lia.
    now rewrite StrFacts.take_app, (strip_body _ Hb).
  - rewrite StrFacts.app_nil_r. now apply extract_part_no_dash, body_not_dash.
Qed.

Lemma tail_chars body part :
  body_ok body -> part_ok part ->
  Str.all tail_ok (body +:+ part_suffix part) = true.
Proof.
  intros (Hall & _) Hp. rewrite StrFacts.all_app. apply andb_true_iff. split.
  - eapply StrFacts.all_impl; [|exact Hall]. intros c. CharFacts.by_cases c.
  - destruct part as [q|]; [|reflexivity]. destruct Hp as [_ Hq].
    cbn [part_suffix]. change ("-" +:+ q) with (String "-" q).
    simpl. eapply StrFacts.all_impl; [|exact Hq]. intros c. CharFacts.by_cases c.
Qed.

Lemma tail_last body part :
  body_ok body -> part_ok part ->
  last_is Char.isspace (body +:+ part_suffix part) = false.
Proof.
  intros Hb Hp. destruct part as [q|]; cbn [part_suffix].
  - destruct Hp as [Hne Hq]. rewrite StrMore.last_is_app by discriminate.
    change ("-" +:+ q) with ("-" +:+ q). rewrite StrMore.last_is_app by exact Hne.
    eapply StrFacts.last_is_all; [|exact Hq]. apply CharFacts.digit_not_space.
  - rewrite StrFacts.app_nil_r. destruct Hb as (_ & _ & Hlast).
    eapply last_is_excl; [apply CharFacts.digit_not_space | exact Hlast].
Qed.

Lemma tail_head body part :
  body_ok body ->
  exists c t, body +:+ part_suffix part = String c t /\ Char.isdigit c = true.
Proof.
  intros Hb. destruct (body_head body Hb) as (c & t & -> & Hc).
  exists c, (t +:+ part_suffix part). now rewrite StrFacts.app_cons.
Qed.

Lemma map_app f a b : Str.map f (a +:+ b) = Str.map f a +:+ Str.map f b.
Proof.
  induction a as [|c a IH]; [reflexivity|].
  rewrite StrFacts.app_cons. simpl. now rewrite IH, StrFacts.app_cons.
Qed.

Lemma upper_app a b : Str.upper (a +:+ b) = Str.upper a +:+ Str.upper b.
Proof. apply map_app. Qed.

Lemma upper_tail t : Str.all tail_ok t = true -> Str.upper t = t.
Proof.
  apply (StrFacts.map_id_on Char.to_upper tail_ok). intros c. CharFacts.by_cases c.
Qed.

Lemma no_E_tail t :
  Str.all tail_ok t = true ->
  Str.all (fun c => negb (Char.eqb "E" c)) t = true.
Proof. apply StrFacts.all_impl. intros c. CharFacts.by_cases c. Qed.

(** A space and a tail, stripped, is the tail. *)
Lemma strip_space_tail t :
  (exists c t', t = String c t' /\ Char.isdigit c = true) ->
  last_is Char.isspace t = false ->
  Str.strip (String " " t) = t.
Proof.
  intros (c & t' & -> & Hc) Hlast. unfold Str.strip, Str.strip_by.
  rewrite StrFacts.rstrip_by_id by exact Hlast.
  cbn [Str.lstrip_by]. change (Char.isspace " ") with true. cbn iota.
  now rewrite (CharFacts.digit_not_space c Hc).
Qed.

(** A written form starts with a letter and ends with a digit: [strip]
    and [upper] leave it alone. *)
Lemma strip_upper_form (lead : ascii) (head t : string) :
  Char.isspace lead = false ->
  Str.upper (String lead head) = String lead head ->
  Str.all tail_ok t = true -> t <> "" -> last_is Char.isspace t = false ->
  Str.upper (Str.strip (String lead head +:+ t)) = String lead head +:+ t.
Proof.
  intros Hlead Hup Ht Hne Hlast. unfold Str.strip, Str.strip_by.
  rewrite StrFacts.rstrip_by_id by (now rewrite StrMore.last_is_app).
  rewrite StrFacts.app_cons, StrFacts.lstrip_by_id by exact Hlead.
  rewrite <- StrFacts.app_cons.
  now rewrite upper_app, Hup, (upper_tail t Ht).
Qed.

(** The type is detected in the two written forms. *)
Lemma detect_bare dt t :
  In dt doc_types ->
  detect_doc_type doc_types "TS" (dt +:+ " " +:+ t) = (dt, Str.strip (String " " t)).
Proof.
  unfold doc_types. simpl.
  intros [<-|[<-|[<-|[<-|[<-|[<-|[<-|[<-|[<-|[]]]]]]]]]]; reflexivity.
Qed.

Lemma detect_etsi dt t :
  In dt doc_types ->
  detect_doc_type doc_types "TS" ("ETSI " +:+ dt +:+ " " +:+ t) =
    (dt, Str.strip (String " " (Str.replace_from ("ETSI " +:+ dt) "" O t))).
Proof.
  unfold doc_types. simpl.
  intros [<-|[<-|[<-|[<-|[<-|[<-|[<-|[<-|[<-|[]]]]]]]]]]; reflexivity.
Qed.

Lemma upper_doc_type dt : In dt doc_types -> Str.upper dt = dt.
Proof.
  unfold doc_types. simpl.
  intros [<-|[<-|[<-|[<-|[<-|[<-|[<-|[<-|[<-|[]]]]]]]]]]; reflexivity.
Qed.

Lemma doc_type_head dt :
  In dt doc_types -> exists c t, dt = String c t /\ Char.isspace c = false.
Proof.
  unfold doc_types. simpl.
  intros [<-|[<-|[<-|[<-|[<-|[<-|[<-|[<-|[<-|[]]]]]]]]]]; do 2 eexists; split; reflexivity.
Qed.

(** Normalisation of the two written forms: the type, the part, the
    body. *)
Lemma normalize_forms dt body part :
  In dt doc_types -> body_ok body -> part_ok part ->
  normalize (dt +:+ " " +:+ body +:+ part_suffix part) = Ok (dt, part, body) /\
  normalize ("ETSI " +:+ dt +:+ " " +:+ body +:+ part_suffix part) =
    Ok (dt, part, body).
Proof.
  intros Hdt Hb Hp.
  set (t := body +:+ part_suffix part).
  pose proof (tail_chars body part Hb Hp) as Hchars.
  pose proof (tail_last body part Hb Hp) as Hlast.
  pose proof (tail_head body part Hb) as Hhead.
  pose proof (extract_part_form body part Hb Hp) as Hpart.
  fold t in Hchars, Hlast, Hhead, Hpart.
  assert (Hne : t <> "") by (destruct Hhead as (c & t' & -> & _); discriminate).
  destruct (doc_type_head dt Hdt) as (c & d & Edt & Hc).
  pose proof (upper_doc_type dt Hdt) as Hup.
  split; unfold normalize.
  - replace (dt +:+ " " +:+ t) with (String c (d +:+ " ") +:+ t)
      by (rewrite Edt, !StrFacts.app_cons, StrFacts.app_assoc; reflexivity).
    rewrite strip_upper_form; try assumption.
    + replace (String c (d +:+ " ") +:+ t) with (dt +:+ " " +:+ t)
        by (rewrite Edt, !StrFacts.app_cons, StrFacts.app_assoc; reflexivity).
      rewrite detect_bare by exact Hdt.
      rewrite strip_space_tail by assumption.
      now rewrite Hpart.
    + rewrite <- StrFacts.app_cons, <- Edt.
      now rewrite upper_app, Hup.
  - assert (E2 : "ETSI " +:+ dt +:+ " " +:+ t =
                 String "E" ("TSI " +:+ dt +:+ " ") +:+ t).
    { change (String "E" ("TSI " +:+ dt +:+ " ")) with ("ETSI " +:+ dt +:+ " ").
      now rewrite !StrFacts.app_assoc. }
    rewrite E2, strip_upper_form; try assumption; try reflexivity.
    + rewrite <- E2, detect_etsi by exact Hdt.
      change ("ETSI " +:+ dt) with (String "E" ("TSI " +:+ dt)).
      rewrite StrMore.replace_from_absent by (now apply no_E_tail).
      rewrite strip_space_tail by assumption.
      now rewrite Hpart.
    + change (String "E" ("TSI " +:+ dt +:+ " ")) with ("ETSI " +:+ (dt +:+ " ")).
      rewrite !upper_app, Hup. reflexivity.
Qed.

End FormFacts.

Import Text FormFacts.

(** X3: the typed forms of an identifier.  For each of the nine document
    types, the text "TYPE digits" and the text "ETSI TYPE digits", with
    or without a "-part" suffix, parse to that type, to the groups of the
    digits and to that part. *)
Theorem parse_typed_forms (dt body p n : string) (part : option string) :
  In dt doc_types -> body_ok body -> part_ok part -> grouping body p n ->
  parse_spec_number (dt +:+ " " +:+ body +:+ part_suffix part) =
    Ok (mkSpecInfo dt p n part) /\
  parse_spec_number ("ETSI " +:+ dt +:+ " " +:+ body +:+ part_suffix part) =
    Ok (mkSpecInfo dt p n part).
Proof.
  intros Hdt Hb Hp Hg.
  destruct (normalize_forms dt body part Hdt Hb Hp) as [H1 H2].
  unfold parse_spec_number. rewrite H1, H2. cbn [rbind].
  split; now apply match_digit_groups_ok.
Qed.

Lemma parse_typed_forms_witness :
  parse_spec_number "ES 200 381-1" = Ok (mkSpecInfo "ES" "200" "381" (Some "1")) /\
  parse_spec_number "ETSI ES 200 381-1" = Ok (mkSpecInfo "ES" "200" "381" (Some "1")).
Proof.
  refine (parse_typed_forms "ES" "200 381" "200" "381" (Some "1") _ _ _ _).
  - simpl. tauto.
  - repeat split.
  - split; [discriminate | reflexivity].
  - apply (spaced_3_3 "200" " " "381" ""); split; solve [reflexivity | discriminate].
Defined.

(** X4: what [main] shows for an identifier with a three-digit prefix,
    "ETSI", the type and the number with its part, is parsed back to the
    same identifier. *)
Theorem parse_shown_identifier (spec_info : SpecInfo) :
  In (doc_type spec_info) doc_types ->
  is_digits 3 (prefix spec_info) ->
  is_digits 3 (number spec_info) ->
  part_ok (part spec_info) ->
  parse_spec_number (shown spec_info) = Ok spec_info.
Proof.
  destruct spec_info as [dt p n pt]. cbn [doc_type prefix number part].
  intros Hdt Hp Hn Hpt.
  assert (Hfull : full_spec_of (mkSpecInfo dt p n pt) = (p +:+ n) +:+ part_suffix pt).
  { unfold full_spec_of. cbn [part prefix number].
    destruct pt as [q|]; cbn [truthy part_suffix default].
    - destruct Hpt as [Hne _]. destruct q; [congruence|].
      cbn [Str.is_empty negb]. now rewrite StrFacts.app_assoc.
    - now rewrite StrFacts.app_nil_r. }
  unfold shown. cbn [doc_type]. rewrite Hfull.
  assert (Hb : body_ok (p +:+ n)).
  { destruct (is_digits_3 p Hp) as (c1 & c2 & c3 & -> & H1 & H2 & H3).
    destruct (is_digits_3 n Hn) as (d1 & d2 & d3 & -> & H4 & H5 & H6).
    unfold body_ok, digit_or_space. simpl. now rewrite H1, H2, H3, H4, H5, H6. }
  destruct (normalize_forms dt (p +:+ n) pt Hdt Hb Hpt) as [_ Hnorm].
  unfold parse_spec_number. rewrite Hnorm. cbn [rbind].
  apply match_digit_groups_ok.
  rewrite <- (StrFacts.app_nil_r n) at 1. now apply joined_6.
Qed.

Lemma parse_shown_identifier_witness :
  parse_spec_number "ETSI EG 202396-3" = Ok (mkSpecInfo "EG" "202" "396" (Some "3")).
Proof.
  refine (parse_shown_identifier (mkSpecInfo "EG" "202" "396" (Some "3")) _ _ _ _).
  - simpl. tauto.
  - split; reflexivity.
  - split; reflexivity.
  - split; [discriminate | reflexivity].
Defined.

(** X5: with a two-digit prefix the shown form is not parsed back: five
    digits in a row are none of the three groupings, and the parser
    raises the error of an invalid identifier. *)
Theorem parse_shown_two_digit_prefix (spec_info : SpecInfo) :
  In (doc_type spec_info) doc_types ->
  is_digits 2 (prefix spec_info) ->
  is_digits 3 (number spec_info) ->
  part_ok (part spec_info) ->
  parse_spec_number (shown spec_info) =
    Raise (ValueError ("Invalid ETSI specification number: "
                         +:+ prefix spec_info +:+ number spec_info)).
Proof.
  destruct spec_info as [dt p n pt]. cbn [doc_type prefix number part].
  intros Hdt Hp Hn Hpt.
  assert (Hfull : full_spec_of (mkSpecInfo dt p n pt) = (p +:+ n) +:+ part_suffix pt).
  { unfold full_spec_of. cbn [part prefix number].
    destruct pt as [q|]; cbn [truthy part_suffix default].
    - destruct Hpt as [Hne _]. destruct q; [congruence|].
      cbn [Str.is_empty negb]. now rewrite StrFacts.app_assoc.
    - now rewrite StrFacts.app_nil_r. }
  destruct (is_digits_2 p Hp) as (c1 & c2 & -> & H1 & H2).
  destruct (is_digits_3 n Hn) as (d1 & d2 & d3 & -> & H4 & H5 & H6).
  assert (Hb : body_ok ("" +:+ String c1 (String c2 "") +:+ String d1 (String d2 (String d3 "")))).
  { unfold body_ok, digit_or_space. simpl. now rewrite H1, H2, H4, H5, H6. }
  unfold shown. cbn [doc_type]. rewrite Hfull.
  destruct (normalize_forms dt _ pt Hdt Hb Hpt) as [_ Hnorm].
  unfold parse_spec_number.
  change ("" +:+ String c1 (String c2 "") +:+ String d1 (String d2 (String d3 "")))
    with (String c1 (String c2 "") +:+ String d1 (String d2 (String d3 ""))) in Hnorm.
  rewrite Hnorm. cbn [rbind]. rewrite match_digit_groups_eq.
  change (String c1 (String c2 "") +:+ String d1 (String d2 (String d3 "")))
    with (String c1 (String c2 (String d1 (String d2 (String d3 ""))))).
  unfold digit_groups, split_spaced, split_joined, starts_with_n.
  cbn [Str.take Str.drop Str.all String.length Nat.eqb span_len].
  rewrite H1, H2, H4, (CharFacts.digit_not_space d1 H4), (CharFacts.digit_not_space d2 H5).
  reflexivity.
Qed.

Lemma parse_shown_two_digit_prefix_witness :
  parse_spec_number "ETSI TS 01001" =
    Raise (ValueError "Invalid ETSI specification number: 01001").
Proof.
  refine (parse_shown_two_digit_prefix (mkSpecInfo "TS" "01" "001" None) _ _ _ _).
  - simpl. tauto.
  - split; reflexivity.
  - split; reflexivity.
  - exact I.
Defined.

(** ** More on the directory resolver *)

Module ResolverMore.
Import Digits Grouping Links GroupingFacts ParserFacts ResolverFacts.

Lemma startswith_app a b : Str.startswith a (a +:+ b) = true.
Proof.
  unfold Str.startswith. induction a as [|c a IH]; [now destruct b|].
  rewrite StrFacts.app_cons. simpl. destruct (ascii_dec c c); [exact IH | congruence].
Qed.

Lemma fallback_url_base spec_info range_suffix :
  fallback_url spec_info range_suffix =
    base_url_of spec_info +:+ prefix spec_info +:+ range_suffix +:+ "/"
      +:+ full_spec_of spec_info +:+ "/".
Proof. unfold fallback_url, base_url_of. now rewrite !StrFacts.app_assoc. Qed.

(** The loop over the links stops at the first one that passes the
    test. *)
Lemma scan_links_first base_url full_spec before href after :
  Forall (fun link => link_matches full_spec link = false) before ->
  link_matches full_spec (Some href) = true ->
  scan_links base_url full_spec (before ++ Some href :: after) =
    Some (base_url +:+ Str.rstrip_chars "/" href).
Proof.
  intros Hbefore Hhref. induction Hbefore as [|link before Hlink _ IH].
  - simpl. unfold link_matches in Hhref. simpl in Hhref. now rewrite Hhref.
  - cbn [app scan_links]. unfold link_matches in Hlink. now rewrite Hlink.
Qed.

Lemma scan_links_base base_url full_spec links url :
  scan_links base_url full_spec links = Some url ->
  Str.startswith base_url url = true.
Proof.
  induction links as [|link links IH]; [discriminate|].
  cbn [scan_links]. destruct (_ && _); [|exact IH].
  intros [= <-]. apply startswith_app.
Qed.

Section Resolve.
Variable respond : list Request -> Request -> result Response.
Variable find_all_a : string -> result (list (option string)).

Lemma primary_lookup_page spec_info log response links :
  respond log (mkRequest GET (base_url_of spec_info) 30) = Ok response ->
  status_code response = 200 ->
  find_all_a (text response) = Ok links ->
  primary_lookup respond find_all_a spec_info log =
    (Ok (scan_links (base_url_of spec_info) (full_spec_of spec_info) links),
     (log ++ [mkRequest GET (base_url_of spec_info) 30])%list).
Proof.
  intros Hr Hst Hl. unfold primary_lookup, bind, requests_get, request, lift, ret.
  now rewrite Hr, Hst, Hl.
Qed.

Lemma primary_lookup_base spec_info log url log' :
  primary_lookup respond find_all_a spec_info log = (Ok (Some url), log') ->
  Str.startswith (base_url_of spec_info) url = true.
Proof.
  unfold primary_lookup, bind, requests_get, request, lift, ret.
  destruct (respond log _) as [response|e]; [|discriminate].
  destruct (status_code response =? 200); [|discriminate].
  destruct (find_all_a (text response)) as [links|e]; [|discriminate].
  intros [= H _]. eapply scan_links_base, H.
Qed.
End Resolve.

End ResolverMore.

Import Links ResolverMore.

(** The two bounds of a label are read off it and compared. *)
Ltac read_label :=
  do 4 eexists; split; [reflexivity|];
  split; [vm_compute; reflexivity|]; split; [vm_compute; reflexivity|]; lia.

(** X6: the table of the fallback.  For a number from 0 to 999 the label
    is written "low_high" with low <= number <= high and high = low + 99;
    from 1000 on the label is the last one, "900_999". *)
Theorem range_suffix_brackets (n : Z) :
  (0 <= n < 1000 ->
   exists lo hi l h,
     Str.split "_" (range_suffix_of n) = [lo; hi] /\
     Int.int lo = Ok l /\ Int.int hi = Ok h /\
     l <= n <= h /\ h = l + 99) /\
  (1000 <= n -> range_suffix_of n = "900_999").
Proof.
  split.
  - intros Hn. unfold range_suffix_of.
    destruct (Z.ltb_spec n 100); [read_label|].
    destruct (Z.ltb_spec n 200); [read_label|].
    destruct (Z.ltb_spec n 300); [read_label|].
    destruct (Z.ltb_spec n 400); [read_label|].
    destruct (Z.ltb_spec n 500); [read_label|].
    destruct (Z.ltb_spec n 600); [read_label|].
    destruct (Z.ltb_spec n 700); [read_label|].
    destruct (Z.ltb_spec n 800); [read_label|].
    destruct (Z.ltb_spec n 900); read_label.
  - intros Hn. apply range_suffix_top. lia.
Qed.

Lemma range_suffix_brackets_witness :
  (exists lo hi l h,
     Str.split "_" (range_suffix_of 224) = [lo; hi] /\
     Int.int lo = Ok l /\ Int.int hi = Ok h /\
     l <= 224 <= h /\ h = l + 99) /\
  range_suffix_of 103224 = "900_999".
Proof.
  split.
  - apply (proj1 (range_suffix_brackets 224)). lia.
  - apply (proj2 (range_suffix_brackets 103224)). lia.
Defined.

(** X7: the fallback with a three-digit prefix.  When the primary lookup
    raises or finds no link, an identifier whose prefix is three digits
    other than "000" is sent to the directory labelled "900_999",
    whatever its number. *)
Theorem fallback_three_digit_prefix
  (respond : list Request -> Request -> result Response)
  (find_all_a : string -> result (list (option string)))
  (spec_info : SpecInfo) (log log' : list Request) :
  is_digits 3 (prefix spec_info) ->
  is_digits 3 (number spec_info) ->
  prefix spec_info <> "000" ->
  (exists e, primary_lookup respond find_all_a spec_info log = (Raise e, log')) \/
  primary_lookup respond find_all_a spec_info log = (Ok None, log') ->
  get_spec_directory_url respond find_all_a spec_info log =
    (Ok (base_url_of spec_info +:+ prefix spec_info +:+ "900_999/"
           +:+ full_spec_of spec_info +:+ "/"), log').
Proof.
  intros Hp Hn Hne Hprimary.
  destruct (fallback_label_top spec_info Hp Hn Hne) as (k & Hk & Hlabel).
  rewrite resolve_cases, Hk. cbn [rbind]. rewrite Hlabel, fallback_url_base.
  destruct Hprimary as [[e ->] | ->]; reflexivity.
Qed.

Lemma fallback_three_digit_prefix_witness :
  get_spec_directory_url (fun _ _ => Ok (mkResponse 200 "" "")) (fun _ => Ok [])
      (mkSpecInfo "TR" "103" "907" None) [] =
    (Ok "https://www.etsi.org/deliver/etsi_tr/103900_999/103907/",
     [mkRequest GET "https://www.etsi.org/deliver/etsi_tr/" 30]).
Proof.
  refine (fallback_three_digit_prefix (fun _ _ => Ok (mkResponse 200 "" ""))
            (fun _ => Ok []) (mkSpecInfo "TR" "103" "907" None) [] _ _ _ _ _).
  - split; reflexivity.
  - split; reflexivity.
  - discriminate.
  - right. reflexivity.
Defined.

(** X8: the primary lookup.  When the listing of the document type is
    answered with status 200, the first anchor whose [href] contains the
    spec number and "dir" decides: the directory is the listing URL
    followed by that [href] without its trailing slashes, and the later
    anchors are not looked at. *)
Theorem resolve_first_matching_link
  (respond : list Request -> Request -> result Response)
  (find_all_a : string -> result (list (option string)))
  (spec_info : SpecInfo) (log : list Request)
  (response : Response) (before after : list (option string)) (href : string) :
  let rq := mkRequest GET (base_url_of spec_info) 30 in
  respond log rq = Ok response ->
  status_code response = 200 ->
  find_all_a (text response) = Ok (before ++ Some href :: after)%list ->
  Forall (fun link => link_matches (full_spec_of spec_info) link = false) before ->
  link_matches (full_spec_of spec_info) (Some href) = true ->
  get_spec_directory_url respond find_all_a spec_info log =
    (Ok (base_url_of spec_info +:+ Str.rstrip_chars "/" href), (log ++ [rq])%list).
Proof.
  cbv zeta. intros Hr Hst Hlinks Hbefore Hhref.
  rewrite resolve_cases.
  rewrite (primary_lookup_page respond find_all_a spec_info log response _ Hr Hst Hlinks).
  now rewrite (scan_links_first _ _ before href after Hbefore Hhref).
Qed.

Lemma resolve_first_matching_link_witness :
  get_spec_directory_url (fun _ _ => Ok (mkResponse 200 "<html>" ""))
      (fun _ => Ok [None; Some "../"; Some "dir_202396-3/"; Some "dir_202396-3_old/"])
      (mkSpecInfo "EG" "202" "396" (Some "3")) [] =
    (Ok "https://www.etsi.org/deliver/etsi_eg/dir_202396-3",
     [mkRequest GET "https://www.etsi.org/deliver/etsi_eg/" 30]).
Proof.
  refine (resolve_first_matching_link (fun _ _ => Ok (mkResponse 200 "<html>" ""))
            (fun _ => Ok [None; Some "../"; Some "dir_202396-3/"; Some "dir_202396-3_old/"])
            (mkSpecInfo "EG" "202" "396" (Some "3")) [] (mkResponse 200 "<html>" "")
            [None; Some "../"] [Some "dir_202396-3_old/"] "dir_202396-3/"
            eq_refl eq_refl eq_refl _ eq_refl).
  repeat constructor.
Defined.

(** X9: whatever the resolver returns, from a link of the listing or
    from the fallback, is a URL under the listing of the document type:
    it starts with the URL of that listing. *)
Theorem resolve_under_listing
  (respond : list Request -> Request -> result Response)
  (find_all_a : string -> result (list (option string)))
  (spec_info : SpecInfo) (log log' : list Request) (url : string) :
  get_spec_directory_url respond find_all_a spec_info log = (Ok url, log') ->
  Str.startswith (base_url_of spec_info) url = true.
Proof.
  rewrite resolve_cases.
  destruct (primary_lookup respond find_all_a spec_info log) as [[[u|]|e] log1] eqn:E.
  - intros [= <- _]. eapply primary_lookup_base, E.
  - destruct (dir_spec_num_of spec_info); [|discriminate].
    cbn [rbind]. intros [= <- _]. rewrite fallback_url_base. apply startswith_app.
  - destruct (dir_spec_num_of spec_info); [|discriminate].
    cbn [rbind]. intros [= <- _]. rewrite fallback_url_base. apply startswith_app.
Qed.

Lemma resolve_under_listing_witness :
  Str.startswith "https://www.etsi.org/deliver/etsi_ts/"
    "https://www.etsi.org/deliver/etsi_ts/103900_999/103224/" = true.
Proof.
  exact (resolve_under_listing (fun _ _ => Raise (Timeout "timed out")) (fun _ => Ok [])
           (mkSpecInfo "TS" "103" "224" None) []
           [mkRequest GET "https://www.etsi.org/deliver/etsi_ts/" 30]
           "https://www.etsi.org/deliver/etsi_ts/103900_999/103224/" eq_refl).
Defined.

(** ** More on the version enumerator *)

(** X10: the version enumerator never returns a version.  Whenever it
    returns, after its one request, the list is empty: a 404 answer or a
    listing without anchors. *)
Theorem enumerate_returns_nothing
  (respond : list Request -> Request -> result Response)
  (find_all_a : string -> result (list (option string)))
  (url : string) (spec_info : SpecInfo) (log log' : list Request)
  (version_dirs : list VersionEntry) :
  get_version_directories respond find_all_a url spec_info log =
    (Ok version_dirs, log') ->
  version_dirs = [] /\ log' = (log ++ [mkRequest GET url 30])%list.
Proof.
  unfold get_version_directories, bind, requests_get, request, lift, ret.
  destruct (respond log _) as [response|e]; [|discriminate].
  destruct (status_code response =? 404); [now intros [= <- <-]|].
  destruct (raise_for_status response); [|discriminate].
  destruct (find_all_a (text response)) as [[|link links]|e]; try discriminate.
  simpl. now intros [= <- <-].
Qed.

Lemma enumerate_returns_nothing_witness :
  ([] : list VersionEntry) = [] /\
  [mkRequest GET "https://www.etsi.org/deliver/etsi_ts/103900_999/103224/" 30] =
    ([] ++ [mkRequest GET "https://www.etsi.org/deliver/etsi_ts/103900_999/103224/" 30])%list.
Proof.
  exact (enumerate_returns_nothing (fun _ _ => Ok (mkResponse 200 "<html></html>" ""))
           (fun _ => Ok []) "https://www.etsi.org/deliver/etsi_ts/103900_999/103224/"
           (mkSpecInfo "TS" "103" "224" None) [] _ [] eq_refl).
Defined.

(** ** More on the artifact locator *)

Module LocatorMore.
Import Links Probes LocatorFacts.

Lemma rstrip_slashes d slashes :
  Str.all is_slash slashes = true ->
  Str.rstrip_chars "/" (d +:+ slashes) = Str.rstrip_chars "/" d.
Proof.
  intros H. unfold Str.rstrip_chars. apply StrMore.rstrip_by_app_r.
  eapply StrFacts.all_impl; [|exact H].
  intros c Hc. unfold is_slash in Hc. simpl. now rewrite Hc.
Qed.

Section Locate.
Variable respond : list Request -> Request -> result Response.

(** One turn of the loop over the candidates. *)
Lemma probe_step version_url name names log :
  probe_filenames respond version_url (name :: names) log =
    match respond log (probe_of version_url name) with
    | Ok response =>
        if status_code response =? 200
        then (Ok (version_url +:+ name), (log ++ [probe_of version_url name])%list)
        else probe_filenames respond version_url names
               (log ++ [probe_of version_url name])%list
    | Raise e => (Raise e, (log ++ [probe_of version_url name])%list)
    end.
Proof.
  cbn [probe_filenames]. unfold bind, requests_head, request.
  fold (probe_of version_url name).
  destruct (respond log (probe_of version_url name)) as [response|e]; [|reflexivity].
  now destruct (status_code response =? 200).
Qed.

(** The probes of a search are the first ones of the list, at least one
    of them; a URL that is returned is that of the last probe, which was
    answered with status 200. *)
Lemma probe_filenames_log version_url names : forall log,
  names <> [] ->
  exists k,
    (1 <= k <= List.length names)%nat /\
    snd (probe_filenames respond version_url names log) =
      (log ++ firstn k (List.map (probe_of version_url) names))%list /\
    forall url,
      fst (probe_filenames respond version_url names log) = Ok url ->
      exists response,
        respond (log ++ firstn (k - 1) (List.map (probe_of version_url) names))%list
          (mkRequest HEAD url 10) = Ok response /\
        status_code response = 200 /\
        firstn k (List.map (probe_of version_url) names) =
          (firstn (k - 1) (List.map (probe_of version_url) names)
             ++ [mkRequest HEAD url 10])%list.
Proof.
  induction names as [|name names IH]; intros log Hne; [congruence|].
  rewrite probe_step.
  destruct (respond log (probe_of version_url name)) as [response|e] eqn:Hr.
  - destruct (status_code response =? 200) eqn:Hst.
    + exists 1%nat. split; [simpl; lia|]. split; [reflexivity|].
      intros url Hurl. cbv [fst] in Hurl. injection Hurl as <-. exists response.
      change (firstn (1 - 1) (List.map (probe_of version_url) (name :: names)))
        with (@nil Request).
      rewrite app_nil_r.
      split; [exact Hr|]. split; [now apply Z.eqb_eq | reflexivity].
    + destruct names as [|name' names'].
      * exists 1%nat. split; [simpl; lia|]. split; [reflexivity|]. discriminate.
      * destruct (IH (log ++ [probe_of version_url name])%list) as (k & Hk & Hlog & Hurl);
          [discriminate|].
        exists (S k). split; [simpl in *; lia|].
        split.
        -- rewrite Hlog. change (firstn (S k) (List.map (probe_of version_url) (name :: name' :: names')))
             with (probe_of version_url name
                     :: firstn k (List.map (probe_of version_url) (name' :: names'))).
           now rewrite <- app_assoc.
        -- intros url Hok. destruct (Hurl url Hok) as (r & Hr' & Hst' & Hfirst).
           exists r. replace (S k - 1)%nat with (S (k - 1)) by lia.
           change (firstn (S (k - 1)) (List.map (probe_of version_url) (name :: name' :: names')))
             with (probe_of version_url name
                     :: firstn (k - 1) (List.map (probe_of version_url) (name' :: names'))).
           change (firstn (S k) (List.map (probe_of version_url) (name :: name' :: names')))
             with (probe_of version_url name
                     :: firstn k (List.map (probe_of version_url) (name' :: names'))).
           rewrite <- app_assoc in Hr'.
           split; [exact Hr'|]. split; [exact Hst'|].
           now rewrite Hfirst.
  - exists 1%nat. split; [simpl; lia|]. split; [reflexivity|]. discriminate.
Qed.
End Locate.

End LocatorMore.

Import LocatorMore.

(** X11: trailing slashes of the directory URL do not matter to the
    locator: with any number of them it probes the same URLs and gives
    the same result.  The resolver's two kinds of URL, with a trailing
    slash from the fallback and without from a link, are treated
    alike. *)
Theorem locate_trailing_slashes
  (respond : list Request -> Request -> result Response)
  (directory_url slashes version_dir : string) (spec_info : SpecInfo)
  (log : list Request) :
  Str.all is_slash slashes = true ->
  get_pdf_url respond (directory_url +:+ slashes) version_dir spec_info log =
    get_pdf_url respond directory_url version_dir spec_info log.
Proof.
  intros H. unfold get_pdf_url, version_url_of. now rewrite rstrip_slashes.
Qed.

Lemma locate_trailing_slashes_witness :
  get_pdf_url (fun _ _ => Ok (mkResponse 200 "" "")) "https://host/103224//"
      "01.07.01_60" (mkSpecInfo "TS" "103" "224" None) [] =
    get_pdf_url (fun _ _ => Ok (mkResponse 200 "" "")) "https://host/103224"
      "01.07.01_60" (mkSpecInfo "TS" "103" "224" None) [].
Proof.
  exact (locate_trailing_slashes (fun _ _ => Ok (mkResponse 200 "" ""))
           "https://host/103224" "//" "01.07.01_60"
           (mkSpecInfo "TS" "103" "224" None) [] eq_refl).
Defined.

(** X12: an exception of a probe ends the search: it is propagated as it
    is, and the candidates after it are not probed. *)
Theorem locate_probe_exception
  (respond : list Request -> Request -> result Response)
  (directory_url version_dir : string) (spec_info : SpecInfo)
  (log : list Request) (before after : list string) (name : string) (e : exn) :
  let version_url := version_url_of directory_url version_dir in
  let probes := List.map (probe_of version_url) in
  possible_filenames spec_info version_dir = (before ++ name :: after)%list ->
  refused respond log (probes before) ->
  respond (log ++ probes before)%list (probe_of version_url name) = Raise e ->
  get_pdf_url respond directory_url version_dir spec_info log =
    (Raise e, (log ++ probes before ++ [probe_of version_url name])%list).
Proof.
  cbv zeta. intros Hc Href Hr. unfold get_pdf_url.
  rewrite Hc, probe_refused by exact Href.
  rewrite (probe_raises respond _ name after _ e Hr). now rewrite <- app_assoc.
Qed.

Lemma locate_probe_exception_witness :
  let respond := fun (log : list Request) (_ : Request) =>
    match log with
    | [] => Ok (mkResponse 404 "" "")
    | _ => Raise (Timeout "timed out")
    end in
  get_pdf_url respond "https://host/103224/" "01.07.01_60"
      (mkSpecInfo "TS" "103" "224" None) [] =
    (Raise (Timeout "timed out"),
     [mkRequest HEAD "https://host/103224/01.07.01_60/ts_103224v010701p.pdf" 10;
      mkRequest HEAD "https://host/103224/01.07.01_60/ts_103224v010701.pdf" 10]).
Proof.
  cbv zeta.
  refine (locate_probe_exception _ "https://host/103224/" "01.07.01_60"
            (mkSpecInfo "TS" "103" "224" None) []
            ["ts_103224v010701p.pdf"] ["103224v010701.pdf"; "103224v010701p.pdf"]
            "ts_103224v010701.pdf" (Timeout "timed out") eq_refl _ eq_refl).
  simpl. split; [|exact I]. eexists. split; [reflexivity | discriminate].
Defined.

(** X13: what the locator asks of the network.  It makes between one and
    four requests, the probes of its candidates in their order, and
    nothing else; a URL it returns is the URL of its last probe, and that
    probe was answered with status 200. *)
Theorem locate_requests
  (respond : list Request -> Request -> result Response)
  (directory_url version_dir : string) (spec_info : SpecInfo)
  (log : list Request) :
  let version_url := version_url_of directory_url version_dir in
  let probes :=
    List.map (probe_of version_url) (possible_filenames spec_info version_dir) in
  let outcome := get_pdf_url respond directory_url version_dir spec_info log in
  exists k,
    (1 <= k <= 4)%nat /\
    snd outcome = (log ++ firstn k probes)%list /\
    forall url,
      fst outcome = Ok url ->
      exists response,
        respond (log ++ firstn (k - 1) probes)%list (mkRequest HEAD url 10) =
          Ok response /\
        status_code response = 200 /\
        firstn k probes = (firstn (k - 1) probes ++ [mkRequest HEAD url 10])%list.
Proof.
  cbv zeta. unfold get_pdf_url.
  destruct (probe_filenames_log respond (version_url_of directory_url version_dir)
              (possible_filenames spec_info version_dir) log) as (k & Hk & H);
    [discriminate|].
  exists k. split; [exact Hk | exact H].
Qed.

Lemma locate_requests_witness :
  exists response,
    (fun (_ : list Request) (rq : Request) =>
       if String.eqb (rq_url rq) "https://host/103224/01.07.01_60/ts_103224v010701.pdf"
       then Ok (mkResponse 200 "" "") else Ok (mkResponse 404 "" ""))
      [mkRequest HEAD "https://host/103224/01.07.01_60/ts_103224v010701p.pdf" 10]
      (mkRequest HEAD "https://host/103224/01.07.01_60/ts_103224v010701.pdf" 10) =
      Ok response /\
    status_code response = 200.
Proof.
  destruct (locate_requests
              (fun (_ : list Request) (rq : Request) =>
                 if String.eqb (rq_url rq)
                      "https://host/103224/01.07.01_60/ts_103224v010701.pdf"
                 then Ok (mkResponse 200 "" "") else Ok (mkResponse 404 "" ""))
              "https://host/103224/" "01.07.01_60" (mkSpecInfo "TS" "103" "224" None) [])
    as (k & Hk & Hlog & Hurl).
  assert (Ek : k = 2%nat).
  { apply (f_equal (@List.length Request)) in Hlog.
    rewrite length_app, length_firstn in Hlog. simpl in Hlog. lia. }
  subst k.
  destruct (Hurl "https://host/103224/01.07.01_60/ts_103224v010701.pdf" eq_refl)
    as (response & Hr & Hst & _).
  exists response. split; [exact Hr | exact Hst].
Defined.

(** ** More on the metadata extractor *)

Module ExtractorMore.
Import Re Text Patterns Grouping Title ReFacts GroupingFacts ExtractorFacts.

Lemma drop_app_len n pre rest :
  String.length pre = n -> Str.drop n (pre +:+ rest) = rest.
Proof. intros <-. apply StrFacts.drop_app. Qed.

Lemma take_app_len n pre rest :
  String.length pre = n -> Str.take n (pre +:+ rest) = pre.
Proof. intros <-. apply StrFacts.take_app. Qed.

(** [D:(\d{4})(\d{2})(\d{2})] on a text that starts with "D:" and eight
    digits. *)
Lemma search_date_prefix y m d rest :
  is_digits 4 y -> is_digits 2 m -> is_digits 2 d ->
  exists mt,
    search_from r_date 0 ("D:" +:+ y +:+ m +:+ d +:+ rest) = Some mt /\
    group 1 mt = Some y /\ group 2 mt = Some m /\ group 3 mt = Some d.
Proof.
  intros [Hly Hy] [Hlm Hm] [Hld Hd].
  change ("D:" +:+ y +:+ m +:+ d +:+ rest)
    with (String "D" (String ":" (y +:+ m +:+ d +:+ rest))).
  cbn [search_from]. unfold match_at, r_date. run_step.
  rewrite run_char. change (cclass_matches (COne (ALit "D")) "D") with true. cbn iota.
  run_step.
  rewrite run_char. change (cclass_matches (COne (ALit ":")) ":") with true. cbn iota.
  run_step. fold digit. rewrite rep_exact by lia.
  change (cclass_matches digit) with Char.isdigit.
  rewrite starts_with_n_app by assumption.
  rewrite (drop_app_len 4 y) by exact Hly.
  run_step. rewrite rep_exact by lia.
  change (cclass_matches digit) with Char.isdigit.
  rewrite starts_with_n_app by assumption.
  rewrite (drop_app_len 2 m) by exact Hlm.
  run_step. rewrite rep_exact by lia.
  change (cclass_matches digit) with Char.isdigit.
  rewrite starts_with_n_app by assumption.
  run_step. unfold accept. eexists. split; [reflexivity|].
  unfold group. cbn [m_groups lookup_group Nat.eqb].
  replace (4 + 2 - 2)%nat with 4%nat by lia.
  replace (2 + (4 + 2) - (4 + 2))%nat with 2%nat by lia.
  replace (2 + (2 + (4 + 2)) - (2 + (4 + 2)))%nat with 2%nat by lia.
  now rewrite (take_app_len 4 y), (take_app_len 2 m), (take_app_len 2 d).
Qed.

(** The dictionary after the document information step has at most the
    keys "title" and "creation_date". *)
Lemma read_document_info_no_date reader :
  read_document_info reader !! "publication_date" = None.
Proof.
  unfold read_document_info. destruct (pdf_metadata reader) as [info|]; [|reflexivity].
  case_bool_decide; [reflexivity|].
  now rewrite !lookup_insert_ne.
Qed.

Lemma read_document_info_creation_date reader info cd :
  pdf_metadata reader = Some info ->
  info !! "/CreationDate" = Some cd ->
  read_document_info reader !! "creation_date" = Some cd.
Proof.
  intros Hinfo Hcd. unfold read_document_info. rewrite Hinfo.
  case_bool_decide as E; [rewrite E, lookup_empty in Hcd; discriminate|].
  now rewrite lookup_insert_eq, Hcd.
Qed.

Lemma read_document_info_title reader info t :
  pdf_metadata reader = Some info ->
  info !! "/Title" = Some t ->
  read_document_info reader !! "title" = Some t.
Proof.
  intros Hinfo Ht. unfold read_document_info. rewrite Hinfo.
  case_bool_decide as E; [rewrite E, lookup_empty in Ht; discriminate|].
  rewrite lookup_insert_ne by discriminate.
  now rewrite lookup_insert_eq, Ht.
Qed.

(** The title step changes the title only. *)
Lemma metadata_of_reader_steps reader metadata :
  metadata_of_reader reader = Ok metadata ->
  exists titled : gmap string PdfObject,
    parse_publication_date titled = Ok metadata /\
    titled !! "creation_date" = read_document_info reader !! "creation_date" /\
    titled !! "publication_date" = None.
Proof.
  unfold metadata_of_reader.
  destruct (negb (has (read_document_info reader) "title")).
  - destruct (first_page_of reader) as [page|e]; [|discriminate]. cbn [rbind].
    destruct (extract_text page) as [text|e]; [|discriminate]. cbn [rbind].
    rewrite scan_title_find. cbn [rbind]. intros H.
    eexists. split; [exact H|].
    destruct (List.find _ _).
    + rewrite !lookup_insert_ne by discriminate.
      split; [reflexivity | apply read_document_info_no_date].
    + split; [reflexivity | apply read_document_info_no_date].
  - cbn [rbind]. intros H. eexists. split; [exact H|].
    split; [reflexivity | apply read_document_info_no_date].
Qed.

Section Extract.
Variable respond : list Request -> Request -> result Response.
Variable PdfReader : string -> result PdfDocument.

(** A successful extraction went through the reader. *)
Lemma extract_ok_reader pdf_url log log' metadata :
  extract_pdf_metadata respond PdfReader pdf_url log = (Ok metadata, log') ->
  exists response reader,
    respond log (mkRequest GET pdf_url 30) = Ok response /\
    PdfReader (content response) = Ok reader /\
    metadata_of_reader reader = Ok metadata.
Proof.
  unfold extract_pdf_metadata, bind, requests_get, request, lift.
  destruct (respond log _) as [response|e] eqn:Hr; [|discriminate].
  destruct (raise_for_status response); [|discriminate].
  destruct (PdfReader (content response)) as [reader|e] eqn:Hreader; [|discriminate].
  intros [= H _]. exists response, reader. auto.
Qed.
End Extract.

End ExtractorMore.

Import ExtractorMore.

(** X14: the publication date.  When the creation date of the document
    information is a text that starts with "D:" and eight digits, the
    publication date is these digits regrouped as YYYY-MM-DD, whatever
    follows them; the digits are not checked against the calendar. *)
Theorem publication_date_regrouped
  (respond : list Request -> Request -> result Response)
  (PdfReader : string -> result PdfDocument)
  (pdf_url : string) (log log' : list Request)
  (response : Response) (reader : PdfDocument) (info metadata : gmap string PdfObject)
  (y m d rest : string) :
  respond log (mkRequest GET pdf_url 30) = Ok response ->
  PdfReader (content response) = Ok reader ->
  pdf_metadata reader = Some info ->
  info !! "/CreationDate" = Some (TextString ("D:" +:+ y +:+ m +:+ d +:+ rest)) ->
  is_digits 4 y -> is_digits 2 m -> is_digits 2 d ->
  extract_pdf_metadata respond PdfReader pdf_url log = (Ok metadata, log') ->
  metadata !! "publication_date" = Some (TextString (y +:+ "-" +:+ m +:+ "-" +:+ d)).
Proof.
  intros Hr Hreader Hinfo Hcd Hy Hm Hd Hok.
  destruct (extract_ok_reader respond PdfReader _ _ _ _ Hok)
    as (response' & reader' & Hr' & Hreader' & Hmeta).
  rewrite Hr in Hr'. injection Hr' as <-.
  rewrite Hreader in Hreader'. injection Hreader' as <-.
  destruct (metadata_of_reader_steps reader metadata Hmeta) as (titled & Hdate & Hcreation & _).
  rewrite (read_document_info_creation_date reader info _ Hinfo Hcd) in Hcreation.
  unfold parse_publication_date in Hdate. rewrite Hcreation in Hdate.
  cbn [object_is_true] in Hdate.
  change (Str.is_empty ("D:" +:+ y +:+ m +:+ d +:+ rest)) with false in Hdate.
  cbn [negb] in Hdate.
  rewrite ExtractorFacts.search_object_text in Hdate.
  cbn [rbind] in Hdate.
  destruct (search_date_prefix y m d rest Hy Hm Hd) as (mt & Hs & H1 & H2 & H3).
  rewrite Hs, H1, H2, H3 in Hdate. injection Hdate as <-.
  apply lookup_insert_eq.
Qed.

Lemma publication_date_regrouped_witness :
  exists metadata log',
    extract_pdf_metadata (fun _ _ => Ok (mkResponse 200 "" "%PDF"))
        (fun _ => Ok (mkPdf (Some {["/CreationDate" :=
                                      TextString "D:20251399120000+01'00'";
                                    "/Title" := TextString "A title"]}) []))
        "https://host/a.pdf" [] = (Ok metadata, log') /\
    metadata !! "publication_date" = Some (TextString "2025-13-99").
Proof.
  assert (E : exists metadata log',
            extract_pdf_metadata (fun _ _ => Ok (mkResponse 200 "" "%PDF"))
              (fun _ => Ok (mkPdf (Some {["/CreationDate" :=
                                            TextString "D:20251399120000+01'00'";
                                          "/Title" := TextString "A title"]}) []))
              "https://host/a.pdf" [] = (Ok metadata, log'))
    by (vm_compute; do 2 eexists; reflexivity).
  destruct E as (metadata & log' & E). exists metadata, log'. split; [exact E|].
  refine (publication_date_regrouped (fun _ _ => Ok (mkResponse 200 "" "%PDF"))
            (fun _ => Ok (mkPdf (Some {["/CreationDate" :=
                                          TextString "D:20251399120000+01'00'";
                                        "/Title" := TextString "A title"]}) []))
            "https://host/a.pdf" [] log' (mkResponse 200 "" "%PDF") _ _ metadata
            "2025" "13" "99" "120000+01'00'" eq_refl eq_refl eq_refl _ _ _ _ E).
  - vm_compute. reflexivity.
  - split; reflexivity.
  - split; reflexivity.
  - split; reflexivity.
Defined.

(** X15: no creation date, no publication date.  When the document has
    no information dictionary, or one without a creation date or with an
    empty one, the metadata of a successful extraction has no
    "publication_date" entry. *)
Theorem no_creation_date_no_publication_date
  (respond : list Request -> Request -> result Response)
  (PdfReader : string -> result PdfDocument)
  (pdf_url : string) (log log' : list Request)
  (response : Response) (reader : PdfDocument) (metadata : gmap string PdfObject) :
  respond log (mkRequest GET pdf_url 30) = Ok response ->
  PdfReader (content response) = Ok reader ->
  match pdf_metadata reader with
  | Some info => has info "/CreationDate" = false
  | None => True
  end ->
  extract_pdf_metadata respond PdfReader pdf_url log = (Ok metadata, log') ->
  metadata !! "publication_date" = None.
Proof.
  intros Hr Hreader Hinfo Hok.
  destruct (extract_ok_reader respond PdfReader _ _ _ _ Hok)
    as (response' & reader' & Hr' & Hreader' & Hmeta).
  rewrite Hr in Hr'. injection Hr' as <-.
  rewrite Hreader in Hreader'. injection Hreader' as <-.
  destruct (metadata_of_reader_steps reader metadata Hmeta)
    as (titled & Hdate & Hcreation & Hnone).
  assert (Hhas : has titled "creation_date" = false).
  { unfold has. rewrite Hcreation. unfold read_document_info.
    destruct (pdf_metadata reader) as [info|]; [|reflexivity].
    case_bool_decide; [reflexivity|].
    rewrite lookup_insert_eq. unfold has in Hinfo.
    destruct (info !! "/CreationDate") as [x|]; [exact Hinfo | reflexivity]. }
  unfold parse_publication_date in Hdate. unfold has in Hhas.
  destruct (titled !! "creation_date") as [x|].
  - rewrite Hhas in Hdate. injection Hdate as <-. exact Hnone.
  - injection Hdate as <-. exact Hnone.
Qed.

Lemma no_creation_date_no_publication_date_witness :
  exists metadata log',
    extract_pdf_metadata (fun _ _ => Ok (mkResponse 200 "" "%PDF"))
        (fun _ => Ok (mkPdf (Some {["/Title" := TextString "A title"]}) []))
        "https://host/a.pdf" [] = (Ok metadata, log') /\
    metadata !! "publication_date" = None.
Proof.
  assert (E : exists metadata log',
            extract_pdf_metadata (fun _ _ => Ok (mkResponse 200 "" "%PDF"))
              (fun _ => Ok (mkPdf (Some {["/Title" := TextString "A title"]}) []))
              "https://host/a.pdf" [] = (Ok metadata, log'))
    by (vm_compute; do 2 eexists; reflexivity).
  destruct E as (metadata & log' & E). exists metadata, log'. split; [exact E|].
  refine (no_creation_date_no_publication_date
            (fun _ _ => Ok (mkResponse 200 "" "%PDF"))
            (fun _ => Ok (mkPdf (Some {["/Title" := TextString "A title"]}) []))
            "https://host/a.pdf" [] log' (mkResponse 200 "" "%PDF") _ metadata
            eq_refl eq_refl _ E).
  vm_compute. reflexivity.
Defined.



(** ** [format_version] *)

Module FormatFacts.
Import Digits.

Lemma split_no_sep sep a :
  Str.all (fun c => negb (Char.eqb c sep)) a = true -> Str.split sep a = [a].
Proof.
  induction a as [|c a IH]; [reflexivity|].
  simpl. intros H. apply andb_true_iff in H as [Hc Ha].
  apply negb_true_iff in Hc. now rewrite Hc, IH.
Qed.

Lemma split_app_sep sep a b :
  Str.all (fun c => negb (Char.eqb c sep)) a = true ->
  Str.split sep (a +:+ String sep b) = a :: Str.split sep b.
Proof.
  induction a as [|c a IH].
  - intros _. rewrite StrFacts.app_nil_l. simpl.
    unfold Char.eqb. now rewrite Ascii.eqb_refl.
  - intros H. simpl in H. apply andb_true_iff in H as [Hc Ha].
    apply negb_true_iff in Hc.
    rewrite StrFacts.app_cons. simpl. now rewrite Hc, IH.
Qed.

Lemma digit_not_dot c :
  Char.isdigit c = true -> negb (Char.eqb c ".") = true.
Proof. CharFacts.by_cases c. Qed.

(** The digits [str] writes, read by [int]. *)
Lemma digits_of_uint_acc d : forall acc,
  Int.digits (Z.pos acc) true (NilEmpty.string_of_uint d) =
    Some (Z.pos (Pos.of_uint_acc d acc)).
Proof.
  induction d; intros acc; cbn [NilEmpty.string_of_uint Pos.of_uint_acc];
    [reflexivity | ..];
    cbn [Int.digits];
    match goal with
    | |- context [Char.isdigit ?c] => change (Char.isdigit c) with true
    end;
    cbn iota; rewrite <- IHd; f_equal;
    unfold Int.digit_value; simpl Char.code; lia.
Qed.

Lemma digits_of_uint d : forall after,
  d <> Nil ->
  Int.digits 0 after (NilEmpty.string_of_uint d) = Some (Z.of_N (Pos.of_uint d)).
Proof.
  induction d; intros after Hne; [congruence | ..];
    cbn [NilEmpty.string_of_uint Pos.of_uint Int.digits];
    match goal with
    | |- context [Char.isdigit ?c] => change (Char.isdigit c) with true
    end;
    cbn iota;
    try (exact (digits_of_uint_acc d _)).
  destruct d; [reflexivity | ..]; apply IHd; discriminate.
Qed.

Lemma all_digit_of_uint d : Str.all Char.isdigit (NilEmpty.string_of_uint d) = true.
Proof. induction d; [reflexivity | ..]; simpl; exact IHd. Qed.

Lemma of_uint_nonempty d : d <> Nil -> NilEmpty.string_of_uint d <> "".
Proof. destruct d; [congruence | discriminate ..]. Qed.

Lemma string_of_uint_nonnil d :
  d <> Nil -> NilZero.string_of_uint d = NilEmpty.string_of_uint d.
Proof. destruct d; [congruence | reflexivity ..]. Qed.

Lemma value_of_uint d :
  d <> Nil -> value 0 (NilEmpty.string_of_uint d) = Z.of_N (Pos.of_uint d).
Proof.
  intros Hd.
  pose proof (IntFacts.digits_value (NilEmpty.string_of_uint d) 0 false
                (all_digit_of_uint d) (or_introl (of_uint_nonempty d Hd))) as H.
  rewrite digits_of_uint in H by exact Hd. now injection H.
Qed.

(** A text of digits is the writing of a decimal number. *)
Lemma digits_uint s :
  Str.all Char.isdigit s = true -> exists d, NilEmpty.string_of_uint d = s.
Proof.
  induction s as [|c s IH]; [now exists Nil|].
  simpl. intros H. apply andb_true_iff in H as [Hc Hs].
  destruct (IH Hs) as [d <-]. revert Hc. CharFacts.by_cases c; intros _;
    first [ now exists (D0 d) | now exists (D1 d) | now exists (D2 d)
          | now exists (D3 d) | now exists (D4 d) | now exists (D5 d)
          | now exists (D6 d) | now exists (D7 d) | now exists (D8 d)
          | now exists (D9 d) ].
Qed.

(** Dropping the leading zeros of the number drops those of its
    writing. *)
Lemma string_of_nzhead d :
  NilEmpty.string_of_uint (nzhead d) =
    Str.lstrip_by is_zero (NilEmpty.string_of_uint d).
Proof. induction d; try reflexivity. exact IHd. Qed.

Lemma string_of_unorm d :
  NilZero.string_of_uint (unorm d) = numeral (NilEmpty.string_of_uint d).
Proof.
  unfold numeral, unorm. rewrite <- string_of_nzhead.
  destruct (nzhead d); reflexivity.
Qed.

Lemma length_lstrip_by p s : (String.length (Str.lstrip_by p s) <= String.length s)%nat.
Proof.
  induction s as [|c s IH]; [reflexivity|]. simpl.
  destruct (p c); simpl; lia.
Qed.

Lemma length_numeral s : s <> "" -> (String.length (numeral s) <= String.length s)%nat.
Proof.
  intros Hne. unfold numeral.
  pose proof (length_lstrip_by is_zero s) as H.
  destruct (Str.lstrip_by is_zero s); [|exact H].
  destruct s; [congruence | simpl; lia].
Qed.

Lemma all_lstrip_by p q s :
  Str.all q s = true -> Str.all q (Str.lstrip_by p s) = true.
Proof.
  induction s as [|c s IH]; [reflexivity|]. simpl.
  intros H. destruct (p c); [apply andb_true_iff in H as [_ H]; auto | exact H].
Qed.

(** The numeral of a group is a group, of the same number. *)
Lemma numeral_group s : is_group s -> is_group (numeral s).
Proof.
  intros (Hne & Hd & Hlen). repeat split.
  - unfold numeral. destruct (Str.lstrip_by is_zero s); discriminate.
  - unfold numeral. pose proof (all_lstrip_by is_zero _ s Hd) as H.
    destruct (Str.lstrip_by is_zero s); [reflexivity | exact H].
  - pose proof (length_numeral s Hne). lia.
Qed.

Lemma value_lstrip_zeros s : value 0 (Str.lstrip_by is_zero s) = value 0 s.
Proof.
  induction s as [|c s IH]; [reflexivity|]. simpl.
  destruct (is_zero c) eqn:E; [|reflexivity].
  apply CharFacts.eqb_eq in E. subst c. exact IH.
Qed.

Lemma value_numeral s : value 0 (numeral s) = value 0 s.
Proof.
  unfold numeral. rewrite <- (value_lstrip_zeros s).
  destruct (Str.lstrip_by is_zero s); reflexivity.
Qed.

(** [str(int(s))] for a group of digits is its numeral. *)
Lemma str_value s : is_group s -> Int.str (value 0 s) = Ok (numeral s).
Proof.
  intros (Hne & Hd & Hlen).
  destruct (digits_uint s Hd) as [d <-].
  assert (Hnil : d <> Nil) by (intros ->; now apply Hne).
  rewrite value_of_uint by exact Hnil.
  unfold Int.str. rewrite Zabs2N.id, DecimalPos.Unsigned.to_of.
  assert (E : Z.to_int (Z.of_N (Pos.of_uint d)) = Pos (unorm d)).
  { rewrite <- (DecimalPos.Unsigned.to_of d).
    now destruct (Pos.of_uint d). }
  rewrite E. cbn [NilZero.string_of_int]. rewrite string_of_unorm.
  pose proof (length_numeral _ Hne) as Hl.
  assert (Hlim : (Int.max_str_digits <? String.length (numeral (NilEmpty.string_of_uint d)))%nat
                 = false) by (apply Nat.ltb_ge; lia).
  now rewrite Hlim.
Qed.

Lemma int_group s : is_group s -> Int.int s = Ok (value 0 s).
Proof. intros (Hne & Hd & Hlen). now apply IntFacts.int_value. Qed.

Lemma group_no_dot s :
  is_group s -> Str.all (fun x => negb (Char.eqb x ".")) s = true.
Proof.
  intros (_ & Hd & _). eapply StrFacts.all_impl; [apply digit_not_dot | exact Hd].
Qed.

End FormatFacts.

Import Digits FormatFacts.



(** X18: [format_version] on a text with fewer than two dots: the text
    is returned as it is, numbers or not. *)
Theorem format_version_short (a b : string) :
  Str.all (fun x => negb (Char.eqb x ".")) a = true ->
  Str.all (fun x => negb (Char.eqb x ".")) b = true ->
  format_version a = Ok a /\
  format_version (a +:+ "." +:+ b) = Ok (a +:+ "." +:+ b).
Proof.
  intros Ha Hb. unfold format_version. split.
  - now rewrite split_no_sep.
  - change ("." +:+ b) with (String "." b).
    now rewrite split_app_sep, split_no_sep.
Qed.

Lemma format_version_short_witness :
  format_version "latest" = Ok "latest" /\
  format_version ("latest" +:+ "." +:+ "7") = Ok ("latest" +:+ "." +:+ "7").
Proof. exact (format_version_short "latest" "7" eq_refl eq_refl). Defined.

(** ** The command line *)

Module MainFacts.
Import Grouping ParserFacts.

Ltac script_steps :=
  unfold usage, no_versions_found, sbind, print, print_exc, sys_exit, pure,
    run_io, lift, sret; cbn beta iota.

Section Run.
Variable respond : list Request -> Request -> result Response.
Variable find_all_a : string -> result (list (option string)).
Variable PdfReader : string -> result PdfDocument.
Variable month_and_year : string -> option string.
Variable http_error_text : Z -> string.

(** The enumerator makes its one request; it returns the empty list, or
    raises. *)
Lemma enumerate_cases url spec_info log :
  get_version_directories respond find_all_a url spec_info log =
    (match respond log (mkRequest GET url 30) with
     | Raise e => Raise e
     | Ok response =>
         if status_code response =? 404 then Ok []
         else
           rbind (raise_for_status response) (fun _ =>
           rbind (find_all_a (text response)) (fun links =>
             match links with
             | [] => Ok []
             | _ :: _ => Raise (ReError "missing ), unterminated subpattern" 0)
             end))
     end, (log ++ [mkRequest GET url 30])%list).
Proof.
  unfold get_version_directories, bind, requests_get, request, lift, ret.
  destruct (respond log _) as [response|e]; [|reflexivity].
  destruct (status_code response =? 404); [reflexivity|].
  destruct (raise_for_status response); [|reflexivity].
  destruct (find_all_a (text response)) as [[|link links]|e]; reflexivity.
Qed.

(** The resolver makes its one request. *)
Lemma resolve_log spec_info log :
  snd (get_spec_directory_url respond find_all_a spec_info log) =
    (log ++ [mkRequest GET (base_url_of spec_info) 30])%list.
Proof.
  rewrite resolve_cases.
  pose proof (primary_lookup_log respond find_all_a spec_info log) as H.
  destruct (primary_lookup respond find_all_a spec_info log) as [[[url|]|e] log'];
    exact H.
Qed.

(** The body of the [try], up to the enumeration of the versions, after
    which it never goes on. *)
Lemma main_body_steps spec_input log out :
  main_body respond find_all_a PdfReader month_and_year spec_input log out =
    match parse_spec_number spec_input with
    | Raise e => (Raised e, log, out)
    | Ok spec_info =>
        let searching :=
          [Line ("Searching for ETSI " +:+ doc_type spec_info +:+ " "
                   +:+ full_spec_of spec_info +:+ "...");
           Line ""] in
        match get_spec_directory_url respond find_all_a spec_info log with
        | (Raise e, log1) => (Raised e, log1, (out ++ searching)%list)
        | (Ok url, log1) =>
            let directory := [Line ("Directory: " +:+ url)] in
            let log2 := (log1 ++ [mkRequest GET url 30])%list in
            match fst (get_version_directories respond find_all_a url spec_info log1) with
            | Raise e => (Raised e, log2, (out ++ searching ++ directory)%list)
            | Ok _ =>
                (Exited 1, log2,
                 (out ++ searching ++ directory ++
                    [Line ("Error: No versions found for ETSI "
                             +:+ doc_type spec_info +:+ " " +:+ full_spec_of spec_info);
                     Line "";
                     Line "Possible reasons:";
                     Line "  - Specification number does not exist";
                     Line "  - Different URL structure for this document type";
                     Line "  - Try checking: https://www.etsi.org/deliver/etsi_<type>/"])%list)
            end
        end
    end.
Proof.
  unfold main_body. script_steps.
  destruct (parse_spec_number spec_input) as [spec_info|e]; [|reflexivity].
  cbn beta iota zeta.
  destruct (get_spec_directory_url respond find_all_a spec_info log) as [[url|e] log1];
    [|now rewrite <- !app_assoc].
  rewrite enumerate_cases. cbn [fst].
  destruct (respond log1 _) as [response|e]; [|now rewrite <- !app_assoc].
  destruct (status_code response =? 404); [now rewrite <- !app_assoc|].
  destruct (raise_for_status response); [|now rewrite <- !app_assoc].
  cbn [rbind].
  destruct (find_all_a (text response)) as [[|link links]|e];
    cbn [rbind]; now rewrite <- !app_assoc.
Qed.

(** Every [except] clause prints and exits with status 1. *)
Lemma on_exception_exits e log out :
  exists printed,
    on_exception http_error_text e log out = (Exited 1, log, (out ++ printed)%list) /\
    printed <> [].
Proof.
  destruct e; unfold on_exception; cbn [is_request_exception]; script_steps;
    rewrite <- ?app_assoc; eexists; (split; [reflexivity | discriminate]).
Qed.

End Run.

(** The parser raises nothing but its own [ValueError], on the text left
    after the normalisation. *)
Lemma parse_raises spec_input e :
  parse_spec_number spec_input = Raise e ->
  exists dt part s,
    normalize spec_input = Ok (dt, part, s) /\
    digit_groups s = None /\
    e = ValueError ("Invalid ETSI specification number: " +:+ s).
Proof.
  unfold parse_spec_number.
  destruct (normalize_total spec_input) as (dt & part & s & ->). cbn [rbind].
  rewrite match_digit_groups_eq.
  destruct (digit_groups s) as [[p n]|] eqn:E; [discriminate|].
  intros [= <-]. now exists dt, part, s.
Qed.

End MainFacts.

Import MainFacts.

(** X19: [main] never ends well.  Whatever the command line and whatever
    the network answers, the run stops in [sys.exit(1)] after printing
    something; it makes at most two requests, both of them [GET] with a
    timeout of 30: no file is ever probed or fetched. *)
Theorem main_always_exits_1
  (respond : list Request -> Request -> result Response)
  (find_all_a : string -> result (list (option string)))
  (PdfReader : string -> result PdfDocument)
  (month_and_year : string -> option string)
  (http_error_text : Z -> string)
  (argv : list string) (log : list Request) (out : list output) :
  exists requests printed,
    main respond find_all_a PdfReader month_and_year http_error_text argv log out =
      (Exited 1, (log ++ requests)%list, (out ++ printed)%list) /\
    (List.length requests <= 2)%nat /\
    List.Forall (fun rq => rq_method rq = GET /\ rq_timeout rq = 30) requests /\
    printed <> [].
Proof.
  assert (Husage : exists requests printed,
    (usage ;; sys_exit 1)%script log out =
      (Exited (A:=unit) 1, (log ++ requests)%list, (out ++ printed)%list) /\
    (List.length requests <= 2)%nat /\
    List.Forall (fun rq => rq_method rq = GET /\ rq_timeout rq = 30) requests /\
    printed <> []).
  { exists [], [Line "Usage: uv run get_etsi_spec.py <spec-number>";
                Line ""; Line "Examples:";
                Line "  uv run get_etsi_spec.py 103224";
                Line "  uv run get_etsi_spec.py 103 224";
                Line "  uv run get_etsi_spec.py ETSI TS 103 224";
                Line "  uv run get_etsi_spec.py EG 202 396-3";
                Line "  uv run get_etsi_spec.py TR 103 907";
                Line "  uv run get_etsi_spec.py ES 200 381-1"].
    script_steps. rewrite <- !app_assoc, app_nil_r.
    repeat split; [simpl; lia | constructor | discriminate]. }
  destruct argv as [|prog [|spec_input rest]]; [exact Husage ..|].
  clear Husage. unfold main, handle. rewrite main_body_steps.
  destruct (parse_spec_number spec_input) as [spec_info|e].
  - cbv zeta.
    pose proof (resolve_log respond find_all_a spec_info log) as Hlog.
    destruct (get_spec_directory_url respond find_all_a spec_info log)
      as [[url|e] log1]; cbn [snd] in Hlog; subst log1.
    + destruct (fst (get_version_directories respond find_all_a url spec_info _))
        as [version_dirs|e].
      * eexists [_; _], _. rewrite <- !app_assoc.
        repeat split; [simpl; lia | repeat constructor | discriminate].
      * destruct (on_exception_exits http_error_text e
                    ((log ++ [mkRequest GET (base_url_of spec_info) 30])
                       ++ [mkRequest GET url 30])%list
                    (out ++ [Line ("Searching for ETSI " +:+ doc_type spec_info
                                     +:+ " " +:+ full_spec_of spec_info +:+ "...");
                             Line ""] ++ [Line ("Directory: " +:+ url)])%list)
          as (printed & -> & Hne).
        eexists [_; _], (_ :: _ :: _ :: printed).
        rewrite <- !app_assoc.
        repeat split; [simpl; lia | repeat constructor | discriminate].
    + destruct (on_exception_exits http_error_text e
                  (log ++ [mkRequest GET (base_url_of spec_info) 30])%list
                  (out ++ [Line ("Searching for ETSI " +:+ doc_type spec_info
                                   +:+ " " +:+ full_spec_of spec_info +:+ "...");
                           Line ""])%list)
        as (printed & -> & Hne).
      eexists [_], (_ :: _ :: printed). rewrite <- !app_assoc.
      repeat split; [simpl; lia | repeat constructor | discriminate].
  - destruct (on_exception_exits http_error_text e log out) as (printed & -> & Hne).
    exists [], printed. rewrite app_nil_r.
    repeat split; [simpl; lia | constructor | exact Hne].
Qed.

(** X20: an identifier the parser refuses.  The parser raises only when
    the text left by the normalisation begins with none of the digit
    groupings; [main] then makes no request, prints the one line
    "Error: Invalid ETSI specification number: " followed by that
    normalised text, and exits with status 1. *)
Theorem main_invalid_identifier
  (respond : list Request -> Request -> result Response)
  (find_all_a : string -> result (list (option string)))
  (PdfReader : string -> result PdfDocument)
  (month_and_year : string -> option string)
  (http_error_text : Z -> string)
  (prog spec_input : string) (rest : list string) (e : exn)
  (log : list Request) (out : list output) :
  parse_spec_number spec_input = Raise e ->
  exists dt part s,
    normalize spec_input = Ok (dt, part, s) /\
    Grouping.digit_groups s = None /\
    main respond find_all_a PdfReader month_and_year http_error_text
      (prog :: spec_input :: rest) log out =
      (Exited 1, log,
       (out ++ [Line ("Error: Invalid ETSI specification number: " +:+ s)])%list).
Proof.
  intros Hparse.
  destruct (parse_raises spec_input e Hparse) as (dt & part & s & Hn & Hg & ->).
  exists dt, part, s. repeat split; [exact Hn | exact Hg |].
  unfold main, handle. rewrite main_body_steps, Hparse. reflexivity.
Qed.

Lemma main_invalid_identifier_witness :
  exists dt part s,
    normalize "ts 12-3" = Ok (dt, part, s) /\
    Grouping.digit_groups s = None /\
    main (fun _ _ => Raise (Timeout "timed out")) (fun _ => Ok [])
      (fun _ => Raise (LibraryError "no reader")) (fun _ => None) (fun _ => "")
      ["get_etsi_spec.py"; "ts 12-3"] [] [] =
      (Exited 1, [],
       ([] ++ [Line ("Error: Invalid ETSI specification number: " +:+ s)])%list).
Proof.
  exact (main_invalid_identifier (fun _ _ => Raise (Timeout "timed out"))
           (fun _ => Ok []) (fun _ => Raise (LibraryError "no reader"))
           (fun _ => None) (fun _ => "")
           "get_etsi_spec.py" "ts 12-3" [] _ [] [] eq_refl).
Defined.

(** X21: a directory listing with an anchor.  When the identifier is
    parsed, the resolver returns a URL, and the page of that URL is served
    with a status below 400 and holds at least one anchor, [main] prints
    the search and directory lines, then the compile error of the version
    pattern as an unexpected error with its traceback, and exits with
    status 1. *)
Theorem main_listing_with_anchor
  (respond : list Request -> Request -> result Response)
  (find_all_a : string -> result (list (option string)))
  (PdfReader : string -> result PdfDocument)
  (month_and_year : string -> option string)
  (http_error_text : Z -> string)
  (prog spec_input : string) (rest : list string)
  (spec_info : SpecInfo) (url : string) (response : Response)
  (link : option string) (links : list (option string))
  (log : list Request) (out : list output) :
  parse_spec_number spec_input = Ok spec_info ->
  fst (get_spec_directory_url respond find_all_a spec_info log) = Ok url ->
  respond (log ++ [mkRequest GET (base_url_of spec_info) 30])%list
    (mkRequest GET url 30) = Ok response ->
  status_code response < 400 ->
  find_all_a (text response) = Ok (link :: links) ->
  main respond find_all_a PdfReader month_and_year http_error_text
    (prog :: spec_input :: rest) log out =
    (Exited 1,
     (log ++ [mkRequest GET (base_url_of spec_info) 30; mkRequest GET url 30])%list,
     (out ++
        [Line ("Searching for ETSI " +:+ doc_type spec_info +:+ " "
                 +:+ full_spec_of spec_info +:+ "...");
         Line "";
         Line ("Directory: " +:+ url);
         Line "Unexpected error: missing ), unterminated subpattern at position 0";
         Traceback (ReError "missing ), unterminated subpattern" 0)])%list).
Proof.
  intros Hparse Hurl Hresp Hstatus Hlinks.
  unfold main, handle. rewrite main_body_steps, Hparse. cbv zeta.
  pose proof (resolve_log respond find_all_a spec_info log) as Hlog.
  destruct (get_spec_directory_url respond find_all_a spec_info log) as [r log1].
  cbn [fst snd] in Hurl, Hlog. subst r log1.
  rewrite enumerate_cases, Hresp. cbn [fst].
  destruct (Z.eqb_spec (status_code response) 404) as [E|_]; [lia|].
  rewrite ExtractorFacts.raise_for_status_ok by lia.
  cbn [rbind]. rewrite Hlinks. cbn [rbind].
  unfold on_exception. cbn [is_request_exception]. script_steps.
  now rewrite <- !app_assoc.
Qed.

Lemma main_listing_with_anchor_witness :
  main (fun _ _ => Ok (mkResponse 200 "<a href='01.07.01_60/'>01.07.01_60</a>" ""))
    (fun _ => Ok [Some "01.07.01_60/"])
    (fun _ => Raise (LibraryError "no reader")) (fun _ => None) (fun _ => "")
    ["get_etsi_spec.py"; "103 224"] [] [] =
    (Exited 1,
     [mkRequest GET "https://www.etsi.org/deliver/etsi_ts/" 30;
      mkRequest GET "https://www.etsi.org/deliver/etsi_ts/103900_999/103224/" 30],
     [Line "Searching for ETSI TS 103224...";
      Line "";
      Line "Directory: https://www.etsi.org/deliver/etsi_ts/103900_999/103224/";
      Line "Unexpected error: missing ), unterminated subpattern at position 0";
      Traceback (ReError "missing ), unterminated subpattern" 0)]).
Proof.
  exact (main_listing_with_anchor
           (fun _ _ => Ok (mkResponse 200 "<a href='01.07.01_60/'>01.07.01_60</a>" ""))
           (fun _ => Ok [Some "01.07.01_60/"])
           (fun _ => Raise (LibraryError "no reader")) (fun _ => None) (fun _ => "")
           "get_etsi_spec.py" "103 224" [] (mkSpecInfo "TS" "103" "224" None)
           "https://www.etsi.org/deliver/etsi_ts/103900_999/103224/"
           (mkResponse 200 "<a href='01.07.01_60/'>01.07.01_60</a>" "")
           (Some "01.07.01_60/") [] [] []
           eq_refl eq_refl eq_refl ltac:(simpl; lia) eq_refl).
Defined.

(** X22: no version found.  When the identifier is parsed, the resolver
    returns a URL, and the page of that URL is answered with status 404,
    or with a status below 400 and no anchor, [main] prints the search
    and directory lines and the six lines of the "No versions found"
    report, and exits with status 1. *)
Theorem main_no_versions
  (respond : list Request -> Request -> result Response)
  (find_all_a : string -> result (list (option string)))
  (PdfReader : string -> result PdfDocument)
  (month_and_year : string -> option string)
  (http_error_text : Z -> string)
  (prog spec_input : string) (rest : list string)
  (spec_info : SpecInfo) (url : string) (response : Response)
  (log : list Request) (out : list output) :
  parse_spec_number spec_input = Ok spec_info ->
  fst (get_spec_directory_url respond find_all_a spec_info log) = Ok url ->
  respond (log ++ [mkRequest GET (base_url_of spec_info) 30])%list
    (mkRequest GET url 30) = Ok response ->
  status_code response = 404 \/
    (status_code response < 400 /\ find_all_a (text response) = Ok []) ->
  main respond find_all_a PdfReader month_and_year http_error_text
    (prog :: spec_input :: rest) log out =
    (Exited 1,
     (log ++ [mkRequest GET (base_url_of spec_info) 30; mkRequest GET url 30])%list,
     (out ++
        [Line ("Searching for ETSI " +:+ doc_type spec_info +:+ " "
                 +:+ full_spec_of spec_info +:+ "...");
         Line "";
         Line ("Directory: " +:+ url);
         Line ("Error: No versions found for ETSI " +:+ doc_type spec_info +:+ " "
                 +:+ full_spec_of spec_info);
         Line "";
         Line "Possible reasons:";
         Line "  - Specification number does not exist";
         Line "  - Different URL structure for this document type";
         Line "  - Try checking: https://www.etsi.org/deliver/etsi_<type>/"])%list).
Proof.
  intros Hparse Hurl Hresp Hcase.
  unfold main, handle. rewrite main_body_steps, Hparse. cbv zeta.
  pose proof (resolve_log respond find_all_a spec_info log) as Hlog.
  destruct (get_spec_directory_url respond find_all_a spec_info log) as [r log1].
  cbn [fst snd] in Hurl, Hlog. subst r log1.
  rewrite enumerate_cases, Hresp. cbn [fst].
  destruct Hcase as [H404 | [Hstatus Hlinks]].
  - rewrite H404. cbn. now rewrite <- !app_assoc.
  - destruct (Z.eqb_spec (status_code response) 404) as [E|_]; [lia|].
    rewrite ExtractorFacts.raise_for_status_ok by lia.
    cbn [rbind]. rewrite Hlinks. cbn [rbind]. now rewrite <- !app_assoc.
Qed.

Lemma main_no_versions_witness :
  main (fun _ _ => Ok (mkResponse 404 "Not Found" "")) (fun _ => Ok [])
    (fun _ => Raise (LibraryError "no reader")) (fun _ => None) (fun _ => "")
    ["get_etsi_spec.py"; "EG 202 396-3"] [] [] =
    (Exited 1,
     [mkRequest GET "https://www.etsi.org/deliver/etsi_eg/" 30;
      mkRequest GET "https://www.etsi.org/deliver/etsi_eg/202900_999/202396-3/" 30],
     [Line "Searching for ETSI EG 202396-3...";
      Line "";
      Line "Directory: https://www.etsi.org/deliver/etsi_eg/202900_999/202396-3/";
      Line "Error: No versions found for ETSI EG 202396-3";
      Line "";
      Line "Possible reasons:";
      Line "  - Specification number does not exist";
      Line "  - Different URL structure for this document type";
      Line "  - Try checking: https://www.etsi.org/deliver/etsi_<type>/"]).
Proof.
  exact (main_no_versions
           (fun _ _ => Ok (mkResponse 404 "Not Found" "")) (fun _ => Ok [])
           (fun _ => Raise (LibraryError "no reader")) (fun _ => None) (fun _ => "")
           "get_etsi_spec.py" "EG 202 396-3" [] (mkSpecInfo "EG" "202" "396" (Some "3"))
           "https://www.etsi.org/deliver/etsi_eg/202900_999/202396-3/"
           (mkResponse 404 "Not Found" "") [] []
           eq_refl eq_refl eq_refl (or_introl eq_refl)).
Defined.

(** X23: an error status on the directory page.  When the identifier is
    parsed, the resolver returns a URL, and the page of that URL is
    answered with a status from 400 to 599 other than 404, [main] prints
    the search and directory lines, then "Network error: " with the text
    of the HTTP error, without a traceback, and exits with status 1. *)
Theorem main_http_error
  (respond : list Request -> Request -> result Response)
  (find_all_a : string -> result (list (option string)))
  (PdfReader : string -> result PdfDocument)
  (month_and_year : string -> option string)
  (http_error_text : Z -> string)
  (prog spec_input : string) (rest : list string)
  (spec_info : SpecInfo) (url : string) (response : Response)
  (log : list Request) (out : list output) :
  parse_spec_number spec_input = Ok spec_info ->
  fst (get_spec_directory_url respond find_all_a spec_info log) = Ok url ->
  respond (log ++ [mkRequest GET (base_url_of spec_info) 30])%list
    (mkRequest GET url 30) = Ok response ->
  400 <= status_code response < 600 ->
  status_code response <> 404 ->
  main respond find_all_a PdfReader month_and_year http_error_text
    (prog :: spec_input :: rest) log out =
    (Exited 1,
     (log ++ [mkRequest GET (base_url_of spec_info) 30; mkRequest GET url 30])%list,
     (out ++
        [Line ("Searching for ETSI " +:+ doc_type spec_info +:+ " "
                 +:+ full_spec_of spec_info +:+ "...");
         Line "";
         Line ("Directory: " +:+ url);
         Line ("Network error: " +:+ http_error_text (status_code response))])%list).
Proof.
  intros Hparse Hurl Hresp Hstatus H404.
  unfold main, handle. rewrite main_body_steps, Hparse. cbv zeta.
  pose proof (resolve_log respond find_all_a spec_info log) as Hlog.
  destruct (get_spec_directory_url respond find_all_a spec_info log) as [r log1].
  cbn [fst snd] in Hurl, Hlog. subst r log1.
  rewrite enumerate_cases, Hresp. cbn [fst].
  destruct (Z.eqb_spec (status_code response) 404) as [E|_]; [contradiction|].
  rewrite ExtractorFacts.raise_for_status_error by exact Hstatus.
  cbn [rbind].
  unfold on_exception. cbn [is_request_exception str_of_exn]. script_steps.
  now rewrite <- !app_assoc.
Qed.

Lemma main_http_error_witness :
  main (fun _ _ => Ok (mkResponse 503 "Service Unavailable" "")) (fun _ => Ok [])
    (fun _ => Raise (LibraryError "no reader")) (fun _ => None)
    (fun _ => "503 Server Error")
    ["get_etsi_spec.py"; "TR 103 907"] [] [] =
    (Exited 1,
     [mkRequest GET "https://www.etsi.org/deliver/etsi_tr/" 30;
      mkRequest GET "https://www.etsi.org/deliver/etsi_tr/103900_999/103907/" 30],
     [Line "Searching for ETSI TR 103907...";
      Line "";
      Line "Directory: https://www.etsi.org/deliver/etsi_tr/103900_999/103907/";
      Line "Network error: 503 Server Error"]).
Proof.
  exact (main_http_error
           (fun _ _ => Ok (mkResponse 503 "Service Unavailable" "")) (fun _ => Ok [])
           (fun _ => Raise (LibraryError "no reader")) (fun _ => None)
           (fun _ => "503 Server Error")
           "get_etsi_spec.py" "TR 103 907" [] (mkSpecInfo "TR" "103" "907" None)
           "https://www.etsi.org/deliver/etsi_tr/103900_999/103907/"
           (mkResponse 503 "Service Unavailable" "") [] []
           eq_refl eq_refl eq_refl ltac:(simpl; lia) ltac:(discriminate)).
Defined.

(** X24: a request that fails on the directory page.  When the
    identifier is parsed, the resolver returns a URL, and the request for
    that URL raises a connection error or a timeout, [main] prints the
    search and directory lines, then "Network error: " with the message
    of the exception, without a traceback, and exits with status 1. *)
Theorem main_request_failure
  (respond : list Request -> Request -> result Response)
  (find_all_a : string -> result (list (option string)))
  (PdfReader : string -> result PdfDocument)
  (month_and_year : string -> option string)
  (http_error_text : Z -> string)
  (prog spec_input : string) (rest : list string)
  (spec_info : SpecInfo) (url msg : string) (e : exn)
  (log : list Request) (out : list output) :
  parse_spec_number spec_input = Ok spec_info ->
  fst (get_spec_directory_url respond find_all_a spec_info log) = Ok url ->
  respond (log ++ [mkRequest GET (base_url_of spec_info) 30])%list
    (mkRequest GET url 30) = Raise e ->
  e = ConnectionError msg \/ e = Timeout msg ->
  main respond find_all_a PdfReader month_and_year http_error_text
    (prog :: spec_input :: rest) log out =
    (Exited 1,
     (log ++ [mkRequest GET (base_url_of spec_info) 30; mkRequest GET url 30])%list,
     (out ++
        [Line ("Searching for ETSI " +:+ doc_type spec_info +:+ " "
                 +:+ full_spec_of spec_info +:+ "...");
         Line "";
         Line ("Directory: " +:+ url);
         Line ("Network error: " +:+ msg)])%list).
Proof.
  intros Hparse Hurl Hresp He.
  unfold main, handle. rewrite main_body_steps, Hparse. cbv zeta.
  pose proof (resolve_log respond find_all_a spec_info log) as Hlog.
  destruct (get_spec_directory_url respond find_all_a spec_info log) as [r log1].
  cbn [fst snd] in Hurl, Hlog. subst r log1.
  rewrite enumerate_cases, Hresp. cbn [fst].
  destruct He as [-> | ->];
    unfold on_exception; cbn [is_request_exception str_of_exn]; script_steps;
    now rewrite <- !app_assoc.
Qed.

Lemma main_request_failure_witness :
  main (fun _ _ => Raise (Timeout "timed out")) (fun _ => Ok [])
    (fun _ => Raise (LibraryError "no reader")) (fun _ => None) (fun _ => "")
    ["get_etsi_spec.py"; "ES 200 381-1"] [] [] =
    (Exited 1,
     [mkRequest GET "https://www.etsi.org/deliver/etsi_es/" 30;
      mkRequest GET "https://www.etsi.org/deliver/etsi_es/200900_999/200381-1/" 30],
     [Line "Searching for ETSI ES 200381-1...";
      Line "";
      Line "Directory: https://www.etsi.org/deliver/etsi_es/200900_999/200381-1/";
      Line "Network error: timed out"]).
Proof.
  exact (main_request_failure
           (fun _ _ => Raise (Timeout "timed out")) (fun _ => Ok [])
           (fun _ => Raise (LibraryError "no reader")) (fun _ => None) (fun _ => "")
           "get_etsi_spec.py" "ES 200 381-1" [] (mkSpecInfo "ES" "200" "381" (Some "1"))
           "https://www.etsi.org/deliver/etsi_es/200900_999/200381-1/" "timed out" _
           [] []
           eq_refl eq_refl eq_refl (or_intror eq_refl)).
Defined.
